(** * A shallow embedding of spikeinterface's [GroundTruthStudy] and
      [SortingSummaryWidget]

    The study class is bookkeeping over a directory tree; the widget builds a
    nested layout tree.  The embedding follows the Python source:

    - [Py]: exceptions, results, the state-and-exception monad in which the
      methods run, and insertion-ordered dictionaries;
    - [PathLib]: pure POSIX paths ([pathlib.PurePosixPath] parts), the file
      system as a finite map from paths to nodes, and the [pathlib]/[shutil]
      operations the study uses;
    - [GroundTruthStudy]: comparison/groundtruthstudy.py;
    - [SortingSummary]: widgets/sorting_summary.py. *)

From Stdlib Require Import String Ascii ZArith QArith List.
From Stdlib Require Import DecimalString.
From stdpp Require Import gmap strings list fin_maps.

Local Open Scope string_scope.
Local Open Scope list_scope.

(* ===================================================================== *)
(** * Python runtime: exceptions, results, state monad, dictionaries      *)
(* ===================================================================== *)

Module Py.

(** The exception classes that the modelled code can raise.  [ExternalError]
    stands for any exception an external library call raises. *)
Inductive Exn : Type :=
  | ValueError
  | KeyError
  | IndexError
  | TypeError
  | AssertionError
  | AttributeError
  | FileExistsError
  | FileNotFoundError
  | NotADirectoryError
  | IsADirectoryError
  | JSONDecodeError
  | UnpicklingError
  | ExternalError (name : string).

#[global] Instance Exn_eq_dec : EqDecision Exn.
Proof. solve_decision. Defined.

(** Outcome of a call: a value or a raised exception. *)
Inductive Res (A : Type) : Type :=
  | Ok (a : A)
  | Raise (e : Exn).
Arguments Ok {A} a.
Arguments Raise {A} e.

Definition is_ok {A} (r : Res A) : bool :=
  match r with Ok _ => true | Raise _ => false end.

(** A computation over a mutable state [S].  The state survives an exception:
    what a Python method has written before it raises stays written. *)
Definition M (S A : Type) : Type := S -> Res A * S.

Definition ret {S A} (a : A) : M S A := fun s => (Ok a, s).
Definition raise {S A} (e : Exn) : M S A := fun s => (Raise e, s).
Definition bind {S A B} (m : M S A) (k : A -> M S B) : M S B :=
  fun s => match m s with
           | (Ok a, s') => k a s'
           | (Raise e, s') => (Raise e, s')
           end.
Definition gets {S A} (f : S -> A) : M S A := fun s => (Ok (f s), s).
Definition modify {S} (f : S -> S) : M S unit := fun s => (Ok tt, f s).
Definition lift {S A} (r : Res A) : M S A := fun s => (r, s).

(** [assert c, msg] *)
Definition assert {S} (c : bool) : M S unit :=
  if c then ret tt else raise AssertionError.

Declare Scope py_scope.
Delimit Scope py_scope with py.
Notation "'let*' x ':=' m 'in' k" := (bind m (fun x => k))
  (at level 10, x pattern, m at level 100, k at level 200) : py_scope.
Notation "m '>>' k" := (bind m (fun _ => k))
  (at level 65, right associativity) : py_scope.
Local Open Scope py_scope.

(** [for x in l: body x]; an exception in the body leaves the loop. *)
Fixpoint for_each {S A} (l : list A) (body : A -> M S unit) : M S unit :=
  match l with
  | [] => ret tt
  | x :: l' => body x >> for_each l' body
  end.

(** ** Dictionaries

    A Python [dict] keeps its keys in insertion order; [d[k] = v] overwrites
    in place when [k] is present and appends otherwise. *)
Section Dict.
  Context {K V : Type} `{EqDecision K}.

Definition dict : Type := list (K * V).

Fixpoint dict_get (k : K) (d : dict) : option V :=
    match d with
    | [] => None
    | (k', v) :: d' => if decide (k = k') then Some v else dict_get k d'
    end.

Fixpoint dict_set (k : K) (v : V) (d : dict) : dict :=
    match d with
    | [] => [(k, v)]
    | (k', v') :: d' =>
        if decide (k = k') then (k', v) :: d' else (k', v') :: dict_set k v d'
    end.

Definition dict_keys (d : dict) : list K := map fst d.

  (** [d[k]], raising [KeyError] when [k] is absent. *)
Definition dict_item (k : K) (d : dict) : Res V :=
    match dict_get k d with
    | Some v => Ok v
    | None => Raise KeyError
    end.

End Dict.
Arguments dict : clear implicits.

End Py.

(* ===================================================================== *)
(** * pathlib and the file system                                         *)
(* ===================================================================== *)

Module PathLib.
Import Py.

(** A path is the list of its [parts], as [pathlib.PurePosixPath] keeps them:
    [Path("/a/b").parts = ("/", "a", "b")].  The empty list is [Path(".")].
    Symbolic links and the resolution of [".."] by the operating system are
    outside the model: [".."] is an ordinary component. *)
Abbreviation Path := (list string).

(** [s.split(sep)] *)
Fixpoint split_on (sep : ascii) (s : string) : list string :=
  match s with
  | EmptyString => [""]
  | String c s' =>
      if Ascii.eqb c sep then "" :: split_on sep s'
      else match split_on sep s' with
           | h :: t => String c h :: t
           | [] => [String c ""]
           end
  end.

Definition is_component (c : string) : bool :=
  negb (String.eqb c "") && negb (String.eqb c ".").

(** Components of a path string: empty components and ["."] are dropped. *)
Definition components (s : string) : list string :=
  List.filter is_component (split_on "/" s).

(** The root of a path string: exactly two leading slashes are kept as
    ["//"], any other number of leading slashes is ["/"]. *)
Definition root_of (s : string) : list string :=
  match s with
  | String "/" (String "/" (String "/" _)) => ["/"]
  | String "/" (String "/" _) => ["//"]
  | String "/" _ => ["/"]
  | _ => []
  end.

(** [Path(s)] *)
Definition parse_path (s : string) : Path := root_of s ++ components s.

Definition is_root (c : string) : bool := String.eqb c "/" || String.eqb c "//".

Definition is_absolute (p : Path) : bool :=
  match p with
  | c :: _ => is_root c
  | [] => false
  end.

(** [p / s]: an absolute right operand replaces the left one. *)
Definition path_div (p : Path) (s : string) : Path :=
  let q := parse_path s in
  if is_absolute q then q else p ++ q.

Infix "</>" := path_div (at level 40, left associativity).

(** [p.parent] *)
Definition path_parent (p : Path) : Path :=
  match p with
  | [c] => if is_root c then p else []
  | _ => removelast p
  end.

(** [p.name] *)
Definition path_name (p : Path) : string :=
  if is_absolute p && Nat.eqb (length p) 1 then "" else List.last p "".

(** [s.rfind(c)] *)
Fixpoint rfind (c : ascii) (s : string) : option nat :=
  match s with
  | EmptyString => None
  | String a s' =>
      match rfind c s' with
      | Some i => Some (S i)
      | None => if Ascii.eqb a c then Some 0 else None
      end
  end.

(** [p.stem]: the name without its last suffix; a leading or a trailing dot
    does not start a suffix. *)
Definition stem_of_name (name : string) : string :=
  match rfind "." name with
  | Some i =>
      if Nat.ltb 0 i && Nat.ltb i (String.length name - 1)
      then substring 0 i name
      else name
  | None => name
  end.

Definition path_stem (p : Path) : string := stem_of_name (path_name p).

(** [s.endswith(suffix)] *)
Definition ends_with (suffix s : string) : bool :=
  String.prefix (String.rev suffix) (String.rev s).

(** [str(i)] for a natural number. *)
Definition str_of_nat (n : nat) : string :=
  NilZero.string_of_uint (Nat.to_uint n).

Section FileSystem.
  Context {C : Type}.

  (** A node is a directory or a regular file with its content. *)
Inductive Node : Type :=
    | Dir
    | File (content : C).

  (** The file system: the nodes that exist, by path.  The current directory
      [[]] and the roots exist always. *)
  Abbreviation FS := (gmap Path Node).

Definition node_at (fs : FS) (p : Path) : option Node :=
    match p with
    | [] => Some Dir
    | [c] => if is_root c then Some Dir else fs !! p
    | _ => fs !! p
    end.

  (** [p.exists()] *)
Definition path_exists (fs : FS) (p : Path) : bool :=
    match node_at fs p with Some _ => true | None => false end.

  (** [p.is_dir()] *)
Definition is_dir (fs : FS) (p : Path) : bool :=
    match node_at fs p with Some Dir => true | _ => false end.

  (** [p.is_file()] *)
Definition is_file (fs : FS) (p : Path) : bool :=
    match node_at fs p with Some (File _) => true | _ => false end.

  (** What the operating system checks before it creates an entry at [p]:
      the parent must be an existing directory. *)
Definition check_parent (fs : FS) (p : Path) : Res unit :=
    match node_at fs (path_parent p) with
    | None => Raise FileNotFoundError
    | Some (File _) => Raise NotADirectoryError
    | Some Dir => Ok tt
    end.

  (** [p.mkdir()] *)
Definition mkdir (fs : FS) (p : Path) : Res FS :=
    match node_at fs p with
    | Some _ => Raise FileExistsError
    | None =>
        match check_parent fs p with
        | Ok _ => Ok (<[p := Dir]> fs)
        | Raise e => Raise e
        end
    end.

  (** [p.mkdir(exist_ok=True)] *)
Definition mkdir_exist_ok (fs : FS) (p : Path) : Res FS :=
    match node_at fs p with
    | Some Dir => Ok fs
    | Some (File _) => Raise FileExistsError
    | None =>
        match check_parent fs p with
        | Ok _ => Ok (<[p := Dir]> fs)
        | Raise e => Raise e
        end
    end.

  (** Creates the directories [pre ++ [c1]], [pre ++ [c1; c2]], ... that are
      missing, top down. *)
Fixpoint ensure_dirs (fs : FS) (pre rest : Path) : Res FS :=
    match rest with
    | [] => Ok fs
    | c :: rest' =>
        let q := pre ++ [c] in
        match node_at fs q with
        | Some Dir => ensure_dirs fs q rest'
        | Some (File _) => Raise NotADirectoryError
        | None => ensure_dirs (<[q := Dir]> fs) q rest'
        end
    end.

  (** [p.mkdir(exist_ok=False, parents=True)] *)
Definition mkdir_parents (fs : FS) (p : Path) : Res FS :=
    if path_exists fs p then Raise FileExistsError else ensure_dirs fs [] p.

  (** [p.write_text(..)] and [p.write_bytes(..)] *)
Definition write_file (fs : FS) (p : Path) (c : C) : Res FS :=
    match node_at fs p with
    | Some Dir => Raise IsADirectoryError
    | _ =>
        match check_parent fs p with
        | Ok _ => Ok (<[p := File c]> fs)
        | Raise e => Raise e
        end
    end.

  (** [open(p, "r")] followed by reading the whole file. *)
Definition read_file (fs : FS) (p : Path) : Res C :=
    match node_at fs p with
    | None => Raise FileNotFoundError
    | Some Dir => Raise IsADirectoryError
    | Some (File c) => Ok c
    end.

  (** [shutil.rmtree(p)] *)
Definition rmtree (fs : FS) (p : Path) : Res FS :=
    match node_at fs p with
    | None => Raise FileNotFoundError
    | Some (File _) => Raise NotADirectoryError
    | Some Dir => Ok (filter (fun e => ¬ p `prefix_of` e.1) fs)
    end.

  (** [os.remove(p)] *)
Definition remove (fs : FS) (p : Path) : Res FS :=
  match node_at fs p with
  | None => Raise FileNotFoundError
  | Some Dir => Raise IsADirectoryError
  | Some (File _) => Ok (delete p fs)
  end.

  (** [shutil.copyfile(src, dst)] *)
Definition copyfile (fs : FS) (src dst : Path) : Res FS :=
    match read_file fs src with
    | Raise e => Raise e
    | Ok c =>
        if decide (src = dst) then Raise (ExternalError "SameFileError")
        else write_file fs dst c
    end.

  (** [fs'] has every directory of [fs]. *)
Definition keeps_dirs (fs fs' : FS) : Prop :=
  forall q : Path, fs !! q = Some Dir -> fs' !! q = Some Dir.

  (** The name of [p] when [p] is an entry of directory [d]. *)
Fixpoint child_name (d p : Path) : option string :=
    match d, p with
    | [], [name] => Some name
    | c :: d', c' :: p' => if String.eqb c c' then child_name d' p' else None
    | _, _ => None
    end.

  (** [d.glob("*" + suffix)]: the entries of [d] whose name ends with
      [suffix].  The order is the map's, as the order of a directory listing
      is the operating system's. *)
Definition glob_suffix (fs : FS) (d : Path) (suffix : string) : list Path :=
    List.filter
      (fun p => match child_name d p with
                | Some name => ends_with suffix name
                | None => false
                end)
      (map fst (map_to_list fs)).
End FileSystem.
Arguments Node : clear implicits.

End PathLib.


(* ===================================================================== *)
(** * comparison/groundtruthstudy.py                                      *)
(* ===================================================================== *)

Module GroundTruthStudy.
Import Py PathLib.
Local Open Scope py_scope.

(** ** Data *)

(** A component of a tuple key. *)
Inductive Atom : Type :=
  | AStr (s : string)
  | AInt (z : Z).

(** A case key as Python sees it: a [str], a [tuple], or an object of
    another hashable type ([int] and [None] stand for those). *)
Inductive Key : Type :=
  | KStr (s : string)
  | KTuple (items : list Atom)
  | KInt (z : Z)
  | KNone.

#[global] Instance Atom_eq_dec : EqDecision Atom.
Proof. solve_decision. Defined.
#[global] Instance Key_eq_dec : EqDecision Key.
Proof. solve_decision. Defined.

(** A recording or sorting extractor: an opaque object of the core library,
    known by its identity. *)
Record Extractor : Type := ExtractorObj { extractor_id : nat }.

#[global] Instance Extractor_eq_dec : EqDecision Extractor.
Proof. solve_decision. Defined.

(** Values found in sorter parameters and job descriptions. *)
Inductive PyVal : Type :=
  | VNone
  | VBool (b : bool)
  | VInt (z : Z)
  | VStr (s : string)
  | VPath (p : Path)
  | VExtractor (e : Extractor).

#[global] Instance PyVal_eq_dec : EqDecision PyVal.
Proof. solve_decision. Defined.

(** Keyword arguments and job descriptions: dictionaries with string keys
    whose order plays no role. *)
Abbreviation Kwargs := (gmap string PyVal).
Abbreviation Job := (gmap string PyVal).

(** A case, [cases[key]]: the entries the study reads.  [None] is an absent
    entry. *)
Record Case : Type := mkCase {
  case_dataset : option string;              (* case["dataset"] *)
  case_run_sorter_params : option Kwargs     (* case["run_sorter_params"] *)
}.

(** JSON values of info.json: [levels] is a string or a list of strings. *)
Inductive Json : Type :=
  | JNull
  | JInt (z : Z)
  | JStr (s : string)
  | JStrs (l : list string).

(** What a file of the study folder holds. *)
Inductive Content : Type :=
  | CJson (obj : dict string Json)           (* a JSON object *)
  | CPickleCases (cases : dict Key Case)     (* pickle.dumps(cases) *)
  | CPickleExtractor (e : Extractor)         (* an extractor's pickle *)
  | CBlob (tag : string).                    (* anything else *)

Abbreviation FS := (gmap Path (Node Content)).

(** The comparison object of the external comparison class, as far as the
    study reads it. *)
Record Comparison : Type := mkComparison {
  sorting1 : Extractor;
  sorting2 : Extractor;
  exhaustive_gt : bool;
  comparison_id : nat
}.

(** Calls that leave the module, in the order they are made. *)
Inductive Event : Type :=
  | EvOpen (p : Path)
  | EvLoadExtractor (p : Path)
  | EvReadSorterFolder (p : Path)
  | EvRunSorterJobs (job_list : list Job) (engine : string) (engine_kwargs : Kwargs)
  | EvDumpToPickle (e : Extractor) (p : Path)
  | EvSave (e : Extractor) (folder : Path)
  | EvExtractWaveforms (recording gt_sorting : Extractor) (folder : Path).

(** The world outside the object: the file system and the trace of calls. *)
Record World : Type := mkWorld {
  fs : FS;
  log : list Event
}.

(** The attributes of a [GroundTruthStudy] object. *)
Record Study : Type := mkStudy {
  folder : Path;
  info : dict string Json;
  levels : Json;
  datasets : dict string (Extractor * Extractor);
  cases : dict Key Case;
  sortings : dict Key (option Extractor);
  comparisons : dict Key (option Comparison)
}.

(** State of a method call: [self] and the world. *)
Record MState : Type := mkState {
  self : Study;
  world : World
}.

(** ** The external library

    Functions of spikeinterface.core and spikeinterface.sorters, which are not
    part of this module.  Loaders read the file system; writers and the job
    runner change it. *)
Class Externals : Type := {
  load_extractor : FS -> Path -> Res Extractor;
  (* read_sorter_folder(folder, raise_error=False) *)
  read_sorter_folder : FS -> Path -> Res (option Extractor);
  (* run_sorter_jobs(job_list, engine, engine_kwargs, return_output=False) *)
  run_sorter_jobs : list Job -> string -> Kwargs -> FS -> Res unit * FS;
  (* extractor.dump_to_pickle(path) *)
  dump_to_pickle : Extractor -> Path -> FS -> Res unit * FS;
  (* sorting.save(format="numpy_folder", folder=folder) *)
  save_numpy_folder : Extractor -> Path -> FS -> Res Extractor * FS;
  (* extract_waveforms(recording, sorting, folder=folder) *)
  extract_waveforms : Extractor -> Extractor -> Path -> FS -> Res unit * FS
}.

(** What is assumed of the writers where a result depends on it: a call that
    succeeds leaves the existing directories in place (with the arguments used
    here the writers refuse an existing target). *)
Definition writers_keep_dirs (Ext : Externals) : Prop :=
  (forall e p fs r fs', dump_to_pickle e p fs = (Ok r, fs') -> keeps_dirs fs fs') /\
  (forall e p fs e' fs', save_numpy_folder e p fs = (Ok e', fs') -> keeps_dirs fs fs') /\
  (forall r s p fs u fs', extract_waveforms r s p fs = (Ok u, fs') -> keeps_dirs fs fs').

(** ** State access *)

Definition set_fs (f : FS) (w : World) : World := mkWorld f (log w).

Definition set_info v (s : Study) : Study :=
  mkStudy (folder s) v (levels s) (datasets s) (cases s) (sortings s) (comparisons s).
Definition set_levels v (s : Study) : Study :=
  mkStudy (folder s) (info s) v (datasets s) (cases s) (sortings s) (comparisons s).
Definition set_datasets v (s : Study) : Study :=
  mkStudy (folder s) (info s) (levels s) v (cases s) (sortings s) (comparisons s).
Definition set_cases v (s : Study) : Study :=
  mkStudy (folder s) (info s) (levels s) (datasets s) v (sortings s) (comparisons s).
Definition set_sortings v (s : Study) : Study :=
  mkStudy (folder s) (info s) (levels s) (datasets s) (cases s) v (comparisons s).
Definition set_comparisons v (s : Study) : Study :=
  mkStudy (folder s) (info s) (levels s) (datasets s) (cases s) (sortings s) v.

(** [self.attr] and [self.attr = f(self.attr)] *)
Definition get_self {A} (f : Study -> A) : M MState A := gets (fun st => f (self st)).
Definition update_self (f : Study -> Study) : M MState unit :=
  modify (fun st => mkState (f (self st)) (world st)).

(** Runs a computation on the world inside a method. *)
Definition in_world {A} (m : M World A) : M MState A :=
  fun st => let (r, w) := m (world st) in (r, mkState (self st) w).

(** A [pathlib]/[shutil] operation that changes the file system. *)
Definition fs_op (op : FS -> Res FS) : M World unit :=
  fun w => match op (fs w) with
           | Ok f => (Ok tt, set_fs f w)
           | Raise e => (Raise e, w)
           end.

(** An external call that changes the file system, recorded in the trace. *)
Definition call_ext {A} (ev : Event) (f : FS -> Res A * FS) : M World A :=
  fun w => let (r, f') := f (fs w) in (r, mkWorld f' (log w ++ [ev])).

(** An external call that only reads the file system. *)
Definition call_reader {A} (ev : Event) (f : FS -> Res A) : M World A :=
  call_ext ev (fun fs0 => (f fs0, fs0)).

(** [p.exists()] *)
Definition exists_ (p : Path) : M World bool := gets (fun w => path_exists (fs w) p).

(** [with open(p) as f: ... load(f)] *)
Definition open_read (p : Path) : M World Content :=
  call_reader (EvOpen p) (fun fs0 => read_file fs0 p).

(** ** Keys *)

(** The separator of the components of a tuple key in folder names. *)
Definition _key_separator : string := " ## ".

(** [sep.join(items)] on strings. *)
Fixpoint str_join (sep : string) (items : list string) : string :=
  match items with
  | [] => ""
  | [x] => x
  | x :: rest => x +:+ sep +:+ str_join sep rest
  end.

(** The strings of a sequence, when every item is a [str]. *)
Fixpoint strs_of_atoms (items : list Atom) : option (list string) :=
  match items with
  | [] => Some []
  | AStr s :: rest => option_map (cons s) (strs_of_atoms rest)
  | AInt _ :: _ => None
  end.

(** [sep.join(items)]: [str.join] raises [TypeError] on an item that is not
    a [str]. *)
Definition join_atoms (sep : string) (items : list Atom) : Res string :=
  match strs_of_atoms items with
  | Some l => Ok (str_join sep l)
  | None => Raise TypeError
  end.

Definition key_to_str (key : Key) : Res string :=
  match key with
  | KStr s => Ok s
  | KTuple items => join_atoms _key_separator items
  | _ => Raise ValueError
  end.

(** [isinstance(key, str)] and [isinstance(key, tuple)] *)
Definition is_str (key : Key) : bool :=
  match key with KStr _ => true | _ => false end.
Definition is_tuple (key : Key) : bool :=
  match key with KTuple _ => true | _ => false end.

(** [len(key)] of a tuple key. *)
Definition key_len (key : Key) : nat :=
  match key with KTuple items => length items | _ => 0 end.

(** [c in s] for a character [c]. *)
Fixpoint str_contains (c : ascii) (s : string) : bool :=
  match s with
  | EmptyString => false
  | String a s' => Ascii.eqb a c || str_contains c s'
  end.

(** [list(levels)]: the characters of a string, the items of a list. *)
Definition list_of_levels (levels : Json) : Res (list string) :=
  match levels with
  | JStr s => Ok (map (fun c => String c "") (list_ascii_of_string s))
  | JStrs l => Ok l
  | _ => Raise TypeError
  end.

Definition is_jstr (j : Json) : bool :=
  match j with JStr _ => true | _ => false end.

Section Methods.
Context `{Ext : Externals}.

(** ** [scan_folder] and [__init__] *)

Definition load_extractor_ (p : Path) : M World Extractor :=
  call_reader (EvLoadExtractor p) (fun fs0 => load_extractor fs0 p).

Definition read_sorter_folder_ (p : Path) : M World (option Extractor) :=
  call_reader (EvReadSorterFolder p) (fun fs0 => read_sorter_folder fs0 p).

(** [json.load(f)] *)
Definition json_load (c : Content) : Res (dict string Json) :=
  match c with
  | CJson obj => Ok obj
  | _ => Raise JSONDecodeError
  end.

(** [pickle.load(f)], for the cases file. *)
Definition pickle_load (c : Content) : Res (dict Key Case) :=
  match c with
  | CPickleCases cs => Ok cs
  | _ => Raise UnpicklingError
  end.

(** The body of the loop over the recording pickles. *)
Definition scan_dataset_body (folder rec_file : Path) : M MState unit :=
  let key := path_stem rec_file in
  let* rec := in_world (load_extractor_ rec_file) in
  let* gt_sorting :=
    in_world (load_extractor_ (folder </> ("datasets/gt_sortings/" +:+ key))) in
  update_self (fun s => set_datasets (dict_set key (rec, gt_sorting) (datasets s)) s).

(** The body of the loop over [self.cases] that fills [self.sortings]. *)
Definition scan_sorting_body (folder : Path) (key : Key) : M MState unit :=
  let* ks := lift (key_to_str key) in
  let sorting_folder := folder </> "sortings" </> ks in
  let* ex := in_world (exists_ sorting_folder) in
  let* sorting := (if ex : bool
                   then let* s := in_world (load_extractor_ sorting_folder) in ret (Some s)
                   else ret None) in
  update_self (fun s => set_sortings (dict_set key sorting (sortings s)) s).

(** [{k: None for k in keys}] *)
Definition dict_of_none {V : Type} (keys : list Key) : dict Key (option V) :=
  fold_left (fun d k => dict_set k None d) keys [].

Definition scan_folder : M MState unit :=
  let* folder := get_self folder in
  let* ex := in_world (exists_ (folder </> "datasets")) in
  if negb ex then raise ValueError else
  let* c := in_world (open_read (folder </> "info.json")) in
  let* info := lift (json_load c) in
  update_self (set_info info) >>
  let* lv := lift (dict_item "levels" info) in
  update_self (set_levels lv) >>
  let* rec_files := in_world (gets (fun w =>
                      glob_suffix (fs w) (folder </> "datasets/recordings") ".pickle")) in
  for_each rec_files (scan_dataset_body folder) >>
  let* c := in_world (open_read (folder </> "cases.pickle")) in
  let* cs := lift (pickle_load c) in
  update_self (set_cases cs) >>
  update_self (set_comparisons (dict_of_none (dict_keys cs))) >>
  update_self (set_sortings []) >>
  for_each (dict_keys cs) (scan_sorting_body folder).

(** The object as [__init__] sets it up before scanning. *)
Definition new_study (study_folder : Path) : Study :=
  mkStudy study_folder [] JNull [] [] [] [].

(** [GroundTruthStudy(study_folder)]: the object exists only when
    [scan_folder] returns. *)
Definition init (study_folder : Path) : M World Study :=
  fun w => match scan_folder (mkState (new_study study_folder) w) with
           | (Ok _, st) => (Ok (self st), world st)
           | (Raise e, st) => (Raise e, world st)
           end.

(** ** [create] *)

Definition dump_to_pickle_ (e : Extractor) (p : Path) : M World unit :=
  call_ext (EvDumpToPickle e p) (dump_to_pickle e p).

Definition save_ (e : Extractor) (p : Path) : M World Extractor :=
  call_ext (EvSave e p) (save_numpy_folder e p).

(** The check that the keys of [cases] are homogeneous; returns [levels]. *)
Definition check_keys (cases : dict Key Case) (levels : option Json) : Res Json :=
  match dict_keys cases with
  | [] => Raise IndexError                      (* list(cases.keys())[0] *)
  | key0 :: _ =>
      let keys := dict_keys cases in
      match key0 with
      | KStr _ =>
          if negb (forallb is_str keys) then Raise AssertionError else
          match levels with
          | None => Ok (JStr "level0")
          | Some lv => if is_jstr lv then Ok lv else Raise AssertionError
          end
      | KTuple items =>
          if negb (forallb is_tuple keys) then Raise AssertionError else
          let num_levels := length items in
          if negb (forallb (fun k => Nat.eqb (key_len k) num_levels) keys)
          then Raise AssertionError else
          match levels with
          | None => Ok (JStrs (map (fun i => "level" +:+ str_of_nat i) (seq 0 num_levels)))
          | Some lv =>
              match list_of_levels lv with
              | Raise e => Raise e
              | Ok l => if Nat.eqb (length l) num_levels then Ok (JStrs l)
                        else Raise AssertionError
              end
          end
      | _ => Raise ValueError
      end
  end.

Definition create (study_folder : string)
    (datasets : dict string (Extractor * Extractor))
    (cases : dict Key Case) (levels : option Json) : M World Study :=
  let* levels := lift (check_keys cases levels) in
  let study_folder := parse_path study_folder in
  fs_op (fun f => mkdir_parents f study_folder) >>
  fs_op (fun f => mkdir f (study_folder </> "datasets")) >>
  fs_op (fun f => mkdir f (study_folder </> "datasets/recordings")) >>
  fs_op (fun f => mkdir f (study_folder </> "datasets/gt_sortings")) >>
  fs_op (fun f => mkdir f (study_folder </> "sorters")) >>
  fs_op (fun f => mkdir f (study_folder </> "sortings")) >>
  fs_op (fun f => mkdir f (study_folder </> "sortings" </> "run_logs")) >>
  fs_op (fun f => mkdir f (study_folder </> "metrics")) >>
  for_each datasets (fun '(key, (rec, gt_sorting)) =>
    assert (negb (str_contains "/" key)) >>
    assert (negb (str_contains "\" key)) >>
    dump_to_pickle_ rec (study_folder </> ("datasets/recordings/" +:+ key +:+ ".pickle")) >>
    dump_to_pickle_ gt_sorting (study_folder </> ("datasets/gt_sortings/" +:+ key +:+ ".pickle")) >>
    let* _ := save_ gt_sorting (study_folder </> ("datasets/gt_sortings/" +:+ key)) in
    ret tt) >>
  let info := [("levels", levels)] in
  fs_op (fun f => write_file f (study_folder </> "info.json") (CJson info)) >>
  fs_op (fun f => write_file f (study_folder </> "cases.pickle") (CPickleCases cases)) >>
  init study_folder.

(** ** [copy_sortings] *)

(** [case_keys=None] stands for all the keys of [self.cases]. *)
Definition keys_or_all (case_keys : option (list Key)) : M MState (list Key) :=
  match case_keys with
  | Some l => ret l
  | None => get_self (fun s => dict_keys (cases s))
  end.

Definition copy_sortings_body (force : bool) (key : Key) : M MState unit :=
  let* folder := get_self folder in
  let* ks := lift (key_to_str key) in
  let sorting_folder := folder </> "sortings" </> ks in
  let sorter_folder := folder </> "sorters" </> ks in
  let log_file := folder </> "sortings" </> "run_logs" </> (ks +:+ ".json") in
  let* sorting := in_world (read_sorter_folder_ sorter_folder) in
  match sorting with
  | None => ret tt
  | Some sorting =>
      let* ex := in_world (exists_ sorting_folder) in
      if ex && negb force then ret tt (* continue *) else
      (if ex then in_world (fs_op (fun f => rmtree f sorting_folder)) else ret tt) >>
      let* sorting := in_world (save_ sorting sorting_folder) in
      update_self (fun s => set_sortings (dict_set key (Some sorting) (sortings s)) s) >>
      in_world (fs_op (fun f =>
        copyfile f (sorter_folder </> "spikeinterface_log.json") log_file))
  end.

Definition copy_sortings (case_keys : option (list Key)) (force : bool) : M MState unit :=
  let* case_keys := keys_or_all case_keys in
  for_each case_keys (copy_sortings_body force).

(** ** [run_sorters] *)

(** The job description of a case that has to run: the last block of the
    loop body of [run_sorters]. *)
Definition make_job (s : Study) (key : Key) (sorter_folder : Path) (verbose : bool)
    : Res Job :=
  match dict_item key (cases s) with
  | Raise e => Raise e
  | Ok case =>
      match case_run_sorter_params case with
      | None => Raise KeyError
      | Some params =>                             (* a copy *)
          match case_dataset case with
          | None => Raise KeyError
          | Some dataset_key =>
              match dict_item dataset_key (datasets s) with
              | Raise e => Raise e
              | Ok (recording, _) =>
                  match params !! "sorter_name" with   (* params.pop("sorter_name") *)
                  | None => Raise KeyError
                  | Some sorter_name =>
                      let params := delete "sorter_name" params in
                      let job : Job :=
                        <["output_folder" := VPath sorter_folder]>
                          (<["recording" := VExtractor recording]>
                             (<["sorter_name" := sorter_name]> ∅)) in
                      let job := params ∪ job in   (* job.update(params) *)
                      Ok (<["verbose" := VBool verbose]> job)
                  end
              end
          end
      end
  end.

(** One turn of the loop of [run_sorters]: the job appended to [job_list],
    if any. *)
Definition run_sorters_body (keep verbose : bool) (key : Key) : M MState (option Job) :=
  let* folder := get_self folder in
  let* ks := lift (key_to_str key) in
  let sorting_folder := folder </> "sortings" </> ks in
  let* sorting_exists := in_world (exists_ sorting_folder) in
  let sorter_folder := folder </> "sorters" </> ks in
  let* sorter_folder_exists := in_world (exists_ sorting_folder) in
  let build : M MState (option Job) :=
    let* s := get_self id in
    let* job := lift (make_job s key sorter_folder verbose) in
    ret (Some job) in
  if keep then
    if sorting_exists then ret None (* continue *) else
    if sorter_folder_exists then
      let* sorting := in_world (read_sorter_folder_ sorter_folder) in
      match sorting with
      | Some _ => copy_sortings (Some [key]) true >> ret None (* continue *)
      | None => build
      end
    else build
  else build.

(** The loop of [run_sorters]: [job_list] grows at its end. *)
Fixpoint run_sorters_loop (keep verbose : bool) (case_keys : list Key)
    (job_list : list Job) : M MState (list Job) :=
  match case_keys with
  | [] => ret job_list
  | key :: rest =>
      let* job := run_sorters_body keep verbose key in
      run_sorters_loop keep verbose rest
        (match job with Some j => job_list ++ [j] | None => job_list end)
  end.

Definition run_sorter_jobs_ (job_list : list Job) (engine : string)
    (engine_kwargs : Kwargs) : M World unit :=
  call_ext (EvRunSorterJobs job_list engine engine_kwargs)
           (run_sorter_jobs job_list engine engine_kwargs).

Definition run_sorters (case_keys : option (list Key)) (engine : string)
    (engine_kwargs : Kwargs) (keep verbose : bool) : M MState unit :=
  let* case_keys := keys_or_all case_keys in
  let* job_list := run_sorters_loop keep verbose case_keys [] in
  in_world (run_sorter_jobs_ job_list engine engine_kwargs) >>
  if negb (String.eqb engine "slurm")
  then copy_sortings (Some case_keys) true
  else ret tt.

(** ** [run_comparisons] *)

Definition run_comparisons_body
    (comparison_class : Extractor -> Extractor -> Kwargs -> Res Comparison)
    (kwargs : Kwargs) (key : Key) : M MState unit :=
  let* s := get_self id in
  let* case := lift (dict_item key (cases s)) in
  let* dataset_key := lift (match case_dataset case with
                            | Some d => Ok d | None => Raise KeyError end) in
  let* (_, gt_sorting) := lift (dict_item dataset_key (datasets s)) in
  let* sorting := lift (dict_item key (sortings s)) in
  match sorting with
  | None =>
      update_self (fun s => set_comparisons (dict_set key None (comparisons s)) s)
  | Some sorting =>
      let* comp := lift (comparison_class gt_sorting sorting kwargs) in
      update_self (fun s => set_comparisons (dict_set key (Some comp) (comparisons s)) s)
  end.

Definition run_comparisons (case_keys : option (list Key))
    (comparison_class : Extractor -> Extractor -> Kwargs -> Res Comparison)
    (kwargs : Kwargs) : M MState unit :=
  let* case_keys := keys_or_all case_keys in
  for_each case_keys (run_comparisons_body comparison_class kwargs).

(** ** [extract_waveforms_gt] *)

Definition extract_waveforms_ (recording gt_sorting : Extractor) (p : Path) : M World unit :=
  call_ext (EvExtractWaveforms recording gt_sorting p)
           (extract_waveforms recording gt_sorting p).

Definition extract_waveforms_gt (case_keys : option (list Key)) : M MState unit :=
  let* case_keys := keys_or_all case_keys in
  let* folder := get_self folder in
  let base_folder := folder </> "waveforms" in
  in_world (fs_op (fun f => mkdir_exist_ok f base_folder)) >>
  for_each case_keys (fun key =>
    let* s := get_self id in
    let* case := lift (dict_item key (cases s)) in
    let* dataset_key := lift (match case_dataset case with
                              | Some d => Ok d | None => Raise KeyError end) in
    let* (recording, gt_sorting) := lift (dict_item dataset_key (datasets s)) in
    let* ks := lift (key_to_str key) in
    let wf_folder := base_folder </> ks in
    in_world (extract_waveforms_ recording gt_sorting wf_folder)).

(** ** [get_run_times] *)

(** The loop of [get_run_times]; [log.get("run_time", None)] is [JNull] for
    None. *)
Fixpoint get_run_times_loop (log_folder : Path) (case_keys : list Key)
    (run_times : dict Key Json) : M MState (dict Key Json) :=
  match case_keys with
  | [] => ret run_times
  | key :: rest =>
      let* ks := lift (key_to_str key) in
      let log_file := log_folder </> (ks +:+ ".json") in
      let* c := in_world (open_read log_file) in
      let* log := lift (json_load c) in
      let run_time := default JNull (dict_get "run_time" log) in
      get_run_times_loop log_folder rest (dict_set key run_time run_times)
  end.

(** The series that [get_run_times] returns, as the dictionary it is built
    from. *)
Definition get_run_times (case_keys : option (list Key)) : M MState (dict Key Json) :=
  let* case_keys := keys_or_all case_keys in
  let* folder := get_self folder in
  let log_folder := folder </> "sortings" </> "run_logs" in
  get_run_times_loop log_folder case_keys [].

End Methods.

(** ** Metrics

    [get_waveform_extractor], [compute_metrics], [get_metrics] and
    [get_units_snr].  The waveform extractor, the quality metrics and the
    data frames are external; their calls are passed through. *)
Section Metrics.
Context {Frame Column WaveformExtractor UnitId : Type}.

(** [load_waveforms(folder, with_recording=False)] *)
Variable load_waveforms : FS -> Path -> Res WaveformExtractor.
(** [we.set_recording(recording)] *)
Variable set_recording : WaveformExtractor -> Extractor -> WaveformExtractor.
(** [compute_quality_metrics(we, metric_names=metric_names)] *)
Variable compute_quality_metrics :
  WaveformExtractor -> list string -> FS -> Res Frame * FS.
(** [metrics.to_csv(filename, sep="\t", index=True)] *)
Variable to_csv : Frame -> Path -> FS -> Res unit * FS.
(** [pd.read_csv(filename, sep="\t", index_col=0)] *)
Variable pd_read_csv : FS -> Path -> Res Frame.
(** [gt_sorting.unit_ids] *)
Variable unit_ids : Extractor -> list UnitId.
(** [metrics.index = ids], which pandas refuses on a length mismatch *)
Variable set_index : Frame -> list UnitId -> Res Frame.
(** [metrics[column]] *)
Variable getitem : Frame -> string -> Res Column.

(** An external call that may change the file system. *)
Definition call_fs {A} (f : FS -> Res A * FS) : M MState A :=
  in_world (fun w => let (r, f') := f (fs w) in (r, set_fs f' w)).

(** [self.cases[key]["dataset"]] followed by [self.datasets[dataset_key]] *)
Definition dataset_of (key : Key) : M MState (Extractor * Extractor) :=
  let* s := get_self id in
  let* case := lift (dict_item key (cases s)) in
  let* dataset_key := lift (match case_dataset case with
                            | Some d => Ok d | None => Raise KeyError end) in
  lift (dict_item dataset_key (datasets s)).

Definition get_waveform_extractor (key : Key) : M MState WaveformExtractor :=
  let* folder := get_self folder in
  let* ks := lift (key_to_str key) in
  let* we := call_fs (fun f => (load_waveforms f (folder </> "waveforms" </> ks), f)) in
  let* (recording, _) := dataset_of key in
  ret (set_recording we recording).

Definition compute_metrics_body (metric_names : list string) (force : bool) (key : Key)
    : M MState unit :=
  let* folder := get_self folder in
  let* ks := lift (key_to_str key) in
  let filename := folder </> "metrics" </> (ks +:+ ".txt") in
  let* ex := in_world (exists_ filename) in
  if ex && negb force then ret tt (* continue *) else
  (if ex then in_world (fs_op (fun f => remove f filename)) else ret tt) >>
  let* we := get_waveform_extractor key in
  let* metrics := call_fs (compute_quality_metrics we metric_names) in
  call_fs (to_csv metrics filename).

Definition compute_metrics (case_keys : option (list Key)) (metric_names : list string)
    (force : bool) : M MState unit :=
  let* case_keys := keys_or_all case_keys in
  for_each case_keys (compute_metrics_body metric_names force).

(** [get_metrics]; [None] is Python's None, returned when the file is
    missing. *)
Definition get_metrics (key : Key) : M MState (option Frame) :=
  let* folder := get_self folder in
  let* ks := lift (key_to_str key) in
  let filename := folder </> "metrics" </> (ks +:+ ".txt") in
  let* ex := in_world (exists_ filename) in
  if negb ex then ret None else
  let* metrics := call_fs (fun f => (pd_read_csv f filename, f)) in
  let* (recording, gt_sorting) := dataset_of key in
  let* metrics := lift (set_index metrics (unit_ids gt_sorting)) in
  ret (Some metrics).

Definition get_units_snr (key : Key) : M MState Column :=
  let* metrics := get_metrics key in
  match metrics with
  | None => raise TypeError                    (* None["snr"] *)
  | Some m => lift (getitem m "snr")
  end.
End Metrics.

(** ** [get_count_units]

    The data frame is pandas'.  Its part that the method relies on is
    modelled here: the list of column labels and the cells.  Assigning
    through [.loc[row, col]] to a column label that the frame does not have
    enlarges the frame by that column ("setting with enlargement"). *)

Section CountUnits.
  (** The index built from the case keys, and the score thresholds, are
      passed through unchanged. *)
  Context {Index Score UnitId : Type}.

  (** [pd.Index(case_keys, name=levels)] and
      [pd.MultiIndex.from_tuples(case_keys, names=levels)] *)
  Variable pd_Index : list Key -> Json -> Res Index.
  Variable pd_MultiIndex_from_tuples : list Key -> Json -> Res Index.

  (** Methods of the sorting and comparison objects. *)
  Variable get_unit_ids : Extractor -> list UnitId.
  Variable count_well_detected_units : Comparison -> option Score -> Z.
  Variable count_overmerged_units : Comparison -> option Score -> Z.
  Variable count_redundant_units : Comparison -> option Score -> Z.
  Variable count_false_positive_units : Comparison -> option Score -> Z.
  Variable count_bad_units : Comparison -> Z.

Record DataFrame : Type := mkDataFrame {
    df_index : Index;
    df_columns : list string;
    df_cells : dict (Key * string) Z
  }.

  (** [pd.DataFrame(index=index, columns=columns, dtype=int)] *)
Definition new_frame (index : Index) (columns : list string) : DataFrame :=
    mkDataFrame index columns [].

  (** [df.loc[key, col] = v] *)
Definition loc_set (df : DataFrame) (key : Key) (col : string) (v : Z) : DataFrame :=
    mkDataFrame (df_index df)
      (if decide (col ∈ df_columns df) then df_columns df else df_columns df ++ [col])
      (dict_set (key, col) v (df_cells df)).

Definition base_columns : list string :=
    ["num_gt"; "num_sorter"; "num_well_detected"; "num_redundant"; "num_overmerged"].
Definition exhaustive_columns : list string :=
    ["num_false_positive"; "num_bad"].

  (** The body of the loop that fills the rows. *)
Definition count_units_body (s : Study)
      (well_detected_score redundant_score overmerged_score : option Score)
      (count_units : DataFrame) (key : Key) : Res DataFrame :=
    match dict_get key (comparisons s) with     (* self.comparisons.get(key, None) *)
    | Some (Some comp) =>
        let gt_sorting := sorting1 comp in
        let sorting := sorting2 comp in
        let df := loc_set count_units key "num_gt"
                    (Z.of_nat (length (get_unit_ids gt_sorting))) in
        let df := loc_set df key "num_sorter"
                    (Z.of_nat (length (get_unit_ids sorting))) in
        let df := loc_set df key "num_well_detected"
                    (count_well_detected_units comp well_detected_score) in
        if exhaustive_gt comp then
          let df := loc_set df key "num_overmerged"
                      (count_overmerged_units comp overmerged_score) in
          let df := loc_set df key "num_redundant"
                      (count_redundant_units comp redundant_score) in
          let df := loc_set df key "num_false_positive"
                      (count_false_positive_units comp redundant_score) in
          Ok (loc_set df key "num_bad" (count_bad_units comp))
        else Ok df
    | _ => Raise AssertionError                  (* assert comp is not None *)
    end.

  (** [for key in case_keys: ...] *)
Fixpoint count_units_loop (s : Study)
      (well_detected_score redundant_score overmerged_score : option Score)
      (case_keys : list Key) (count_units : DataFrame) : Res DataFrame :=
    match case_keys with
    | [] => Ok count_units
    | key :: rest =>
        match count_units_body s well_detected_score redundant_score
                overmerged_score count_units key with
        | Ok df => count_units_loop s well_detected_score redundant_score
                     overmerged_score rest df
        | Raise e => Raise e
        end
    end.

Definition get_count_units (s : Study) (case_keys : option (list Key))
      (well_detected_score redundant_score overmerged_score : option Score)
      : Res DataFrame :=
    let case_keys := match case_keys with
                     | Some l => l
                     | None => dict_keys (cases s)
                     end in
    match case_keys with
    | [] => Raise IndexError                     (* case_keys[0] *)
    | key0 :: _ =>
        match (if is_str key0 then pd_Index case_keys (levels s)
               else pd_MultiIndex_from_tuples case_keys (levels s)) with
        | Raise e => Raise e
        | Ok index =>
            match dict_item key0 (comparisons s) with
            | Raise e => Raise e
            | Ok None => Raise AttributeError    (* None.exhaustive_gt *)
            | Ok (Some comp) =>
                let columns :=
                  if exhaustive_gt comp then base_columns ++ exhaustive_columns
                  else base_columns in
                count_units_loop s well_detected_score redundant_score
                  overmerged_score case_keys (new_frame index columns)
            end
        end
    end.
End CountUnits.

End GroundTruthStudy.

(* ===================================================================== *)
(** * widgets/sorting_summary.py                                          *)
(* ===================================================================== *)

Module SortingSummary.

(** The layout tree of the sortingview backend ([sortingview.views]). *)
Inductive View : Type :=
  | SubView (widget : string) (id : nat)        (* a view built elsewhere *)
  | SortingCuration2 (label_choices : option (list string))
  | Splitter (direction : string) (item1 item2 : LayoutItem)
with LayoutItem : Type :=
  | mkLayoutItem (view : View) (stretch : option Q).

(** [vv.LayoutItem(view)] and [vv.LayoutItem(view, stretch=s)] *)
Definition LayoutItem_ (v : View) : LayoutItem := mkLayoutItem v None.
Definition LayoutItem_stretch (v : View) (s : Q) : LayoutItem := mkLayoutItem v (Some s).

Section Widget.
  (** Objects of the core library and of numpy. *)
  Context {WaveformExtractor Sorting Sparsity UnitId Properties Float : Type}.

Record UnitSimilarityScore : Type := mkUnitSimilarityScore {
    unit_id1 : UnitId;
    unit_id2 : UnitId;
    similarity_value : Float
  }.

  (** The [plot_data] dictionary set up by [__init__]. *)
Record DataPlot : Type := mkDataPlot {
    waveform_extractor : WaveformExtractor;
    unit_ids : list UnitId;
    sparsity : option Sparsity;
    unit_table_properties : option Properties;
    curation : bool;
    label_choices : option (list string);
    max_amplitudes_per_unit : option nat
  }.

  (** [we.sorting] *)
  Variable we_sorting : WaveformExtractor -> Sorting.
  (** [make_serializable] of utils_sortingview *)
  Variable make_serializable : list UnitId -> list UnitId.
  (** The [.view] of the other widgets, built with [hide_unit_selector=True],
      [generate_url=False], [display=False], [backend="sortingview"]. *)
  Variable AmplitudesWidget_view : WaveformExtractor -> list UnitId -> option nat -> View.
  Variable UnitTemplatesWidget_view : WaveformExtractor -> list UnitId -> option Sparsity -> View.
  Variable CrossCorrelogramsWidget_view : WaveformExtractor -> list UnitId -> View.
  Variable UnitLocationsWidget_view : WaveformExtractor -> list UnitId -> View.
  (** [TemplateSimilarityWidget(..).data_plot["similarity"][i1, i2]] *)
  Variable TemplateSimilarityWidget_similarity :
    WaveformExtractor -> list UnitId -> nat -> nat -> Float.
  (** [x.astype("float32")] *)
  Variable astype_float32 : Float -> Float.
  Variable generate_unit_table_view :
    Sorting -> option Properties -> list UnitSimilarityScore -> View.
  (** [handle_display_and_url(self, view, **backend_kwargs)] *)
  Variable handle_display_and_url : View -> option string.

  (** [enumerate(l)] *)
Definition enumerate {A} (l : list A) : list (nat * A) :=
  combine (seq 0 (length l)) l.

  (** The two nested loops that collect the similarity scores. *)
Definition similarity_scores (we : WaveformExtractor) (unit_ids : list UnitId)
    : list UnitSimilarityScore :=
  let similarity := TemplateSimilarityWidget_similarity we unit_ids in
  flat_map (fun '(i1, u1) =>
    map (fun '(i2, u2) =>
           mkUnitSimilarityScore u1 u2 (astype_float32 (similarity i1 i2)))
        (enumerate unit_ids))
    (enumerate unit_ids).

  (** What [plot_sortingview] leaves in the widget. *)
Record Plotted : Type := mkPlotted {
    view : View;
    url : option string
  }.

Definition plot_sortingview (dp : DataPlot) : Plotted :=
  let we := waveform_extractor dp in
  let sparsity := sparsity dp in
  let unit_ids := make_serializable (unit_ids dp) in
  let v_spike_amplitudes :=
    AmplitudesWidget_view we unit_ids (max_amplitudes_per_unit dp) in
  let v_average_waveforms := UnitTemplatesWidget_view we unit_ids sparsity in
  let v_cross_correlograms := CrossCorrelogramsWidget_view we unit_ids in
  let v_unit_locations := UnitLocationsWidget_view we unit_ids in
  let similarity_scores := similarity_scores we unit_ids in
  let v_units_table :=
    generate_unit_table_view (we_sorting (waveform_extractor dp))
      (unit_table_properties dp) similarity_scores in
  let v1 :=
    if curation dp then
      let v_curation := SortingCuration2 (label_choices dp) in
      Splitter "vertical" (LayoutItem_ v_units_table) (LayoutItem_ v_curation)
    else v_units_table in
  let v2 :=
    Splitter "horizontal"
      (LayoutItem_stretch v_unit_locations (2 # 10))
      (LayoutItem_
         (Splitter "horizontal"
            (LayoutItem_ v_average_waveforms)
            (LayoutItem_
               (Splitter "vertical"
                  (LayoutItem_ v_spike_amplitudes)
                  (LayoutItem_ v_cross_correlograms))))) in
  let view := Splitter "horizontal" (LayoutItem_ v1) (LayoutItem_ v2) in
  mkPlotted view (handle_display_and_url view).
End Widget.

End SortingSummary.

(* ===================================================================== *)
(** * A small concrete setting                                            *)
(* ===================================================================== *)

(** Stand-ins for the external library, simple enough to evaluate, and a toy
    study: one dataset and two cases.  They instantiate the general results
    below on concrete inputs. *)
Module Demo.
Import Py PathLib GroundTruthStudy.

(** A saved folder keeps the saved object in [provenance.pkl]. *)
Definition demo_load_extractor (f : FS) (p : Path) : Res Extractor :=
  match node_at f p with
  | Some (File (CPickleExtractor e)) => Ok e
  | Some Dir =>
      match f !! (p ++ ["provenance.pkl"]) with
      | Some (File (CPickleExtractor e)) => Ok e
      | _ => Raise (ExternalError "load_extractor")
      end
  | _ => Raise (ExternalError "load_extractor")
  end.

(** A sorter folder holds [spikeinterface_log.json] and, when the run
    succeeded, the sorting. *)
Definition demo_read_sorter_folder (f : FS) (p : Path) : Res (option Extractor) :=
  match f !! (p ++ ["spikeinterface_log.json"]) with
  | Some (File _) =>
      match f !! (p ++ ["sorting.pkl"]) with
      | Some (File (CPickleExtractor e)) => Ok (Some e)
      | _ => Ok None
      end
  | _ => Raise (ExternalError "Exception")
  end.

(** Runs each job: fills its output folder; job number [i] yields the sorting
    object [100 + i]. *)
Fixpoint demo_run_jobs (i : nat) (job_list : list Job) (f : FS) : FS :=
  match job_list with
  | [] => f
  | job :: rest =>
      match job !! "output_folder" with
      | Some (VPath p) =>
          demo_run_jobs (S i) rest
            (<[p ++ ["sorting.pkl"] := File (CPickleExtractor (ExtractorObj (100 + i)))]>
               (<[p ++ ["spikeinterface_log.json"] := File (CJson [])]>
                  (<[p := Dir]> f)))
      | _ => demo_run_jobs (S i) rest f
      end
  end.

Definition demo_run_sorter_jobs (job_list : list Job) (engine : string)
    (engine_kwargs : Kwargs) (f : FS) : Res unit * FS :=
  (Ok tt, demo_run_jobs 0 job_list f).

Definition demo_dump_to_pickle (e : Extractor) (p : Path) (f : FS) : Res unit * FS :=
  match write_file f p (CPickleExtractor e) with
  | Ok f' => (Ok tt, f')
  | Raise x => (Raise x, f)
  end.

Definition demo_save_numpy_folder (e : Extractor) (p : Path) (f : FS)
    : Res Extractor * FS :=
  match mkdir f p with
  | Ok f1 =>
      match write_file f1 (p ++ ["provenance.pkl"]) (CPickleExtractor e) with
      | Ok f2 => (Ok e, f2)
      | Raise x => (Raise x, f)
      end
  | Raise x => (Raise x, f)
  end.

Definition demo_extract_waveforms (r s : Extractor) (p : Path) (f : FS)
    : Res unit * FS :=
  match mkdir f p with
  | Ok f' => (Ok tt, f')
  | Raise x => (Raise x, f)
  end.

#[global] Instance demo_ext : Externals := {|
  load_extractor := demo_load_extractor;
  read_sorter_folder := demo_read_sorter_folder;
  run_sorter_jobs := demo_run_sorter_jobs;
  dump_to_pickle := demo_dump_to_pickle;
  save_numpy_folder := demo_save_numpy_folder;
  extract_waveforms := demo_extract_waveforms
|}.

Definition rec0 : Extractor := ExtractorObj 1.
Definition gt0 : Extractor := ExtractorObj 2.

Definition demo_datasets : dict string (Extractor * Extractor) :=
  [("toy", (rec0, gt0))].

Definition demo_cases : dict Key Case :=
  [ (KStr "tdc2", mkCase (Some "toy")
                    (Some (<["sorter_name" := VStr "tridesclous2"]> ∅)));
    (KStr "sc2", mkCase (Some "toy")
                   (Some (<["apply_preprocessing" := VBool false]>
                            (<["sorter_name" := VStr "spykingcircus2"]> ∅)))) ].

(** An empty file system with an empty trace. *)
Definition w0 : World := mkWorld ∅ [].

(** The study and the world after [create("study", ...)]. *)
Definition created : Res Study * World :=
  create "study" demo_datasets demo_cases None w0.

Definition created_state : MState :=
  match created with
  | (Ok s, w) => mkState s w
  | (Raise _, w) => mkState (new_study ["study"]) w
  end.

Definition created_study : Study := self created_state.
Definition created_world : World := world created_state.

(** The world after a sorter run of case tdc2 that failed: its sorter folder
    holds the log and no sorting. *)
Definition failed_run_world : World :=
  mkWorld (<[["study"; "sorters"; "tdc2"; "spikeinterface_log.json"] := File (CJson [])]>
             (<[["study"; "sorters"; "tdc2"] := Dir]> (fs created_world)))
          (log created_world).

(** The state after [run_sorters(engine="slurm")]: the jobs have run, the
    sorter folders are filled, and nothing is copied to [sortings] yet. *)
Definition slurm_state : MState :=
  snd (run_sorters None "slurm" ∅ true false created_state).

(** The state after [run_sorters(case_keys=["tdc2"])]. *)
Definition partly_sorted_state : MState :=
  snd (run_sorters (Some [KStr "tdc2"]) "loop" ∅ true false created_state).

(** The state after [run_sorters()] on the created study. *)
Definition sorted_state : MState :=
  snd (run_sorters None "loop" ∅ true false created_state).

(** A comparison class that takes [exhaustive_gt] from its keyword
    arguments, False by default. *)
Definition demo_comparison_class (gt_sorting sorting : Extractor) (kwargs : Kwargs)
    : Res Comparison :=
  Ok (mkComparison gt_sorting sorting
        (match kwargs !! "exhaustive_gt" with Some (VBool b) => b | _ => false end)
        (extractor_id sorting)).

(** The state after [run_comparisons(case_keys=["tdc2"])] followed by
    [run_comparisons(case_keys=["sc2"], exhaustive_gt=True)]. *)
Definition compared_state : MState :=
  snd (run_comparisons (Some [KStr "sc2"]) demo_comparison_class
         (<["exhaustive_gt" := VBool true]> ∅)
         (snd (run_comparisons (Some [KStr "tdc2"]) demo_comparison_class ∅
                 sorted_state))).

(** Stand-ins for pandas' index constructors and for the counting methods. *)
Definition demo_pd_Index (keys : list Key) (names : Json) : Res (list Key) := Ok keys.
Definition demo_get_unit_ids (e : Extractor) : list nat := seq 0 (extractor_id e).
Definition demo_count (comp : Comparison) (score : option nat) : Z := 3.
Definition demo_count_bad (comp : Comparison) : Z := 1.

(** [study.get_count_units()] in this setting. *)
Definition demo_get_count_units (s : Study) (case_keys : option (list Key))
    : Res (DataFrame (Index := list Key)) :=
  get_count_units demo_pd_Index demo_pd_Index demo_get_unit_ids
    demo_count demo_count demo_count demo_count demo_count_bad
    s case_keys None None None.

(** The state after a non-blocking run in which the log of the sorter of
    case tdc2 records a run time. *)
Definition timed_slurm_state : MState :=
  mkState (self slurm_state)
    (mkWorld (<[["study"; "sorters"; "tdc2"; "spikeinterface_log.json"]
                  := File (CJson [("run_time", JInt 12)])]> (fs (world slurm_state)))
             (log (world slurm_state))).

(** Stand-ins for the waveform extractor, the quality metrics and pandas: a
    waveform extractor is the folder it was loaded from, a frame is the list
    of its column labels, and a metrics file is a blob. *)
Definition demo_load_waveforms (f : FS) (p : Path) : Res Path :=
  if is_dir f p then Ok p else Raise (ExternalError "load_waveforms").
Definition demo_set_recording (we : Path) (recording : Extractor) : Path := we.
Definition demo_compute_quality_metrics (we : Path) (metric_names : list string) (f : FS)
    : Res (list string) * FS :=
  (Ok metric_names, f).
Definition demo_to_csv (metrics : list string) (p : Path) (f : FS) : Res unit * FS :=
  match write_file f p (CBlob "metrics") with
  | Ok f' => (Ok tt, f')
  | Raise x => (Raise x, f)
  end.
Definition demo_pd_read_csv (f : FS) (p : Path) : Res (list string) :=
  match read_file f p with
  | Ok _ => Ok ["snr"; "firing_rate"]
  | Raise x => Raise x
  end.
Definition demo_set_index (metrics : list string) (ids : list nat) : Res (list string) :=
  Ok metrics.
Definition demo_getitem (metrics : list string) (col : string) : Res string :=
  if decide (col ∈ metrics) then Ok col else Raise KeyError.

(** The state after [extract_waveforms_gt()] and [compute_metrics()] on the
    created study. *)
Definition metrics_state : MState :=
  snd (compute_metrics demo_load_waveforms demo_set_recording
         demo_compute_quality_metrics demo_to_csv None ["snr"; "firing_rate"] false
         (snd (extract_waveforms_gt None created_state))).

(** The created study with a metrics file of case tdc2 and no waveforms. *)
Definition stale_metrics_state : MState :=
  mkState created_study
    (mkWorld (<[["study"; "metrics"; "tdc2.txt"] := File (CBlob "metrics")]>
                (fs created_world))
             (log created_world)).

End Demo.

(* ===================================================================== *)
(** * Facts about the runtime                                             *)
(* ===================================================================== *)

Module PyFacts.
Import Py.
Local Open Scope py_scope.

Section Monad.
Context {S : Type}.

Lemma bind_ok {A B} (m : M S A) (k : A -> M S B) s a s1 :
  m s = (Ok a, s1) -> bind m k s = k a s1.
Proof. intros H. unfold bind. by rewrite H. Qed.

Lemma bind_raise {A B} (m : M S A) (k : A -> M S B) s e s1 :
  m s = (Raise e, s1) -> bind m k s = (Raise e, s1).
Proof. intros H. unfold bind. by rewrite H. Qed.

Lemma bind_Ok_inv {A B} (m : M S A) (k : A -> M S B) s b s' :
  bind m k s = (Ok b, s') ->
  exists a s1, m s = (Ok a, s1) /\ k a s1 = (Ok b, s').
Proof.
  unfold bind. destruct (m s) as [[a|e] s1]; intros H.
  - by exists a, s1.
  - discriminate.
Qed.

Lemma lift_Ok_inv {A} (r : Res A) (s : S) a s' :
  lift r s = (Ok a, s') -> r = Ok a /\ s' = s.
Proof. unfold lift. intros H. by inversion H. Qed.

(** A property that every turn of a loop preserves, whatever its outcome,
    holds when the loop ends or raises. *)
Lemma for_each_preserves {A} (P : S -> Prop) (l : list A) (body : A -> M S unit) :
  (forall x s r s', body x s = (r, s') -> P s -> P s') ->
  forall s r s', for_each l body s = (r, s') -> P s -> P s'.
Proof.
  intros Hbody. induction l as [|x l IH]; intros s r s' Hrun HP.
  - cbn in Hrun. by inversion Hrun; subst.
  - cbn [for_each] in Hrun. unfold bind in Hrun.
    destruct (body x s) as [[u|e] s1] eqn:Hx.
    + eapply IH; [exact Hrun |]. by eapply Hbody.
    + inversion Hrun; subst. by eapply Hbody.
Qed.
(** A property that every successful turn preserves holds when the loop
    returns. *)
Lemma for_each_Ok_preserves {A} (P : S -> Prop) (l : list A) (body : A -> M S unit) :
  (forall x s s', body x s = (Ok tt, s') -> P s -> P s') ->
  forall s s', for_each l body s = (Ok tt, s') -> P s -> P s'.
Proof.
  intros Hbody. induction l as [|x l IH]; intros s s' Hrun HP.
  - cbn in Hrun. by inversion Hrun; subst.
  - cbn [for_each] in Hrun. apply bind_Ok_inv in Hrun as ([] & s1 & Hx & Hrun).
    eapply IH; [exact Hrun |]. by eapply Hbody.
Qed.
End Monad.

Section DictFacts.
Context {K V : Type} `{EqDecision K}.
Implicit Types (d : dict K V) (k : K) (v : V).

Lemma dict_get_set_eq k v d : dict_get k (dict_set k v d) = Some v.
Proof.
  induction d as [|[k' v'] d IH]; simpl.
  - by rewrite decide_True.
  - destruct (decide (k = k')) as [->|Hne]; simpl.
    + by rewrite decide_True.
    + by rewrite decide_False.
Qed.

Lemma dict_get_set_ne k k' v d :
  k <> k' -> dict_get k' (dict_set k v d) = dict_get k' d.
Proof.
  intros Hne. induction d as [|[k0 v0] d IH]; simpl.
  - rewrite decide_False; [done | congruence].
  - destruct (decide (k = k0)) as [->|Hne0]; simpl.
    + rewrite !decide_False; [done | congruence | congruence].
    + destruct (decide (k' = k0)); [done | apply IH].
Qed.

Lemma dict_keys_set k v d :
  dict_keys (dict_set k v d) =
  if decide (k ∈ dict_keys d) then dict_keys d else dict_keys d ++ [k].
Proof.
  induction d as [|[k' v'] d IH].
  - cbn. case_decide as Hin; [inversion Hin | done].
  - cbn [dict_set]. destruct (decide (k = k')) as [->|Hne].
    + clear IH. cbn. case_decide as Hnin; [done | destruct Hnin; left].
    + change (dict_keys ((k', v') :: dict_set k v d))
        with (k' :: dict_keys (dict_set k v d)).
      change (dict_keys ((k', v') :: d)) with (k' :: dict_keys d).
      rewrite IH. clear IH. destruct (decide (k ∈ dict_keys d)) as [Hin|Hnin].
      * rewrite decide_True; [done | by right].
      * rewrite decide_False; [done |].
        intros Hin. apply elem_of_cons in Hin as [?|?]; congruence.
Qed.

Lemma elem_of_dict_keys_set k k' v d :
  k' ∈ dict_keys (dict_set k v d) <-> k' = k \/ k' ∈ dict_keys d.
Proof.
  rewrite dict_keys_set. destruct (decide (k ∈ dict_keys d)) as [Hin|Hnin].
  - split; [by right | intros [->|?]; done].
  - rewrite elem_of_app, list_elem_of_singleton. tauto.
Qed.

Lemma dict_get_is_Some k d : is_Some (dict_get k d) <-> k ∈ dict_keys d.
Proof.
  induction d as [|[k' v'] d IH]; simpl.
  - split; [intros [? ?]; done | intros H; inversion H].
  - destruct (decide (k = k')) as [->|Hne].
    + split; [intros _; left | eauto].
    + rewrite IH. split; [by right |].
      intros H. apply elem_of_cons in H as [?|?]; congruence.
Qed.

Lemma dict_keys_set_NoDup k v d :
  NoDup (dict_keys d) -> NoDup (dict_keys (dict_set k v d)).
Proof.
  intros Hnd. rewrite dict_keys_set.
  destruct (decide (k ∈ dict_keys d)) as [Hin|Hnin]; [done |].
  apply NoDup_app. split; [done |]. split.
  - intros x Hx Hx'. apply list_elem_of_singleton in Hx'. congruence.
  - apply NoDup_singleton.
Qed.

Lemma dict_item_Ok k d v : dict_item k d = Ok v <-> dict_get k d = Some v.
Proof.
  unfold dict_item. destruct (dict_get k d); split; intros H; by inversion H.
Qed.
End DictFacts.

End PyFacts.

(* ===================================================================== *)
(** * Facts about the file system                                         *)
(* ===================================================================== *)

Module PathLibFacts.
Import Py PathLib.

Section FileSystemFacts.
Context {C : Type}.
Implicit Types (f : gmap Path (Node C)) (p q : Path).

Lemma node_at_snoc f p (x : string) :
  is_root x = false -> node_at f (p ++ [x]) = f !! (p ++ [x]).
Proof.
  intros Hx. destruct p as [|a [|b p]]; cbn; [by rewrite Hx | done | done].
Qed.

Lemma lookup_Dir_node_at f p : f !! p = Some Dir -> node_at f p = Some Dir.
Proof.
  intros H. destruct p as [|a [|b p]]; cbn; [done | | done].
  by destruct (is_root a).
Qed.

Lemma node_at_None f p : node_at f p = None -> f !! p = None.
Proof.
  destruct p as [|a [|b p]]; cbn; [done | | done]. by destruct (is_root a).
Qed.

Lemma node_at_insert_Dir f p : node_at (<[p := Dir]> f) p = Some Dir.
Proof. apply lookup_Dir_node_at. by rewrite lookup_insert_eq. Qed.

Lemma keeps_dirs_refl f : keeps_dirs f f.
Proof. by intros q. Qed.

Lemma keeps_dirs_trans f1 f2 f3 :
  keeps_dirs f1 f2 -> keeps_dirs f2 f3 -> keeps_dirs f1 f3.
Proof. intros H12 H23 q Hq. by apply H23, H12. Qed.

Lemma keeps_dirs_insert_Dir f p : keeps_dirs f (<[p := Dir]> f).
Proof.
  intros q Hq. destruct (decide (p = q)) as [->|Hne].
  - by rewrite lookup_insert_eq.
  - by rewrite lookup_insert_ne.
Qed.

Lemma keeps_dirs_insert f p (n : Node C) :
  f !! p <> Some Dir -> keeps_dirs f (<[p := n]> f).
Proof.
  intros Hp q Hq. destruct (decide (p = q)) as [->|Hne]; [done |].
  by rewrite lookup_insert_ne.
Qed.

Lemma keeps_dirs_is_dir f f' p :
  keeps_dirs f f' -> is_dir f p = true -> is_dir f' p = true.
Proof.
  intros Hk. unfold is_dir. destruct p as [|a [|b p]]; cbn; [done | |].
  - destruct (is_root a); [done |].
    destruct (f !! [a]) as [[|c]|] eqn:Hl; [|done..]. intros _. by rewrite (Hk _ Hl).
  - destruct (f !! (a :: b :: p)) as [[|c]|] eqn:Hl; [|done..].
    intros _. by rewrite (Hk _ Hl).
Qed.

Lemma mkdir_Ok f p f' :
  mkdir f p = Ok f' -> keeps_dirs f f' /\ is_dir f' p = true.
Proof.
  unfold mkdir. destruct (node_at f p) eqn:Hn; [done |].
  destruct (check_parent f p); [|done]. intros H. inversion H; subst. split.
  - apply keeps_dirs_insert_Dir.
  - unfold is_dir. by rewrite node_at_insert_Dir.
Qed.

Lemma mkdir_exist_ok_Ok f p f' :
  mkdir_exist_ok f p = Ok f' -> keeps_dirs f f' /\ is_dir f' p = true.
Proof.
  unfold mkdir_exist_ok. destruct (node_at f p) as [[|c]|] eqn:Hn; [| done |].
  - intros H. inversion H; subst. split; [apply keeps_dirs_refl |].
    unfold is_dir. by rewrite Hn.
  - destruct (check_parent f p); [|done]. intros H. inversion H; subst. split.
    + apply keeps_dirs_insert_Dir.
    + unfold is_dir. by rewrite node_at_insert_Dir.
Qed.

Lemma ensure_dirs_Ok rest : forall f pre f',
  ensure_dirs f pre rest = Ok f' ->
  keeps_dirs f f' /\ (rest <> [] -> is_dir f' (pre ++ rest) = true).
Proof.
  induction rest as [|c rest IH]; intros f pre f' H.
  - cbn in H. inversion H; subst. split; [apply keeps_dirs_refl | done].
  - cbn [ensure_dirs] in H.
    replace (pre ++ c :: rest) with ((pre ++ [c]) ++ rest) by by rewrite <- app_assoc.
    destruct (node_at f (pre ++ [c])) as [[|x]|] eqn:Hn; [| done |].
    + apply IH in H as [Hk Hd]. split; [done |]. intros _.
      destruct rest as [|c' rest'].
      * rewrite app_nil_r. apply (keeps_dirs_is_dir f); [done |].
        unfold is_dir. by rewrite Hn.
      * by apply Hd.
    + apply IH in H as [Hk Hd]. split.
      * eapply keeps_dirs_trans; [apply keeps_dirs_insert_Dir | exact Hk].
      * intros _. destruct rest as [|c' rest'].
        -- rewrite app_nil_r. apply (keeps_dirs_is_dir (<[pre ++ [c] := Dir]> f)); [done |].
           unfold is_dir. by rewrite node_at_insert_Dir.
        -- by apply Hd.
Qed.

Lemma mkdir_parents_Ok f p f' :
  mkdir_parents f p = Ok f' -> keeps_dirs f f' /\ is_dir f' p = true.
Proof.
  unfold mkdir_parents. destruct (path_exists f p) eqn:Hex; [done |].
  intros H. apply ensure_dirs_Ok in H as [Hk Hd]. split; [done |].
  apply Hd. intros ->. by cbn in Hex.
Qed.

Lemma write_file_Ok f p (c : C) f' :
  write_file f p c = Ok f' -> f' = <[p := File c]> f /\ keeps_dirs f f'.
Proof.
  unfold write_file. intros H.
  assert (Hnd : f !! p <> Some Dir).
  { intros Hd. apply lookup_Dir_node_at in Hd. by rewrite Hd in H. }
  assert (Hf : f' = <[p := File c]> f).
  { destruct (node_at f p) as [[|x]|]; [done | |];
      destruct (check_parent f p); by inversion H. }
  split; [done |]. subst f'. by apply keeps_dirs_insert.
Qed.
End FileSystemFacts.

End PathLibFacts.

(* ===================================================================== *)
(** * Facts about [GroundTruthStudy]                                      *)
(* ===================================================================== *)

Module StudyFacts.
Import Py PathLib GroundTruthStudy PyFacts PathLibFacts.
Local Open Scope py_scope.

(** Inverts a run of [bind m k] that returned. *)
Ltac inv_bind H :=
  let a := fresh "a" in
  let s := fresh "st" in
  let Hm := fresh "Hm" in
  apply bind_Ok_inv in H as (a & s & Hm & H).

(** The keys are all strings, or all tuples of one length. *)
Definition homogeneous (keys : list Key) : Prop :=
  Forall (fun k => is_str k = true) keys \/
  exists n, Forall (fun k => is_tuple k = true /\ key_len k = n) keys.

Section WithExternals.
Context `{Ext : Externals}.

Lemma forallb_elem {A} (f : A -> bool) (l : list A) (x : A) :
  forallb f l = true -> x ∈ l -> f x = true.
Proof.
  intros Hall Hin. apply list_elem_of_In in Hin.
  by apply (proj1 (forallb_forall f l) Hall).
Qed.

(** ** Missing study folder *)

Lemma scan_folder_no_datasets (st : MState) :
  path_exists (fs (world st)) (folder (self st) </> "datasets") = false ->
  scan_folder st = (Raise ValueError, st).
Proof.
  intros H. destruct st as [s w]. cbn in H.
  unfold scan_folder, bind, get_self, in_world, exists_, gets. cbn.
  rewrite H. reflexivity.
Qed.

(** C2: constructing a study on a folder without a [datasets] subfolder
    raises ValueError, from [scan_folder]; nothing is read, written or
    assigned: the world and the object under construction are as before. *)
Theorem init_requires_datasets (study_folder : Path) (w : World) :
  path_exists (fs w) (study_folder </> "datasets") = false ->
  scan_folder (mkState (new_study study_folder) w)
    = (Raise ValueError, mkState (new_study study_folder) w) /\
  init study_folder w = (Raise ValueError, w).
Proof.
  intros H.
  assert (Hs : scan_folder (mkState (new_study study_folder) w)
               = (Raise ValueError, mkState (new_study study_folder) w))
    by (by apply scan_folder_no_datasets).
  split; [exact Hs |]. unfold init. by rewrite Hs.
Qed.

(** ** What [scan_folder] leaves in the object *)

(** The sorting that the scan finds for a key in file system [f]. *)
Definition sorting_found (f : FS) (dir : Path) (key : Key) : option Extractor :=
  match key_to_str key with
  | Ok ks =>
      let p := dir </> "sortings" </> ks in
      if path_exists f p
      then match load_extractor f p with Ok e => Some e | Raise _ => None end
      else None
  | Raise _ => None
  end.

(** The state of the object after a scan of file system [f]: the invariant
    that [scan_folder] establishes. *)
Definition scanned (s : Study) (f : FS) : Prop :=
  (forall k, k ∈ dict_keys (sortings s) <-> k ∈ dict_keys (cases s)) /\
  (forall k, k ∈ dict_keys (comparisons s) <-> k ∈ dict_keys (cases s)) /\
  (forall k, k ∈ dict_keys (cases s) -> dict_get k (comparisons s) = Some None) /\
  (forall k, k ∈ dict_keys (cases s) ->
     exists ks v, key_to_str k = Ok ks /\
       dict_get k (sortings s) = Some v /\
       (v <> None <-> path_exists f (folder s </> "sortings" </> ks) = true)).

Lemma scan_sorting_body_run (dir : Path) (key : Key) (s : Study) (w : World) :
  scan_sorting_body dir key (mkState s w) =
  match key_to_str key with
  | Raise e => (Raise e, mkState s w)
  | Ok ks =>
      let p := dir </> "sortings" </> ks in
      if path_exists (fs w) p then
        match load_extractor (fs w) p with
        | Ok e =>
            (Ok tt, mkState (set_sortings (dict_set key (Some e) (sortings s)) s)
                            (mkWorld (fs w) (log w ++ [EvLoadExtractor p])))
        | Raise e =>
            (Raise e, mkState s (mkWorld (fs w) (log w ++ [EvLoadExtractor p])))
        end
      else (Ok tt, mkState (set_sortings (dict_set key None (sortings s)) s) w)
  end.
Proof.
  unfold scan_sorting_body, bind, lift. destruct (key_to_str key) as [ks|e]; [|done].
  cbn. destruct (path_exists (fs w) _); cbn; [|done].
  by destruct (load_extractor (fs w) _).
Qed.

Lemma scan_dataset_body_frame (dir rec_file : Path) st r st' :
  scan_dataset_body dir rec_file st = (r, st') ->
  fs (world st') = fs (world st) /\ folder (self st') = folder (self st).
Proof.
  destruct st as [s w]. unfold scan_dataset_body, bind. cbn.
  destruct (load_extractor (fs w) rec_file); cbn.
  - destruct (load_extractor (fs w) _); cbn; intros H; by inversion H.
  - intros H; by inversion H.
Qed.

Lemma scan_datasets_loop_frame (dir : Path) (rec_files : list Path) st r st' :
  for_each rec_files (scan_dataset_body dir) st = (r, st') ->
  fs (world st') = fs (world st) /\ folder (self st') = folder (self st).
Proof.
  intros Hrun.
  apply (for_each_preserves
           (fun x => fs (world x) = fs (world st) /\ folder (self x) = folder (self st))
           rec_files (scan_dataset_body dir)) in Hrun; [done | | done].
  intros x s0 r0 s1 Hbody [Hf Hd].
  apply scan_dataset_body_frame in Hbody as [Hf' Hd']. split; congruence.
Qed.

Lemma dict_of_none_get {V} (keys : list Key) (k : Key) :
  dict_get k (@dict_of_none V keys) = if decide (k ∈ keys) then Some None else None.
Proof.
  unfold dict_of_none.
  assert (Hgen : forall d : dict Key (option V),
            dict_get k (fold_left (fun d k => dict_set k None d) keys d) =
            if decide (k ∈ keys) then Some None else dict_get k d).
  { induction keys as [|k0 keys IH]; intros d; cbn [fold_left].
    - case_decide as Hin; [inversion Hin | done].
    - rewrite IH. destruct (decide (k ∈ keys)) as [Hin|Hnin].
      + rewrite decide_True; [done | by right].
      + destruct (decide (k = k0)) as [->|Hne].
        * rewrite decide_True; [| left]. apply dict_get_set_eq.
        * rewrite decide_False.
          -- by apply dict_get_set_ne.
          -- intros Hin. apply elem_of_cons in Hin as [?|?]; congruence. }
  by rewrite Hgen.
Qed.

Lemma scan_sortings_loop (dir : Path) (keys : list Key) :
  forall s w s' w',
    for_each keys (scan_sorting_body dir) (mkState s w) = (Ok tt, mkState s' w') ->
    fs w' = fs w /\
    folder s' = folder s /\ cases s' = cases s /\ comparisons s' = comparisons s /\
    (forall k, dict_get k (sortings s') =
               if decide (k ∈ keys) then Some (sorting_found (fs w) dir k)
               else dict_get k (sortings s)) /\
    Forall (fun k => exists ks, key_to_str k = Ok ks /\
              (path_exists (fs w) (dir </> "sortings" </> ks) = true ->
               is_Some (sorting_found (fs w) dir k))) keys.
Proof.
  induction keys as [|key keys IH]; intros s w s' w' Hrun.
  - cbn in Hrun. inversion Hrun; subst. repeat split; try done.
  - cbn [for_each] in Hrun. unfold bind in Hrun at 1.
    rewrite scan_sorting_body_run in Hrun.
    destruct (key_to_str key) as [ks|e] eqn:Hks; [|done].
    cbv zeta in Hrun.
    destruct (path_exists (fs w) (dir </> "sortings" </> ks)) eqn:Hex.
    + destruct (load_extractor (fs w) (dir </> "sortings" </> ks)) as [e|e] eqn:Hload;
        [|done].
      apply IH in Hrun as (Hfs & Hfo & Hca & Hco & Hget & Hall).
      cbn [fs folder cases comparisons sortings set_sortings] in Hfs, Hfo, Hca, Hco, Hget, Hall.
      repeat split; try done.
      * intros k. rewrite Hget. destruct (decide (k ∈ keys)) as [Hin|Hnin].
        -- rewrite decide_True; [done | by right].
        -- destruct (decide (k = key)) as [->|Hne].
           ++ rewrite decide_True; [| left]. rewrite dict_get_set_eq.
              unfold sorting_found. rewrite Hks. cbv zeta. by rewrite Hex, Hload.
           ++ rewrite decide_False.
              ** apply dict_get_set_ne. congruence.
              ** intros Hin. apply elem_of_cons in Hin as [?|?]; congruence.
      * constructor; [|done]. exists ks. split; [done |]. intros _.
        unfold sorting_found. rewrite Hks. cbv zeta. rewrite Hex, Hload. eauto.
    + apply IH in Hrun as (Hfs & Hfo & Hca & Hco & Hget & Hall).
      cbn [fs folder cases comparisons sortings set_sortings] in Hfs, Hfo, Hca, Hco, Hget, Hall.
      repeat split; try done.
      * intros k. rewrite Hget. destruct (decide (k ∈ keys)) as [Hin|Hnin].
        -- rewrite decide_True; [done | by right].
        -- destruct (decide (k = key)) as [->|Hne].
           ++ rewrite decide_True; [| left]. rewrite dict_get_set_eq.
              unfold sorting_found. rewrite Hks. cbv zeta. by rewrite Hex.
           ++ rewrite decide_False.
              ** apply dict_get_set_ne. congruence.
              ** intros Hin. apply elem_of_cons in Hin as [?|?]; congruence.
      * constructor; [|done]. exists ks. split; [done |]. congruence.
Qed.


(** Simplifies what a primitive step of a method returned. *)
Ltac run_step Hm :=
  unfold get_self, gets, in_world, exists_, update_self, modify, lift,
    open_read, call_reader, call_ext, fs_op in Hm;
  cbn [self world fs log] in Hm.

Lemma scan_folder_Ok s w s' w' :
  scan_folder (mkState s w) = (Ok tt, mkState s' w') ->
  fs w' = fs w /\ folder s' = folder s /\ scanned s' (fs w).
Proof.
  intros H. unfold scan_folder in H.
  inv_bind H. run_step Hm. inversion Hm; subst; clear Hm.
  inv_bind H. run_step Hm. inversion Hm; subst; clear Hm.
  destruct (path_exists (fs w) (folder s </> "datasets")); [|done]. cbn [negb] in H.
  inv_bind H. run_step Hm. inversion Hm as [[Hread Hst]]; subst; clear Hm.
  inv_bind H. run_step Hm. inversion Hm as [[Hjson Hst]]; subst; clear Hm.
  inv_bind H. run_step Hm. inversion Hm; subst; clear Hm.
  inv_bind H. run_step Hm. inversion Hm as [[Hlv Hst]]; subst; clear Hm.
  inv_bind H. run_step Hm. inversion Hm; subst; clear Hm.
  inv_bind H. run_step Hm. inversion Hm; subst; clear Hm.
  inv_bind H. apply scan_datasets_loop_frame in Hm as [Hfs1 Hdir1].
  destruct st as [s1 w1]. cbn [self world fs folder set_levels set_info] in Hfs1, Hdir1.
  inv_bind H. run_step Hm. inversion Hm as [[Hread2 Hst]]; subst; clear Hm.
  inv_bind H. run_step Hm. inversion Hm as [[Hpick Hst]]; subst; clear Hm.
  inv_bind H. run_step Hm. inversion Hm; subst; clear Hm.
  inv_bind H. run_step Hm. inversion Hm; subst; clear Hm.
  inv_bind H. run_step Hm. inversion Hm; subst; clear Hm.
  apply scan_sortings_loop in H as (Hfs & Hfo & Hca & Hco & Hget & Hall).
  cbn [fs folder cases comparisons sortings set_sortings set_comparisons set_cases]
    in Hfs, Hfo, Hca, Hco, Hget, Hall.
  rewrite Hfs1 in Hfs, Hget, Hall.
  split; [done |]. split; [congruence |].
  unfold scanned. rewrite Hca, Hco, Hfo, Hdir1. repeat split.
  - intros Hin. apply dict_get_is_Some in Hin. rewrite Hget in Hin.
    destruct (decide (k ∈ dict_keys a4)); [done |]. by destruct Hin.
  - intros Hin. apply dict_get_is_Some. rewrite Hget. by rewrite decide_True.
  - intros Hin. apply dict_get_is_Some in Hin. rewrite dict_of_none_get in Hin.
    destruct (decide (k ∈ dict_keys a4)); [done |]. by destruct Hin.
  - intros Hin. apply dict_get_is_Some. rewrite dict_of_none_get. by rewrite decide_True.
  - intros k Hin. rewrite dict_of_none_get. by rewrite decide_True.
  - intros k Hin.
    pose proof (proj1 (Forall_forall _ _) Hall k Hin) as (ks & Hks & Hsome).
    exists ks, (sorting_found (fs w) (folder s) k). split; [done |]. split.
    + rewrite Hget. by rewrite decide_True.
    + split.
      * intros Hne. unfold sorting_found in Hne. rewrite Hks in Hne. cbv zeta in Hne.
        by destruct (path_exists (fs w) (folder s </> "sortings" </> ks)).
      * intros Hex. apply Hsome in Hex as [e He]. by rewrite He.
Qed.

Lemma init_Ok (study_folder : Path) w s w' :
  init study_folder w = (Ok s, w') ->
  fs w' = fs w /\ folder s = study_folder /\ scanned s (fs w).
Proof.
  unfold init.
  destruct (scan_folder (mkState (new_study study_folder) w)) as [[u|e] [s1 w1]] eqn:Hscan;
    intros H; inversion H; subst; clear H.
  destruct u. by apply scan_folder_Ok in Hscan.
Qed.

Lemma create_Ok_init study_folder datasets cases levels w s w' :
  create study_folder datasets cases levels w = (Ok s, w') ->
  exists w1, init (parse_path study_folder) w1 = (Ok s, w').
Proof.
  unfold create. intros H. do 12 (inv_bind H; clear Hm). eauto.
Qed.

(** C9: after [scan_folder] returns, and so after [__init__] and [create]
    return, [self.sortings] and [self.comparisons] have the key set of
    [self.cases], every comparison is None, and the sorting of a key is not
    None exactly when its folder under [sortings] exists in the file system
    that was scanned (which the scan leaves unchanged). *)
Theorem scan_folder_establishes_scanned :
  (forall st st',
     scan_folder st = (Ok tt, st') ->
     fs (world st') = fs (world st) /\ scanned (self st') (fs (world st))) /\
  (forall study_folder w s w',
     init study_folder w = (Ok s, w') ->
     fs w' = fs w /\ scanned s (fs w)) /\
  (forall study_folder datasets cases levels w s w',
     create study_folder datasets cases levels w = (Ok s, w') ->
     scanned s (fs w')).
Proof.
  repeat apply conj.
  - intros [s w] [s' w'] H. cbn [self world]. by apply scan_folder_Ok in H as (? & ? & ?).
  - intros p w s w' H. by apply init_Ok in H as (? & ? & ?).
  - intros sf ds cs lv w s w' H. apply create_Ok_init in H as [w1 H].
    apply init_Ok in H as (Hfs & _ & Hsc). by rewrite Hfs.
Qed.


(** ** Missing sorter outputs *)

Lemma scan_folder_missing_sorting s w s' w' key ks :
  scan_folder (mkState s w) = (Ok tt, mkState s' w') ->
  key ∈ dict_keys (cases s') ->
  key_to_str key = Ok ks ->
  path_exists (fs w) (folder s </> "sortings" </> ks) = false ->
  dict_get key (sortings s') = Some None.
Proof.
  intros Hscan Hin Hks Hex.
  apply scan_folder_Ok in Hscan as (_ & Hdir & _ & _ & _ & Hsort).
  destruct (Hsort key Hin) as (ks' & v & Hks' & Hget & Hv).
  rewrite Hks in Hks'. inversion Hks'; subst ks'. rewrite Hdir in Hv.
  rewrite Hget. destruct v as [e|]; [|done].
  destruct Hv as [Hv _]. rewrite Hv in Hex; [done | done].
Qed.

Lemma run_comparisons_body_None comparison_class kwargs key s w case dataset_key rec gt :
  dict_get key (cases s) = Some case ->
  case_dataset case = Some dataset_key ->
  dict_get dataset_key (datasets s) = Some (rec, gt) ->
  dict_get key (sortings s) = Some None ->
  run_comparisons_body comparison_class kwargs key (mkState s w) =
    (Ok tt, mkState (set_comparisons (dict_set key None (comparisons s)) s) w).
Proof.
  intros Hcase Hds Hdata Hsort.
  unfold run_comparisons_body, bind, get_self, gets, lift, dict_item, id. cbn [self].
  rewrite Hcase, Hds, Hdata, Hsort. reflexivity.
Qed.

Lemma run_comparisons_body_KeyError comparison_class kwargs key s w :
  match dict_get key (cases s) with
  | Some case =>
      match case_dataset case with
      | Some dataset_key => dict_get dataset_key (datasets s) = None
      | None => True
      end
  | None => True
  end ->
  run_comparisons_body comparison_class kwargs key (mkState s w) =
    (Raise KeyError, mkState s w).
Proof.
  unfold run_comparisons_body, bind, get_self, gets, lift, dict_item, id. cbn [self].
  destruct (dict_get key (cases s)) as [case|]; [|done].
  destruct (case_dataset case) as [dataset_key|]; [|done].
  by intros ->.
Qed.

Lemma copy_sortings_body_None force key ks s w :
  key_to_str key = Ok ks ->
  read_sorter_folder (fs w) (folder s </> "sorters" </> ks) = Ok None ->
  copy_sortings_body force key (mkState s w) =
    (Ok tt, mkState s (mkWorld (fs w)
                         (log w ++ [EvReadSorterFolder (folder s </> "sorters" </> ks)]))).
Proof.
  intros Hks Hread.
  unfold copy_sortings_body, bind, get_self, gets, lift, in_world,
    read_sorter_folder_, call_reader, call_ext.
  cbn [self world fs log]. rewrite Hks, Hread. reflexivity.
Qed.

(** C3 (amended): a missing sorter output is "not yet computed", not an
    error.  For a key whose folder under [sortings] does not exist, the scan
    stores None without raising.  [run_comparisons] then stores None as its
    comparison and goes on with the next key when the case of the key names a
    dataset of the study; it looks the dataset up before it tests the
    sorting, so when the case is missing, has no dataset entry or names a
    dataset that the study does not hold it raises KeyError and stores
    nothing, also for a key whose sorting is None.  [copy_sortings] changes
    neither the object nor the file system for a key whose sorter folder
    yields no sorting. *)
Theorem missing_sorter_output_is_skipped :
  (forall dir key ks s w,
     key_to_str key = Ok ks ->
     path_exists (fs w) (dir </> "sortings" </> ks) = false ->
     scan_sorting_body dir key (mkState s w) =
       (Ok tt, mkState (set_sortings (dict_set key None (sortings s)) s) w)) /\
  (forall s w s' w' key ks,
     scan_folder (mkState s w) = (Ok tt, mkState s' w') ->
     key ∈ dict_keys (cases s') ->
     key_to_str key = Ok ks ->
     path_exists (fs w) (folder s </> "sortings" </> ks) = false ->
     dict_get key (sortings s') = Some None) /\
  (forall comparison_class kwargs key rest s w case dataset_key rec gt,
     dict_get key (cases s) = Some case ->
     case_dataset case = Some dataset_key ->
     dict_get dataset_key (datasets s) = Some (rec, gt) ->
     dict_get key (sortings s) = Some None ->
     let s1 := set_comparisons (dict_set key None (comparisons s)) s in
     dict_get key (comparisons s1) = Some None /\
     run_comparisons_body comparison_class kwargs key (mkState s w) =
       (Ok tt, mkState s1 w) /\
     run_comparisons (Some (key :: rest)) comparison_class kwargs (mkState s w) =
       run_comparisons (Some rest) comparison_class kwargs (mkState s1 w)) /\
  (forall comparison_class kwargs key rest s w,
     match dict_get key (cases s) with
     | Some case =>
         match case_dataset case with
         | Some dataset_key => dict_get dataset_key (datasets s) = None
         | None => True
         end
     | None => True
     end ->
     run_comparisons (Some (key :: rest)) comparison_class kwargs (mkState s w) =
       (Raise KeyError, mkState s w)) /\
  (forall force key ks s w,
     key_to_str key = Ok ks ->
     read_sorter_folder (fs w) (folder s </> "sorters" </> ks) = Ok None ->
     exists evs,
       copy_sortings_body force key (mkState s w) =
         (Ok tt, mkState s (mkWorld (fs w) (log w ++ evs)))).
Proof.
  repeat apply conj.
  - intros dir key ks s w Hks Hex. rewrite scan_sorting_body_run, Hks.
    cbv zeta. by rewrite Hex.
  - intros. by eapply scan_folder_missing_sorting.
  - intros cc kw key rest s w case dsk rec gt Hcase Hds Hdata Hsort s1.
    pose proof (run_comparisons_body_None cc kw key s w case dsk rec gt
                  Hcase Hds Hdata Hsort) as Hbody.
    split; [apply dict_get_set_eq |]. split; [exact Hbody |].
    unfold run_comparisons, keys_or_all, bind, ret. cbn [for_each].
    unfold bind at 1. by rewrite Hbody.
  - intros cc kw key rest s w Hmissing.
    unfold run_comparisons, keys_or_all, bind, ret. cbn [for_each].
    unfold bind at 1. by rewrite (run_comparisons_body_KeyError cc kw key s w Hmissing).
  - intros force key ks s w Hks Hread. eexists.
    by apply copy_sortings_body_None.
Qed.


(** ** [run_sorters] with [keep=True] *)

(** [sorting_folder.exists()] for a key, in file system [f]. *)
Definition sorting_exists (s : Study) (f : FS) (key : Key) : bool :=
  match key_to_str key with
  | Ok ks => path_exists f (folder s </> "sortings" </> ks)
  | Raise _ => false
  end.

(** The case of a key has what a job needs: its sorter parameters with a
    [sorter_name], and a dataset of the study. *)
Definition runnable (s : Study) (key : Key) : Prop :=
  exists case params dataset_key rg,
    dict_get key (cases s) = Some case /\
    case_run_sorter_params case = Some params /\
    case_dataset case = Some dataset_key /\
    dict_get dataset_key (datasets s) = Some rg /\
    is_Some (params !! "sorter_name").

(** What the specification says a job description holds: the sorter name,
    the recording of the case's dataset, the sorter output folder, the
    remaining sorter parameters, and the global verbose flag. *)
Definition job_description (s : Study) (verbose : bool) (key : Key) (job : Job) : Prop :=
  exists ks case params dataset_key recording gt sorter_name,
    key_to_str key = Ok ks /\
    dict_get key (cases s) = Some case /\
    case_run_sorter_params case = Some params /\
    case_dataset case = Some dataset_key /\
    dict_get dataset_key (datasets s) = Some (recording, gt) /\
    params !! "sorter_name" = Some sorter_name /\
    job !! "sorter_name" = Some sorter_name /\
    job !! "verbose" = Some (VBool verbose) /\
    (params !! "recording" = None -> job !! "recording" = Some (VExtractor recording)) /\
    (params !! "output_folder" = None ->
       job !! "output_folder" = Some (VPath (folder s </> "sorters" </> ks))) /\
    (forall k v, k <> "sorter_name" -> k <> "verbose" ->
       params !! k = Some v -> job !! k = Some v) /\
    (forall k, is_Some (job !! k) ->
       k ∈ ["sorter_name"; "recording"; "output_folder"; "verbose"] \/ is_Some (params !! k)).

(** The calls of [run_sorter_jobs] in a trace, with their arguments. *)
Definition run_sorter_jobs_calls (l : list Event) : list (list Job * string * Kwargs) :=
  flat_map (fun ev => match ev with
                      | EvRunSorterJobs jobs engine kwargs => [(jobs, engine, kwargs)]
                      | _ => []
                      end) l.

Lemma run_sorters_body_keep verbose key s w :
  run_sorters_body true verbose key (mkState s w) =
  (match key_to_str key with
   | Raise e => Raise e
   | Ok ks =>
       if path_exists (fs w) (folder s </> "sortings" </> ks) then Ok None
       else match make_job s key (folder s </> "sorters" </> ks) verbose with
            | Ok job => Ok (Some job)
            | Raise e => Raise e
            end
   end, mkState s w).
Proof.
  unfold run_sorters_body, bind, get_self, in_world, exists_, gets, lift, ret, id.
  cbn [self world].
  destruct (key_to_str key) as [ks|e]; [|done].
  cbn [self world].
  destruct (path_exists (fs w) (folder s </> "sortings" </> ks)); [done |].
  cbn [self world].
  by destruct (make_job s key (folder s </> "sorters" </> ks) verbose).
Qed.

Lemma runnable_make_job s key sorter_folder verbose :
  runnable s key -> exists job, make_job s key sorter_folder verbose = Ok job.
Proof.
  intros (case & params & dsk & [rec gt] & Hcase & Hp & Hd & Hds & [name Hname]).
  unfold make_job, dict_item. rewrite Hcase, Hp, Hd, Hds, Hname. eauto.
Qed.

Lemma make_job_Ok s key ks verbose job :
  key_to_str key = Ok ks ->
  make_job s key (folder s </> "sorters" </> ks) verbose = Ok job ->
  job_description s verbose key job.
Proof.
  intros Hks. unfold make_job, dict_item.
  destruct (dict_get key (cases s)) as [case|] eqn:Hcase; [|done].
  destruct (case_run_sorter_params case) as [params|] eqn:Hp; [|done].
  destruct (case_dataset case) as [dsk|] eqn:Hd; [|done].
  destruct (dict_get dsk (datasets s)) as [[rec gt]|] eqn:Hds; [|done].
  destruct (params !! "sorter_name") as [name|] eqn:Hname; [|done].
  intros Hjob. inversion Hjob as [Hj]; clear Hjob.
  exists ks, case, params, dsk, rec, gt, name.
  repeat (split; [done |]). repeat apply conj.
  - rewrite lookup_insert_ne; [|done]. apply lookup_union_Some_raw. right.
    split; [by rewrite lookup_delete_eq |].
    do 2 (rewrite lookup_insert_ne; [|done]). by rewrite lookup_insert_eq.
  - by rewrite lookup_insert_eq.
  - intros Hnone. rewrite lookup_insert_ne; [|done]. apply lookup_union_Some_raw. right.
    split; [by rewrite lookup_delete_ne |].
    rewrite lookup_insert_ne; [|done]. by rewrite lookup_insert_eq.
  - intros Hnone. rewrite lookup_insert_ne; [|done]. apply lookup_union_Some_raw. right.
    split; [by rewrite lookup_delete_ne |]. by rewrite lookup_insert_eq.
  - intros k v Hk1 Hk2 Hv. rewrite lookup_insert_ne; [|done].
    apply lookup_union_Some_raw. left. by rewrite lookup_delete_ne.
  - intros k [v Hv]. destruct (decide (k = "verbose")) as [->|Hne].
    { left. set_solver. }
    rewrite lookup_insert_ne in Hv; [|done].
    apply lookup_union_Some_raw in Hv as [Hv|[_ Hv]].
    + right. destruct (decide (k = "sorter_name")) as [->|Hne'].
      * by rewrite lookup_delete_eq in Hv.
      * rewrite lookup_delete_ne in Hv; [|done]. eauto.
    + left. destruct (decide (k = "output_folder")) as [->|?]; [set_solver |].
      rewrite lookup_insert_ne in Hv; [|done].
      destruct (decide (k = "recording")) as [->|?]; [set_solver |].
      rewrite lookup_insert_ne in Hv; [|done].
      destruct (decide (k = "sorter_name")) as [->|?]; [set_solver |].
      rewrite lookup_insert_ne in Hv; [|done]. by rewrite lookup_empty in Hv.
Qed.

Lemma run_sorters_loop_keep verbose keys : forall job_list s w,
  Forall (fun key => is_ok (key_to_str key) = true /\
            (sorting_exists s (fs w) key = false -> runnable s key)) keys ->
  exists jobs,
    run_sorters_loop true verbose keys job_list (mkState s w)
      = (Ok (job_list ++ jobs), mkState s w) /\
    Forall2 (job_description s verbose)
      (List.filter (fun key => negb (sorting_exists s (fs w) key)) keys) jobs.
Proof.
  induction keys as [|key keys IH]; intros job_list s w Hall.
  - exists []. cbn. rewrite app_nil_r. split; [done | constructor].
  - apply Forall_cons in Hall as [[Hok Hrun] Hall].
    cbn [run_sorters_loop List.filter]. unfold bind at 1.
    rewrite run_sorters_body_keep. unfold sorting_exists in *.
    destruct (key_to_str key) as [ks|e] eqn:Hks; [|done].
    destruct (path_exists (fs w) (folder s </> "sortings" </> ks)) eqn:Hex.
    + cbn [negb]. apply IH, Hall.
    + cbn [negb].
      destruct (runnable_make_job s key (folder s </> "sorters" </> ks) verbose
                  (Hrun eq_refl)) as [job Hjob].
      rewrite Hjob.
      destruct (IH (job_list ++ [job]) s w Hall) as (jobs & Hloop & Hjobs).
      exists (job :: jobs). split.
      * rewrite Hloop. by rewrite <- app_assoc.
      * constructor; [|done]. by eapply make_job_Ok.
Qed.


Lemma run_sorter_jobs_calls_app l l' :
  run_sorter_jobs_calls (l ++ l') = run_sorter_jobs_calls l ++ run_sorter_jobs_calls l'.
Proof. apply flat_map_app. Qed.

(** A computation that makes no call of [run_sorter_jobs], however it
    ends. *)
Definition no_job_call {A} (m : M MState A) : Prop :=
  forall st r st', m st = (r, st') ->
    run_sorter_jobs_calls (log (world st')) = run_sorter_jobs_calls (log (world st)).

Definition no_job_call_w {A} (m : M World A) : Prop :=
  forall w r w', m w = (r, w') ->
    run_sorter_jobs_calls (log w') = run_sorter_jobs_calls (log w).

Lemma njc_bind {A B} (m : M MState A) (k : A -> M MState B) :
  no_job_call m -> (forall a, no_job_call (k a)) -> no_job_call (bind m k).
Proof.
  intros Hm Hk st r st'. unfold bind.
  destruct (m st) as [[a|e] st1] eqn:Hrun; intros H.
  - apply Hk in H. apply Hm in Hrun. congruence.
  - inversion H; subst. by apply Hm in Hrun.
Qed.

Lemma njc_ret {A} (a : A) : no_job_call (ret a).
Proof. intros st r st' H. by inversion H. Qed.

Lemma njc_raise {A} (e : Exn) : no_job_call (@raise MState A e).
Proof. intros st r st' H. by inversion H. Qed.

Lemma njc_lift {A} (x : Res A) : no_job_call (lift x).
Proof. intros st r st' H. by inversion H. Qed.

Lemma njc_get_self {A} (f : Study -> A) : no_job_call (get_self f).
Proof. intros st r st' H. by inversion H. Qed.

Lemma njc_update_self (f : Study -> Study) : no_job_call (update_self f).
Proof. intros st r st' H. by inversion H. Qed.

Lemma njc_in_world {A} (m : M World A) : no_job_call_w m -> no_job_call (in_world m).
Proof.
  intros Hm [s w] r st'. unfold in_world. cbn [self world].
  destruct (m w) as [r1 w1] eqn:Hrun. intros H. inversion H; subst.
  cbn [world]. by apply Hm in Hrun.
Qed.

Lemma njc_for_each {A} (l : list A) (body : A -> M MState unit) :
  (forall x, no_job_call (body x)) -> no_job_call (for_each l body).
Proof.
  intros Hbody st r st' H.
  apply (for_each_preserves
           (fun x => run_sorter_jobs_calls (log (world x))
                     = run_sorter_jobs_calls (log (world st)))) in H; [done | | done].
  intros x s0 r0 s1 Hx Heq. apply Hbody in Hx. congruence.
Qed.

Lemma njcw_exists (p : Path) : no_job_call_w (exists_ p).
Proof. intros w r w' H. by inversion H. Qed.

Lemma njcw_fs_op (op : FS -> Res FS) : no_job_call_w (fs_op op).
Proof.
  intros w r w'. unfold fs_op. destruct (op (fs w)); intros H; by inversion H.
Qed.

Lemma njcw_call_ext {A} (ev : Event) (f : FS -> Res A * FS) :
  run_sorter_jobs_calls [ev] = [] -> no_job_call_w (call_ext ev f).
Proof.
  intros Hev w r w'. unfold call_ext. destruct (f (fs w)) as [r1 f1].
  intros H. inversion H; subst. cbn [log].
  rewrite run_sorter_jobs_calls_app, Hev. apply app_nil_r.
Qed.

(** Walks through a method body. *)
Ltac njc :=
  repeat first
    [ apply njc_bind; [|intros ?]
    | apply njc_ret | apply njc_raise | apply njc_lift
    | apply njc_get_self | apply njc_update_self | apply njc_in_world
    | apply njcw_exists | apply njcw_fs_op
    | apply njcw_call_ext; reflexivity
    | match goal with
      | |- no_job_call (match ?x with _ => _ end) => destruct x
      end ].

Lemma copy_sortings_body_calls force key : no_job_call (copy_sortings_body force key).
Proof.
  unfold copy_sortings_body, read_sorter_folder_, save_, call_reader. njc.
Qed.

Lemma copy_sortings_calls case_keys force : no_job_call (copy_sortings case_keys force).
Proof.
  unfold copy_sortings, keys_or_all. njc.
  apply njc_for_each. intros x. apply copy_sortings_body_calls.
Qed.

Lemma make_job_runnable s key sorter_folder verbose :
  is_ok (make_job s key sorter_folder verbose) = true -> runnable s key.
Proof.
  unfold make_job, dict_item, runnable.
  destruct (dict_get key (cases s)) as [case|] eqn:Hcase; [|done].
  destruct (case_run_sorter_params case) as [params|] eqn:Hp; [|done].
  destruct (case_dataset case) as [dsk|] eqn:Hd; [|done].
  destruct (dict_get dsk (datasets s)) as [[rec gt]|] eqn:Hds; [|done].
  destruct (params !! "sorter_name") as [name|] eqn:Hname; [|done].
  intros _. exists case, params, dsk, (rec, gt). eauto 10.
Qed.

(** A test that decides the precondition of the loop on a list of keys. *)
Lemma keys_ready_check s f verbose keys :
  forallb (fun key =>
             match key_to_str key with
             | Ok ks => sorting_exists s f key
                        || is_ok (make_job s key (folder s </> "sorters" </> ks) verbose)
             | Raise _ => false
             end) keys = true ->
  Forall (fun key => is_ok (key_to_str key) = true /\
            (sorting_exists s f key = false -> runnable s key)) keys.
Proof.
  intros Hall. apply Forall_forall. intros key Hin.
  pose proof (forallb_elem _ _ _ Hall Hin) as Hkey. cbv beta in Hkey.
  destruct (key_to_str key) as [ks|e] eqn:Hks; [|done]. split; [done |].
  intros Hex. rewrite Hex in Hkey. by eapply make_job_runnable.
Qed.

(** C1: with [keep=True], when every key has a folder name and every key
    without a sortings folder has a complete case, the loop of [run_sorters]
    skips the keys whose sortings folder exists and builds, in order, one job
    description for each other key; it changes nothing while it does; and the
    whole list is handed to [run_sorter_jobs] in one call, the only call of
    [run_sorter_jobs] that [run_sorters] makes. *)
Theorem run_sorters_keep_builds_jobs
    (case_keys : option (list Key)) (engine : string) (engine_kwargs : Kwargs)
    (verbose : bool) (s : Study) (w : World) :
  let keys := match case_keys with Some l => l | None => dict_keys (cases s) end in
  Forall (fun key => is_ok (key_to_str key) = true /\
            (sorting_exists s (fs w) key = false -> runnable s key)) keys ->
  exists job_list,
    Forall2 (job_description s verbose)
      (List.filter (fun key => negb (sorting_exists s (fs w) key)) keys) job_list /\
    run_sorters_loop true verbose keys [] (mkState s w) = (Ok job_list, mkState s w) /\
    run_sorter_jobs_calls
      (log (world (run_sorters case_keys engine engine_kwargs true verbose (mkState s w)).2))
    = run_sorter_jobs_calls (log w) ++ [(job_list, engine, engine_kwargs)].
Proof.
  intros keys Hall.
  destruct (run_sorters_loop_keep verbose keys [] s w Hall) as (jobs & Hloop & Hjobs).
  cbn [app] in Hloop. exists jobs. split; [done |]. split; [done |].
  unfold run_sorters. unfold bind at 1.
  assert (Hkeys : keys_or_all case_keys (mkState s w) = (Ok keys, mkState s w))
    by (by destruct case_keys).
  rewrite Hkeys. unfold bind at 1. rewrite Hloop. unfold bind at 1.
  unfold in_world, run_sorter_jobs_, call_ext. cbn [self world fs log].
  destruct (run_sorter_jobs jobs engine engine_kwargs (fs w)) as [[u|e] f'].
  - destruct (negb (engine =? "slurm")%string).
    + destruct (copy_sortings (Some keys) true _) as [r st'] eqn:Hcopy.
      apply copy_sortings_calls in Hcopy. cbn [snd]. rewrite Hcopy.
      cbn [world log]. by rewrite run_sorter_jobs_calls_app.
    + cbn. by rewrite run_sorter_jobs_calls_app.
  - cbn. by rewrite run_sorter_jobs_calls_app.
Qed.

(** C8: in [run_sorters] the test of the sorter folder reads the sortings
    folder.  With [keep=True] the branch that would recover an existing
    sorter output is therefore never taken: whatever the sorters folder
    holds, a turn of the loop makes no call and changes nothing, skips the
    key when its sortings folder exists, and otherwise goes on to build the
    job. *)
Theorem recovery_branch_unreachable (verbose : bool) (key : Key) (s : Study) (w : World) :
  run_sorters_body true verbose key (mkState s w) =
  (match key_to_str key with
   | Raise e => Raise e
   | Ok ks =>
       if path_exists (fs w) (folder s </> "sortings" </> ks) then Ok None
       else match make_job s key (folder s </> "sorters" </> ks) verbose with
            | Ok job => Ok (Some job)
            | Raise e => Raise e
            end
   end, mkState s w) /\
  (forall keys job_list,
     (run_sorters_loop true verbose keys job_list (mkState s w)).2 = mkState s w).
Proof.
  split; [apply run_sorters_body_keep |].
  induction keys as [|k keys IH]; intros job_list; [done |].
  cbn [run_sorters_loop]. unfold bind. rewrite run_sorters_body_keep.
  destruct (key_to_str k) as [ks|e]; [|done].
  destruct (path_exists (fs w) (folder s </> "sortings" </> ks)); [apply IH |].
  destruct (make_job s k (folder s </> "sorters" </> ks) verbose); [apply IH | done].
Qed.


(** ** The directory layout *)

(** Every path of [D] is a directory of [f]. *)
Definition all_dirs (f : FS) (D : list Path) : Prop :=
  Forall (fun p => is_dir f p = true) D.

Lemma all_dirs_keeps f f' D : keeps_dirs f f' -> all_dirs f D -> all_dirs f' D.
Proof.
  intros Hk HD. unfold all_dirs in *. apply Forall_forall. intros p Hp.
  apply (keeps_dirs_is_dir f); [done |]. by apply (proj1 (Forall_forall _ _) HD).
Qed.

Lemma fs_op_Ok (op : FS -> Res FS) (w w' : World) :
  fs_op op w = (Ok tt, w') -> exists f', op (fs w) = Ok f' /\ w' = set_fs f' w.
Proof.
  unfold fs_op. destruct (op (fs w)) as [f'|e]; intros H; inversion H; eauto.
Qed.

Lemma fs_op_mkdir_all_dirs p w w' D :
  fs_op (fun f => mkdir f p) w = (Ok tt, w') ->
  all_dirs (fs w) D -> all_dirs (fs w') (p :: D).
Proof.
  intros H HD. apply fs_op_Ok in H as (f' & Hop & ->). cbn [fs set_fs].
  apply mkdir_Ok in Hop as [Hk Hd]. constructor; [done |]. by eapply all_dirs_keeps.
Qed.

Lemma call_ext_Ok {A} (ev : Event) (f : FS -> Res A * FS) (w : World) a w' :
  call_ext ev f w = (Ok a, w') -> f (fs w) = (Ok a, fs w').
Proof.
  unfold call_ext. destruct (f (fs w)) as [r f'] eqn:Hf. intros H. by inversion H.
Qed.

Lemma assert_Ok (c : bool) (w w' : World) : assert c w = (Ok tt, w') -> w' = w.
Proof. destruct c; intros H; by inversion H. Qed.

Lemma create_datasets_loop_keeps_dirs (Hlaw : writers_keep_dirs Ext) dir
    (datasets : dict string (Extractor * Extractor)) w w' :
  for_each datasets (fun '(key, (rec, gt_sorting)) =>
    assert (negb (str_contains "/" key)) >>
    assert (negb (str_contains "\" key)) >>
    dump_to_pickle_ rec (dir </> ("datasets/recordings/" +:+ key +:+ ".pickle")) >>
    dump_to_pickle_ gt_sorting (dir </> ("datasets/gt_sortings/" +:+ key +:+ ".pickle")) >>
    let* _ := save_ gt_sorting (dir </> ("datasets/gt_sortings/" +:+ key)) in
    ret tt) w = (Ok tt, w') ->
  keeps_dirs (fs w) (fs w').
Proof.
  destruct Hlaw as (Hdump & Hsave & _). intros H.
  apply (for_each_Ok_preserves (fun x => keeps_dirs (fs w) (fs x))) in H;
    [done | | apply keeps_dirs_refl].
  clear H. intros [key [rec gt]] w1 w2 H Hk.
  apply bind_Ok_inv in H as ([] & w3 & H1 & H). apply assert_Ok in H1 as ->.
  apply bind_Ok_inv in H as ([] & w4 & H1 & H). apply assert_Ok in H1 as ->.
  apply bind_Ok_inv in H as ([] & w5 & H1 & H). apply call_ext_Ok, Hdump in H1.
  apply bind_Ok_inv in H as ([] & w6 & H2 & H). apply call_ext_Ok, Hdump in H2.
  apply bind_Ok_inv in H as ([] & w7 & H3 & H). apply call_ext_Ok, Hsave in H3.
  inversion H; subst.
  eauto using keeps_dirs_trans.
Qed.

Lemma create_Ok_layout (Hlaw : writers_keep_dirs Ext)
    study_folder datasets cases levels w s w' :
  create study_folder datasets cases levels w = (Ok s, w') ->
  let dir := parse_path study_folder in
  all_dirs (fs w')
    [dir </> "metrics"; dir </> "sortings" </> "run_logs"; dir </> "sortings";
     dir </> "sorters"; dir </> "datasets/gt_sortings"; dir </> "datasets/recordings";
     dir </> "datasets"; dir] /\
  (exists lv, check_keys cases levels = Ok lv /\
     fs w' !! (dir </> "info.json") = Some (File (CJson [("levels", lv)]))) /\
  fs w' !! (dir </> "cases.pickle") = Some (File (CPickleCases cases)).
Proof.
  intros H dir. unfold create in H. fold dir in H.
  apply bind_Ok_inv in H as (lv & w0 & H0 & H). apply lift_Ok_inv in H0 as [Hlv ->].
  apply bind_Ok_inv in H as ([] & w1 & H1 & H).
  assert (D1 : all_dirs (fs w1) [dir]).
  { apply fs_op_Ok in H1 as (f' & Hop & ->). apply mkdir_parents_Ok in Hop as [_ Hd].
    by constructor. }
  clear H1.
  apply bind_Ok_inv in H as ([] & w2 & H1 & H).
  apply (fs_op_mkdir_all_dirs _ _ _ _ H1) in D1. clear H1.
  apply bind_Ok_inv in H as ([] & w3 & H1 & H).
  apply (fs_op_mkdir_all_dirs _ _ _ _ H1) in D1. clear H1.
  apply bind_Ok_inv in H as ([] & w4 & H1 & H).
  apply (fs_op_mkdir_all_dirs _ _ _ _ H1) in D1. clear H1.
  apply bind_Ok_inv in H as ([] & w5 & H1 & H).
  apply (fs_op_mkdir_all_dirs _ _ _ _ H1) in D1. clear H1.
  apply bind_Ok_inv in H as ([] & w6 & H1 & H).
  apply (fs_op_mkdir_all_dirs _ _ _ _ H1) in D1. clear H1.
  apply bind_Ok_inv in H as ([] & w7 & H1 & H).
  apply (fs_op_mkdir_all_dirs _ _ _ _ H1) in D1. clear H1.
  apply bind_Ok_inv in H as ([] & w8 & H1 & H).
  apply (fs_op_mkdir_all_dirs _ _ _ _ H1) in D1. clear H1.
  apply bind_Ok_inv in H as ([] & w9 & H1 & H).
  apply (create_datasets_loop_keeps_dirs Hlaw) in H1.
  apply (all_dirs_keeps _ _ _ H1) in D1. clear H1.
  apply bind_Ok_inv in H as ([] & w10 & H1 & H).
  apply fs_op_Ok in H1 as (f10 & Hop & ->). apply write_file_Ok in Hop as [-> Hk10].
  apply (all_dirs_keeps _ _ _ Hk10) in D1.
  apply bind_Ok_inv in H as ([] & w11 & H1 & H).
  apply fs_op_Ok in H1 as (f11 & Hop & ->). cbn [fs set_fs] in Hop, D1.
  apply write_file_Ok in Hop as [-> Hk11].
  apply (all_dirs_keeps _ _ _ Hk11) in D1.
  apply init_Ok in H as (Hfs & _ & _). cbn [fs set_fs] in Hfs. rewrite Hfs.
  split; [exact D1 |]. split.
  - exists lv. split; [done |].
    rewrite lookup_insert_ne; [by rewrite lookup_insert_eq |].
    change (dir </> "cases.pickle") with (dir ++ ["cases.pickle"]).
    change (dir </> "info.json") with (dir ++ ["info.json"]).
    intros Heq. by apply app_inv_head in Heq.
  - by rewrite lookup_insert_eq.
Qed.

Lemma extract_waveforms_gt_Ok (Hlaw : writers_keep_dirs Ext) case_keys s w st' :
  extract_waveforms_gt case_keys (mkState s w) = (Ok tt, st') ->
  is_dir (fs (world st')) (folder s </> "waveforms") = true.
Proof.
  destruct Hlaw as (_ & _ & Hextract). unfold extract_waveforms_gt. intros H.
  apply bind_Ok_inv in H as (keys & st0 & H0 & H).
  assert (st0 = mkState s w) as -> by (destruct case_keys; by inversion H0).
  clear H0.
  apply bind_Ok_inv in H as (dir & st0 & H0 & H). inversion H0; subst. clear H0.
  cbn [self] in H.
  apply bind_Ok_inv in H as ([] & st1 & H1 & H).
  unfold in_world in H1. cbn [self world] in H1.
  destruct (fs_op _ w) as [r1 w1] eqn:Hop. inversion H1; subst. clear H1.
  apply fs_op_Ok in Hop as (f' & Hop & ->). apply mkdir_exist_ok_Ok in Hop as [_ Hd].
  apply (for_each_Ok_preserves
           (fun x => is_dir (fs (world x)) (folder s </> "waveforms") = true)) in H;
    [done | | done].
  clear H. intros key [s2 w2] st3 H HP.
  apply bind_Ok_inv in H as (? & st4 & H1 & H). inversion H1; subst. clear H1.
  apply bind_Ok_inv in H as (? & st4 & H1 & H). apply lift_Ok_inv in H1 as [_ ->].
  apply bind_Ok_inv in H as (? & st4 & H1 & H). apply lift_Ok_inv in H1 as [_ ->].
  apply bind_Ok_inv in H as ([rec gt] & st4 & H1 & H). apply lift_Ok_inv in H1 as [_ ->].
  apply bind_Ok_inv in H as (ks & st4 & H1 & H). apply lift_Ok_inv in H1 as [_ ->].
  unfold in_world in H. cbn [self world] in H.
  destruct (extract_waveforms_ rec gt _ w2) as [r5 w5] eqn:Hcall.
  inversion H; subst. cbn [world].
  apply call_ext_Ok, Hextract in Hcall. by eapply keeps_dirs_is_dir.
Qed.

(** C5 (amended): [create] establishes the layout of the study folder: when
    it returns, the study folder and its subfolders datasets,
    datasets/recordings, datasets/gt_sortings, sorters, sortings,
    sortings/run_logs and metrics are directories, info.json holds the levels
    and cases.pickle holds the cases.  The waveforms subfolder is not part of
    what [create] makes: it is [extract_waveforms_gt] that makes it. *)
Theorem create_establishes_layout (Hlaw : writers_keep_dirs Ext) :
  (forall study_folder datasets cases levels w s w',
     create study_folder datasets cases levels w = (Ok s, w') ->
     let dir := parse_path study_folder in
     all_dirs (fs w')
       [dir </> "metrics"; dir </> "sortings" </> "run_logs"; dir </> "sortings";
        dir </> "sorters"; dir </> "datasets/gt_sortings"; dir </> "datasets/recordings";
        dir </> "datasets"; dir] /\
     (exists lv, check_keys cases levels = Ok lv /\
        fs w' !! (dir </> "info.json") = Some (File (CJson [("levels", lv)]))) /\
     fs w' !! (dir </> "cases.pickle") = Some (File (CPickleCases cases))) /\
  (forall case_keys s w st',
     extract_waveforms_gt case_keys (mkState s w) = (Ok tt, st') ->
     is_dir (fs (world st')) (folder s </> "waveforms") = true).
Proof.
  split.
  - intros sf ds cs lv w s w' H. by apply (create_Ok_layout Hlaw sf ds cs lv w s w').
  - intros keys s w st' H. by apply (extract_waveforms_gt_Ok Hlaw keys s w st').
Qed.


(** ** Keys *)





Lemma check_keys_Ok_homogeneous cases levels lv :
  check_keys cases levels = Ok lv -> homogeneous (dict_keys cases).
Proof.
  unfold check_keys. destruct (dict_keys cases) as [|key0 keys] eqn:Hk; [done |].
  destruct key0 as [s|items| |]; try done.
  - destruct (forallb is_str (KStr s :: keys)) eqn:Hall; [|done].
    intros _. left. apply Forall_forall. intros k Hin.
    by eapply forallb_elem.
  - destruct (forallb is_tuple (KTuple items :: keys)) eqn:Hall; [|done].
    cbn [negb].
    destruct (forallb (fun k => Nat.eqb (key_len k) (length items))
                (KTuple items :: keys)) eqn:Hlen; [|done].
    intros _. right. exists (length items). apply Forall_forall. intros k Hin.
    split.
    + by eapply forallb_elem.
    + apply Nat.eqb_eq. by eapply (forallb_elem _ _ _ Hlen).
Qed.



Lemma create_Ok_check_keys study_folder datasets cases levels w s w' :
  create study_folder datasets cases levels w = (Ok s, w') ->
  exists lv, check_keys cases levels = Ok lv.
Proof.
  unfold create. intros H. inv_bind H. apply lift_Ok_inv in Hm as [Hm _]. eauto.
Qed.


(** C10: [create] with an empty [cases] raises IndexError, from taking the
    first key, and leaves the world as it was: no folder or file is created
    and no external call is made. *)
Theorem create_empty_cases study_folder
    (datasets : dict string (Extractor * Extractor)) (levels : option Json) (w : World) :
  create study_folder datasets [] levels w = (Raise IndexError, w).
Proof. reflexivity. Qed.

End WithExternals.

(** ** [get_count_units] *)

Section CountUnitsFacts.
Context {Index Score UnitId : Type}.
Variable pd_Index : list Key -> Json -> Res Index.
Variable pd_MultiIndex_from_tuples : list Key -> Json -> Res Index.
Variable get_unit_ids : Extractor -> list UnitId.
Variable count_well_detected_units : Comparison -> option Score -> Z.
Variable count_overmerged_units : Comparison -> option Score -> Z.
Variable count_redundant_units : Comparison -> option Score -> Z.
Variable count_false_positive_units : Comparison -> option Score -> Z.
Variable count_bad_units : Comparison -> Z.

(** The comparison of [key] has been computed and has [exhaustive_gt] set. *)
Definition is_exhaustive (s : Study) (key : Key) : bool :=
  match dict_get key (comparisons s) with
  | Some (Some comp) => exhaustive_gt comp
  | _ => false
  end.

(** The comparison of [key] has been computed. *)
Definition computed (s : Study) (key : Key) : Prop :=
  exists comp, dict_get key (comparisons s) = Some (Some comp).

(** A test that decides [computed] on a list of keys. *)
Definition all_computed (s : Study) (keys : list Key) : bool :=
  forallb (fun key => match dict_get key (comparisons s) with
                      | Some (Some _) => true
                      | _ => false
                      end) keys.

Lemma all_computed_Forall s keys : all_computed s keys = true -> Forall (computed s) keys.
Proof.
  unfold all_computed. induction keys as [|key keys IH]; cbn [forallb]; [constructor |].
  intros H. apply andb_prop in H as [Hkey Hrest]. constructor; [|by apply IH].
  unfold computed. destruct (dict_get key (comparisons s)) as [[comp|]|]; [eauto | done..].
Qed.

(** The column labels, with or without the two of an exhaustive ground truth. *)
Definition columns_for (exhaustive : bool) : list string :=
  base_columns ++ (if exhaustive then exhaustive_columns else []).

(** The column labels after an assignment to column [col]. *)
Definition add_col (cols : list string) (col : string) : list string :=
  if decide (col ∈ cols) then cols else cols ++ [col].

Lemma df_columns_loc_set (df : DataFrame (Index := Index)) key col v :
  df_columns (loc_set df key col v) = add_col (df_columns df) col.
Proof. reflexivity. Qed.

Lemma count_units_body_columns s ws rs os (df df' : DataFrame (Index := Index)) key b :
  df_columns df = columns_for b ->
  count_units_body get_unit_ids count_well_detected_units count_overmerged_units
    count_redundant_units count_false_positive_units count_bad_units
    s ws rs os df key = Ok df' ->
  df_columns df' = columns_for (b || is_exhaustive s key).
Proof.
  intros Hcols. unfold count_units_body, is_exhaustive.
  destruct (dict_get key (comparisons s)) as [[comp|]|]; [|done..].
  destruct (exhaustive_gt comp); intros H; injection H as <-;
    rewrite !df_columns_loc_set, Hcols; destruct b; vm_compute; reflexivity.
Qed.

Lemma count_units_loop_columns s ws rs os keys :
  forall (df df' : DataFrame (Index := Index)) b,
    df_columns df = columns_for b ->
    count_units_loop get_unit_ids count_well_detected_units count_overmerged_units
      count_redundant_units count_false_positive_units count_bad_units
      s ws rs os keys df = Ok df' ->
    df_columns df' = columns_for (b || existsb (is_exhaustive s) keys).
Proof.
  induction keys as [|key keys IH]; intros df df' b Hcols H.
  - cbn in H. inversion H; subst. by rewrite orb_false_r.
  - cbn [count_units_loop] in H.
    destruct (count_units_body _ _ _ _ _ _ s ws rs os df key) as [df1|e] eqn:Hbody;
      [|done].
    eapply count_units_body_columns in Hbody; [|exact Hcols].
    eapply IH in H; [|exact Hbody]. cbn [existsb]. by rewrite orb_assoc.
Qed.

Lemma count_units_loop_Ok s ws rs os keys :
  Forall (computed s) keys ->
  forall df : DataFrame (Index := Index),
    exists df',
      count_units_loop get_unit_ids count_well_detected_units count_overmerged_units
        count_redundant_units count_false_positive_units count_bad_units
        s ws rs os keys df = Ok df'.
Proof.
  induction 1 as [|key keys [comp Hcomp] _ IH]; intros df; [by eexists |].
  cbn [count_units_loop]. unfold count_units_body. rewrite Hcomp.
  destruct (exhaustive_gt comp); apply IH.
Qed.

(** C6 (amended): for a non-empty list of case keys whose comparisons have
    all been computed (and from which pandas builds the index),
    [get_count_units] returns a data frame whose columns are num_gt,
    num_sorter, num_well_detected, num_redundant, num_overmerged, followed by
    num_false_positive and num_bad exactly when the comparison of at least
    one listed case has [exhaustive_gt] set. *)
Theorem get_count_units_columns (s : Study) (case_keys : option (list Key))
    (ws rs os : option Score) (key0 : Key) (rest : list Key) (index : Index) :
  match case_keys with Some l => l | None => dict_keys (cases s) end = key0 :: rest ->
  Forall (computed s) (key0 :: rest) ->
  (if is_str key0 then pd_Index (key0 :: rest) (levels s)
   else pd_MultiIndex_from_tuples (key0 :: rest) (levels s)) = Ok index ->
  exists df,
    get_count_units pd_Index pd_MultiIndex_from_tuples get_unit_ids
      count_well_detected_units count_overmerged_units count_redundant_units
      count_false_positive_units count_bad_units s case_keys ws rs os = Ok df /\
    df_columns df =
      ["num_gt"; "num_sorter"; "num_well_detected"; "num_redundant"; "num_overmerged"]
      ++ (if existsb (is_exhaustive s) (key0 :: rest)
          then ["num_false_positive"; "num_bad"] else []).
Proof.
  intros Hkeys Hall Hidx. unfold get_count_units. rewrite Hkeys, Hidx.
  pose proof Hall as Hall'. apply Forall_cons in Hall' as [[comp0 Hcomp0] _].
  unfold dict_item. rewrite Hcomp0.
  destruct (count_units_loop_Ok s ws rs os (key0 :: rest) Hall
              (new_frame index (if exhaustive_gt comp0
                                then base_columns ++ exhaustive_columns
                                else base_columns))) as [df Hloop].
  exists df. split; [exact Hloop |].
  eapply (count_units_loop_columns _ _ _ _ _ _ _ (exhaustive_gt comp0)) in Hloop.
  - rewrite Hloop. unfold columns_for. cbn [existsb].
    assert (is_exhaustive s key0 = exhaustive_gt comp0) as ->
      by (unfold is_exhaustive; by rewrite Hcomp0).
    by destruct (exhaustive_gt comp0).
  - cbn [new_frame df_columns]. unfold columns_for.
    destruct (exhaustive_gt comp0); [done | by rewrite app_nil_r].
Qed.
End CountUnitsFacts.

End StudyFacts.

(* ===================================================================== *)
(** * Facts about [SortingSummaryWidget]                                  *)
(* ===================================================================== *)

Module SummaryFacts.
Import SortingSummary.

Section WidgetFacts.
Context {WaveformExtractor Sorting Sparsity UnitId Properties Float : Type}.
Variable we_sorting : WaveformExtractor -> Sorting.
Variable make_serializable : list UnitId -> list UnitId.
Variable AmplitudesWidget_view : WaveformExtractor -> list UnitId -> option nat -> View.
Variable UnitTemplatesWidget_view : WaveformExtractor -> list UnitId -> option Sparsity -> View.
Variable CrossCorrelogramsWidget_view : WaveformExtractor -> list UnitId -> View.
Variable UnitLocationsWidget_view : WaveformExtractor -> list UnitId -> View.
Variable TemplateSimilarityWidget_similarity :
  WaveformExtractor -> list UnitId -> nat -> nat -> Float.
Variable astype_float32 : Float -> Float.
Variable generate_unit_table_view :
  Sorting -> option Properties -> list (UnitSimilarityScore (UnitId := UnitId) (Float := Float)) -> View.
Variable handle_display_and_url : View -> option string.

Lemma combine_seq_lookup {A} (l : list A) : forall (k j : nat) (x : A),
  l !! j = Some x -> combine (seq k (length l)) l !! j = Some (k + j, x).
Proof.
  induction l as [|a l IH]; intros k j x Hj; [done |].
  destruct j as [|j]; cbn [length seq combine].
  - cbn in *. inversion Hj; subst. by rewrite Nat.add_0_r.
  - cbn in Hj. change (((k, a) :: combine (seq (S k) (length l)) l) !! S j)
      with (combine (seq (S k) (length l)) l !! j).
    rewrite (IH (S k) j x Hj). f_equal. f_equal. lia.
Qed.

Lemma enumerate_lookup {A} (l : list A) (j : nat) (x : A) :
  l !! j = Some x -> enumerate l !! j = Some (j, x).
Proof. intros Hj. unfold enumerate. by rewrite (combine_seq_lookup l 0 j x Hj). Qed.

Lemma enumerate_length {A} (l : list A) : length (enumerate l) = length l.
Proof. unfold enumerate. rewrite length_combine, length_seq. lia. Qed.

(** The item at [i * n + j] of a concatenation of blocks of length [n]. *)
Lemma flat_map_lookup_block {A B} (f : A -> list B) (n : nat) (l : list A) :
  (forall x, length (f x) = n) ->
  forall i j x, l !! i = Some x -> j < n ->
    flat_map f l !! (i * n + j) = f x !! j.
Proof.
  intros Hlen. induction l as [|a l IH]; intros i j x Hi Hj; [done |].
  cbn [flat_map]. destruct i as [|i]; cbn in Hi.
  - inversion Hi; subst. cbn. apply lookup_app_l. by rewrite Hlen.
  - rewrite lookup_app_r; rewrite Hlen; [|lia].
    replace (S i * n + j - n) with (i * n + j) by lia. by apply IH.
Qed.

Lemma flat_map_length_block {A B} (f : A -> list B) (n : nat) (l : list A) :
  (forall x, length (f x) = n) -> length (flat_map f l) = length l * n.
Proof.
  intros Hlen. induction l as [|a l IH]; [done |].
  cbn [flat_map]. rewrite length_app, Hlen, IH. cbn. lia.
Qed.

(** C7: [plot_sortingview] composes views built elsewhere into a layout
    tree.  The top level is a horizontal splitter.  Its first item is the unit
    table, stacked above a curation panel in a vertical splitter exactly when
    [curation] is set.  Its second item nests the unit locations (stretch
    0.2), the average waveforms, the spike amplitudes and the
    cross-correlograms in further horizontal and vertical splitters.  The one
    thing the widget computes itself is the list of similarity scores of all
    pairs of units, row by row. *)
Theorem plot_sortingview_layout (dp : DataPlot) :
  let we := waveform_extractor dp in
  let ids := make_serializable (unit_ids dp) in
  let similarity := TemplateSimilarityWidget_similarity we ids in
  let scores := similarity_scores TemplateSimilarityWidget_similarity astype_float32 we ids in
  let table := generate_unit_table_view (we_sorting we) (unit_table_properties dp) scores in
  let plotted :=
    plot_sortingview we_sorting make_serializable AmplitudesWidget_view
      UnitTemplatesWidget_view CrossCorrelogramsWidget_view UnitLocationsWidget_view
      TemplateSimilarityWidget_similarity astype_float32 generate_unit_table_view
      handle_display_and_url dp in
  view plotted =
    Splitter "horizontal"
      (LayoutItem_
         (if curation dp
          then Splitter "vertical" (LayoutItem_ table)
                 (LayoutItem_ (SortingCuration2 (label_choices dp)))
          else table))
      (LayoutItem_
         (Splitter "horizontal"
            (LayoutItem_stretch (UnitLocationsWidget_view we ids) (2 # 10))
            (LayoutItem_
               (Splitter "horizontal"
                  (LayoutItem_ (UnitTemplatesWidget_view we ids (sparsity dp)))
                  (LayoutItem_
                     (Splitter "vertical"
                        (LayoutItem_ (AmplitudesWidget_view we ids
                                        (max_amplitudes_per_unit dp)))
                        (LayoutItem_ (CrossCorrelogramsWidget_view we ids)))))))) /\
  url plotted = handle_display_and_url (view plotted) /\
  length scores = length ids * length ids /\
  (forall i1 i2 u1 u2,
     ids !! i1 = Some u1 -> ids !! i2 = Some u2 ->
     scores !! (i1 * length ids + i2)
       = Some (mkUnitSimilarityScore u1 u2 (astype_float32 (similarity i1 i2)))).
Proof.
  intros we ids similarity scores table plotted.
  assert (Hblock : forall iu : nat * UnitId,
            length (let '(i1, u1) := iu in
                    map (fun '(i2, u2) =>
                           mkUnitSimilarityScore u1 u2 (astype_float32 (similarity i1 i2)))
                        (enumerate ids)) = length ids).
  { intros [i1 u1]. by rewrite length_map, enumerate_length. }
  repeat apply conj.
  - subst plotted. unfold plot_sortingview. cbn [view]. by destruct (curation dp).
  - done.
  - subst scores. unfold similarity_scores.
    rewrite (flat_map_length_block _ (length ids)); [|exact Hblock].
    by rewrite enumerate_length.
  - intros i1 i2 u1 u2 H1 H2. subst scores. unfold similarity_scores.
    rewrite (flat_map_lookup_block _ (length ids) _ Hblock i1 i2 (i1, u1)).
    + rewrite list_lookup_fmap. by rewrite (enumerate_lookup ids i2 u2 H2).
    + by apply enumerate_lookup.
    + by eapply lookup_lt_Some.
Qed.
End WidgetFacts.

End SummaryFacts.

(* ===================================================================== *)
(** * Further properties of the study                                     *)
(* ===================================================================== *)

Module StudyExtras.
Import Py PathLib GroundTruthStudy PyFacts PathLibFacts StudyFacts.
Local Open Scope py_scope.

(** ** Folder names of keys *)

(** No component of the key contains the character ["#"]. *)
Definition hash_free (key : Key) : Prop :=
  match key with
  | KTuple items => forall s, AStr s ∈ items -> str_contains "#" s = false
  | _ => True
  end.

Lemma join_split_at_separator (x y r1 r2 : string) :
  str_contains "#" x = false -> str_contains "#" y = false ->
  x +:+ " ## " +:+ r1 = y +:+ " ## " +:+ r2 -> x = y /\ r1 = r2.
Proof.
  revert y. induction x as [|c x IH]; intros y Hx Hy Heq.
  - destruct y as [|d y]; cbn in Heq.
    + by inversion Heq.
    + inversion Heq as [[Hd Hrest]]. subst d.
      destruct y as [|d y]; cbn in Hrest; [by inversion Hrest |].
      inversion Hrest; subst. cbn in Hy. done.
  - destruct y as [|d y]; cbn in Heq.
    + inversion Heq as [[Hd Hrest]]. subst c.
      destruct x as [|c x]; cbn in Hrest; [by inversion Hrest |].
      inversion Hrest; subst. cbn in Hx. done.
    + inversion Heq as [[Hd Hrest]]. subst d. cbn in Hx, Hy.
      apply orb_false_iff in Hx as [_ Hx]. apply orb_false_iff in Hy as [_ Hy].
      destruct (IH y Hx Hy Hrest) as [-> ->]. done.
Qed.

Lemma str_join_cons2 sep x y l :
  str_join sep (x :: y :: l) = x +:+ sep +:+ str_join sep (y :: l).
Proof. reflexivity. Qed.

Lemma str_join_inj (l1 : list string) : forall l2,
  length l1 = length l2 ->
  Forall (fun s => str_contains "#" s = false) l1 ->
  Forall (fun s => str_contains "#" s = false) l2 ->
  str_join " ## " l1 = str_join " ## " l2 -> l1 = l2.
Proof.
  induction l1 as [|x l1 IH]; intros [|y l2] Hlen H1 H2 Heq; try done.
  apply Forall_cons in H1 as [Hx H1]. apply Forall_cons in H2 as [Hy H2].
  destruct l1 as [|x' l1], l2 as [|y' l2]; try done.
  - cbn in Heq. by subst.
  - rewrite !str_join_cons2 in Heq.
    apply join_split_at_separator in Heq as [-> Heq]; [|done..].
    f_equal. apply IH; [cbn in *; lia | done..].
Qed.

Lemma strs_of_atoms_Some items l :
  strs_of_atoms items = Some l -> items = map AStr l.
Proof.
  revert l. induction items as [|[s|z] items IH]; intros l H; cbn in H.
  - by inversion H.
  - destruct (strs_of_atoms items) as [l'|]; [|done]. inversion H; subst.
    cbn. f_equal. by apply IH.
  - done.
Qed.

(** X1: [key_to_str] names the folders of the cases.  Two different keys of
    one kind (both strings, or tuples of one length) whose components contain
    no ["#"] have different folder names; with a ["#"] in a component two
    different tuple keys can share one folder name. *)
Theorem key_to_str_injective :
  (forall k1 k2 ks,
     homogeneous [k1; k2] -> hash_free k1 -> hash_free k2 ->
     key_to_str k1 = Ok ks -> key_to_str k2 = Ok ks -> k1 = k2) /\
  (exists k1 k2 ks,
     homogeneous [k1; k2] /\ k1 <> k2 /\
     key_to_str k1 = Ok ks /\ key_to_str k2 = Ok ks).
Proof.
  split.
  - intros k1 k2 ks Hhom Hf1 Hf2 H1 H2.
    destruct Hhom as [Hstr | [n Htup]].
    + apply Forall_cons in Hstr as [Hs1 Hstr]. apply Forall_cons in Hstr as [Hs2 _].
      destruct k1, k2; try done. cbn in H1, H2. congruence.
    + apply Forall_cons in Htup as [[Ht1 Hn1] Htup].
      apply Forall_cons in Htup as [[Ht2 Hn2] _].
      destruct k1 as [|items1| |], k2 as [|items2| |]; try done.
      cbn in H1, H2, Hn1, Hn2, Hf1, Hf2. unfold join_atoms in H1, H2.
      destruct (strs_of_atoms items1) as [l1|] eqn:E1; [|done].
      destruct (strs_of_atoms items2) as [l2|] eqn:E2; [|done].
      apply strs_of_atoms_Some in E1, E2. subst items1 items2.
      injection H1 as J1. injection H2 as J2. f_equal. f_equal.
      rewrite !length_map in Hn1, Hn2. change _key_separator with " ## " in J1, J2.
      apply str_join_inj; [congruence | | | congruence].
      * apply Forall_forall. intros s Hs. apply Hf1. by apply list_elem_of_fmap_2.
      * apply Forall_forall. intros s Hs. apply Hf2. by apply list_elem_of_fmap_2.
  - exists (KTuple [AStr "a ## b"; AStr "c"]), (KTuple [AStr "a"; AStr "b ## c"]),
      "a ## b ## c".
    repeat split; try done.
    right. exists 2. by repeat constructor.
Qed.

(** Unfolds the primitive step that a hypothesis is about. *)
Ltac prim Hm :=
  unfold get_self, gets, in_world, exists_, update_self, modify, lift,
    open_read, call_reader, call_ext, fs_op in Hm;
  cbn [self world fs log] in Hm.

Section CreateExtras.
Context `{Ext : Externals}.

(** ** What [create] hands to the new object *)

Lemma scan_dataset_body_meta (dir rec_file : Path) st r st' :
  scan_dataset_body dir rec_file st = (r, st') ->
  info (self st') = info (self st) /\ levels (self st') = levels (self st).
Proof.
  destruct st as [s w]. unfold scan_dataset_body, bind. cbn.
  destruct (load_extractor (fs w) rec_file); cbn.
  - destruct (load_extractor (fs w) _); cbn; intros H; by inversion H.
  - intros H; by inversion H.
Qed.

Lemma scan_sorting_body_meta (dir : Path) key st r st' :
  scan_sorting_body dir key st = (r, st') ->
  info (self st') = info (self st) /\ levels (self st') = levels (self st).
Proof.
  destruct st as [s w]. rewrite scan_sorting_body_run.
  destruct (key_to_str key); [|intros H; by inversion H]. cbv zeta.
  destruct (path_exists _ _); [|intros H; by inversion H].
  destruct (load_extractor _ _); intros H; by inversion H.
Qed.

Lemma for_each_meta {A} (body : A -> M MState unit) (l : list A) st r st' :
  (forall x st r st', body x st = (r, st') ->
     info (self st') = info (self st) /\ levels (self st') = levels (self st)) ->
  for_each l body st = (r, st') ->
  info (self st') = info (self st) /\ levels (self st') = levels (self st).
Proof.
  intros Hbody Hrun.
  apply (for_each_preserves
           (fun x => info (self x) = info (self st) /\ levels (self x) = levels (self st))
           l body) in Hrun; [done | | done].
  intros x s0 r0 s1 Hx [Hi Hl]. apply Hbody in Hx as [Hi' Hl']. split; congruence.
Qed.

(** What a scan that returns has read. *)
Lemma scan_folder_Ok_reads s w s' w' :
  scan_folder (mkState s w) = (Ok tt, mkState s' w') ->
  exists obj lv cs,
    read_file (fs w) (folder s </> "info.json") = Ok (CJson obj) /\
    dict_get "levels" obj = Some lv /\
    read_file (fs w) (folder s </> "cases.pickle") = Ok (CPickleCases cs) /\
    info s' = obj /\ levels s' = lv /\ cases s' = cs.
Proof.
  intros H. unfold scan_folder in H.
  apply bind_Ok_inv in H as (dir & st & Hm & H). prim Hm. inversion Hm; subst; clear Hm.
  apply bind_Ok_inv in H as (ex & st & Hm & H). prim Hm. inversion Hm; subst; clear Hm.
  destruct (path_exists (fs w) (folder s </> "datasets")); [|done]. cbn [negb] in H.
  apply bind_Ok_inv in H as (c1 & st & Hm & H). prim Hm.
  inversion Hm as [[Hread Hst]]; subst; clear Hm.
  apply bind_Ok_inv in H as (obj & st & Hm & H). prim Hm.
  inversion Hm as [[Hjson Hst]]; subst; clear Hm.
  apply bind_Ok_inv in H as ([] & st & Hm & H). prim Hm. inversion Hm; subst; clear Hm.
  apply bind_Ok_inv in H as (lv & st & Hm & H). prim Hm.
  inversion Hm as [[Hlv Hst]]; subst; clear Hm.
  apply bind_Ok_inv in H as ([] & st & Hm & H). prim Hm. inversion Hm; subst; clear Hm.
  apply bind_Ok_inv in H as (files & st & Hm & H). prim Hm. inversion Hm; subst; clear Hm.
  apply bind_Ok_inv in H as ([] & [s1 w1] & Hm & H). pose proof Hm as Hmeta.
  apply scan_datasets_loop_frame in Hm as [Hfs1 Hdir1].
  apply (for_each_meta _ _ _ _ _ (scan_dataset_body_meta _)) in Hmeta as [Hi1 Hl1].
  cbn [self world fs folder info levels set_levels set_info] in Hfs1, Hdir1, Hi1, Hl1.
  apply bind_Ok_inv in H as (c2 & st & Hm & H). prim Hm.
  inversion Hm as [[Hread2 Hst]]; subst; clear Hm.
  apply bind_Ok_inv in H as (cs & st & Hm & H). prim Hm.
  inversion Hm as [[Hpick Hst]]; subst; clear Hm.
  apply bind_Ok_inv in H as ([] & st & Hm & H). prim Hm. inversion Hm; subst; clear Hm.
  apply bind_Ok_inv in H as ([] & st & Hm & H). prim Hm. inversion Hm; subst; clear Hm.
  apply bind_Ok_inv in H as ([] & st & Hm & H). prim Hm. inversion Hm; subst; clear Hm.
  pose proof H as Hmeta.
  apply scan_sortings_loop in H as (_ & _ & Hca & _).
  apply (for_each_meta _ _ _ _ _ (scan_sorting_body_meta _)) in Hmeta as [Hi2 Hl2].
  cbn [self info levels cases set_sortings set_comparisons set_cases] in Hca, Hi2, Hl2.
  destruct c1 as [obj'| | |]; try done. destruct c2 as [|cs'| |]; try done.
  cbn in Hjson, Hpick. injection Hjson as ->. injection Hpick as ->.
  rewrite Hfs1 in Hread2. apply dict_item_Ok in Hlv.
  exists (info s1), (levels s1), cs. by repeat split.
Qed.
Lemma read_file_insert_File {C} (f : gmap Path (Node C)) (dir : Path) (x : string) (c : C) :
  is_root x = false -> read_file (<[dir ++ [x] := File c]> f) (dir ++ [x]) = Ok c.
Proof.
  intros Hx. unfold read_file. rewrite node_at_snoc; [|done]. by rewrite lookup_insert_eq.
Qed.

(** The state in which [create] builds the object, and what the object
    holds. *)
Lemma create_Ok_reads study_folder datasets cases levels w s w' :
  create study_folder datasets cases levels w = (Ok s, w') ->
  exists lv, check_keys cases levels = Ok lv /\
    folder s = parse_path study_folder /\ GroundTruthStudy.cases s = cases /\
    GroundTruthStudy.levels s = lv /\ info s = [("levels", lv)].
Proof.
  intros H. unfold create in H. set (dir := parse_path study_folder) in *.
  apply bind_Ok_inv in H as (lv & w0 & H0 & H). apply lift_Ok_inv in H0 as [Hlv ->].
  do 9 (apply bind_Ok_inv in H as ([] & ? & _ & H)).
  apply bind_Ok_inv in H as ([] & w10 & H1 & H).
  apply fs_op_Ok in H1 as (f10 & Hop & ->). apply write_file_Ok in Hop as [-> _].
  apply bind_Ok_inv in H as ([] & w11 & H1 & H).
  apply fs_op_Ok in H1 as (f11 & Hop & ->). cbn [fs set_fs] in Hop.
  apply write_file_Ok in Hop as [-> _].
  unfold init in H.
  destruct (scan_folder _) as [[[]|e] [s1 w1]] eqn:Hscan; inversion H; subst; clear H.
  pose proof (scan_folder_Ok _ _ _ _ Hscan) as (_ & Hdir & _).
  apply scan_folder_Ok_reads in Hscan as (obj & lv' & cs & Hr1 & Hl & Hr2 & Hi & Hlev & Hc).
  cbn [fs set_fs folder new_study] in Hr1, Hr2.
  change (dir </> "info.json") with (dir ++ ["info.json"]) in *.
  change (dir </> "cases.pickle") with (dir ++ ["cases.pickle"]) in *.
  rewrite read_file_insert_File in Hr2; [|done]. injection Hr2 as <-.
  unfold read_file in Hr1. rewrite node_at_snoc in Hr1; [|done].
  rewrite lookup_insert_ne in Hr1; [|intros Heq; by apply app_inv_head in Heq].
  rewrite lookup_insert_eq in Hr1. injection Hr1 as <-.
  cbn in Hl. injection Hl as <-.
  exists lv. by repeat split.
Qed.

(** The names of the default levels of tuple keys of length [n]. *)
Definition default_levels (n : nat) : list string :=
  map (fun i => "level" +:+ str_of_nat i) (seq 0 n).

Lemma check_keys_levels cases levels lv :
  check_keys cases levels = Ok lv ->
  match dict_keys cases with
  | KStr _ :: _ =>
      exists name, lv = JStr name /\ (levels = None -> name = "level0")
  | KTuple items :: _ =>
      exists names, lv = JStrs names /\ length names = length items /\
        (levels = None -> names = default_levels (length items))
  | _ => False
  end.
Proof.
  unfold check_keys. destruct (dict_keys cases) as [|[s|items| |] keys]; try done.
  - destruct (negb _); [done |]. destruct levels as [[| |name|]|]; try done.
    + intros H. injection H as <-. by exists name.
    + intros H. injection H as <-. by exists "level0".
  - destruct (negb _); [done |]. destruct (negb _); [done |].
    destruct levels as [lv0|].
    + destruct (list_of_levels lv0) as [l|e]; [|done].
      destruct (Nat.eqb (length l) (length items)) eqn:Hlen; [|done].
      intros H. injection H as <-. exists l. apply Nat.eqb_eq in Hlen. done.
    + intros H. injection H as <-. exists (default_levels (length items)).
      unfold default_levels. by rewrite length_map, length_seq.
Qed.

(** X2: [create] stores the cases and the levels through the study folder:
    the object it returns holds the cases it was given, the levels that the
    key check computed, and the folder it was given. *)
Theorem create_round_trip study_folder datasets cases levels w s w' :
  create study_folder datasets cases levels w = (Ok s, w') ->
  folder s = parse_path study_folder /\
  GroundTruthStudy.cases s = cases /\
  Ok (GroundTruthStudy.levels s) = check_keys cases levels /\
  info s = [("levels", GroundTruthStudy.levels s)].
Proof.
  intros H. apply create_Ok_reads in H as (lv & Hlv & Hf & Hc & Hl & Hi).
  subst lv. by rewrite Hlv.
Qed.

(** X3: the levels of a created study match its keys: one name for string
    keys ("level0" by default), and for tuple keys as many names as a key
    has components (level0, level1, ... by default). *)
Theorem create_levels_match_keys study_folder datasets cases levels w s w' :
  create study_folder datasets cases levels w = (Ok s, w') ->
  match dict_keys cases with
  | KStr _ :: _ =>
      exists name, GroundTruthStudy.levels s = JStr name /\
        (levels = None -> name = "level0")
  | KTuple items :: _ =>
      exists names, GroundTruthStudy.levels s = JStrs names /\
        length names = length items /\
        Forall (fun key => key_len key = length names) (dict_keys cases) /\
        (levels = None -> names = default_levels (length items))
  | _ => False
  end.
Proof.
  intros H. pose proof H as Hhom.
  apply create_Ok_check_keys in Hhom as [lv0 Hhom]. apply check_keys_Ok_homogeneous in Hhom.
  apply create_Ok_reads in H as (lv & Hlv & _ & _ & Hl & _). subst lv.
  apply check_keys_levels in Hlv.
  destruct (dict_keys cases) as [|[k|items| |] keys] eqn:Hk; try done.
  destruct Hlv as (names & Hn & Hlen & Hdef). exists names. repeat split; try done.
  destruct Hhom as [Hstr | [n Htup]].
  - apply Forall_cons in Hstr as [Hs _]. done.
  - pose proof Htup as Htup'. apply Forall_cons in Htup' as [[_ Hn0] _]. cbn in Hn0.
    eapply Forall_impl; [exact Htup |]. intros key [_ Hkey]. cbn beta in Hkey. congruence.
Qed.

(** X4: [create] never reuses a folder: on an existing study folder it raises
    FileExistsError and changes nothing, and whenever it returns the folder
    did not exist before. *)
Theorem create_refuses_existing_folder study_folder datasets cases levels w :
  (forall lv, check_keys cases levels = Ok lv ->
     path_exists (fs w) (parse_path study_folder) = true ->
     create study_folder datasets cases levels w = (Raise FileExistsError, w)) /\
  (forall s w', create study_folder datasets cases levels w = (Ok s, w') ->
     path_exists (fs w) (parse_path study_folder) = false).
Proof.
  split.
  - intros lv Hlv Hex. unfold create, bind, lift. rewrite Hlv.
    unfold fs_op, mkdir_parents. by rewrite Hex.
  - intros s w' H. unfold create in H.
    apply bind_Ok_inv in H as (lv & w0 & H0 & H). apply lift_Ok_inv in H0 as [_ ->].
    apply bind_Ok_inv in H as ([] & w1 & H1 & _).
    apply fs_op_Ok in H1 as (f' & Hop & _). unfold mkdir_parents in Hop.
    by destruct (path_exists (fs w) (parse_path study_folder)).
Qed.
End CreateExtras.

Section RunSortersExtras.
Context `{Ext : Externals}.

(** ** [run_sorters]: other modes *)

Lemma run_sorters_body_rebuild verbose key s w :
  run_sorters_body false verbose key (mkState s w) =
  (match key_to_str key with
   | Raise e => Raise e
   | Ok ks =>
       match make_job s key (folder s </> "sorters" </> ks) verbose with
       | Ok job => Ok (Some job)
       | Raise e => Raise e
       end
   end, mkState s w).
Proof.
  unfold run_sorters_body, bind, get_self, in_world, exists_, gets, lift, ret, id.
  cbn [self world].
  destruct (key_to_str key) as [ks|e]; [|done]. cbn [self world].
  by destruct (make_job s key (folder s </> "sorters" </> ks) verbose).
Qed.

Lemma run_sorters_body_state keep verbose key s w :
  (run_sorters_body keep verbose key (mkState s w)).2 = mkState s w.
Proof.
  destruct keep; [by rewrite run_sorters_body_keep | by rewrite run_sorters_body_rebuild].
Qed.

Lemma run_sorters_loop_state keep verbose keys : forall job_list s w,
  (run_sorters_loop keep verbose keys job_list (mkState s w)).2 = mkState s w.
Proof.
  induction keys as [|key keys IH]; intros job_list s w; [done |].
  cbn [run_sorters_loop]. unfold bind.
  pose proof (run_sorters_body_state keep verbose key s w) as Hst.
  destruct (run_sorters_body keep verbose key (mkState s w)) as [[job|e] st1].
  - cbn in Hst. subst st1. apply IH.
  - exact Hst.
Qed.

(** X5: the jobs are built before anything runs: when building a job fails,
    [run_sorters] raises that error, [run_sorter_jobs] is not called, and the
    object and the world are as before. *)
Theorem run_sorters_builds_before_running
    (case_keys : option (list Key)) (engine : string) (engine_kwargs : Kwargs)
    (keep verbose : bool) (s : Study) (w : World) (e : Exn) :
  let keys := match case_keys with Some l => l | None => dict_keys (cases s) end in
  (run_sorters_loop keep verbose keys [] (mkState s w)).1 = Raise e ->
  run_sorters case_keys engine engine_kwargs keep verbose (mkState s w)
    = (Raise e, mkState s w).
Proof.
  intros keys Hloop.
  pose proof (run_sorters_loop_state keep verbose keys [] s w) as Hst.
  destruct (run_sorters_loop keep verbose keys [] (mkState s w)) as [r st1] eqn:Hrun.
  cbn in Hloop, Hst. subst r st1.
  unfold run_sorters. unfold bind at 1.
  assert (Hkeys : keys_or_all case_keys (mkState s w) = (Ok keys, mkState s w))
    by (by destruct case_keys).
  rewrite Hkeys. unfold bind at 1. by rewrite Hrun.
Qed.

(** X6: with the engine [slurm] nothing is collected: after the jobs are
    built, [run_sorters] calls [run_sorter_jobs] once and stops; the object is
    unchanged and no sorter folder is read. *)
Theorem run_sorters_slurm_collects_nothing
    (case_keys : option (list Key)) (engine_kwargs : Kwargs)
    (keep verbose : bool) (s : Study) (w : World) (job_list : list Job) :
  let keys := match case_keys with Some l => l | None => dict_keys (cases s) end in
  (run_sorters_loop keep verbose keys [] (mkState s w)).1 = Ok job_list ->
  run_sorters case_keys "slurm" engine_kwargs keep verbose (mkState s w)
    = ((run_sorter_jobs job_list "slurm" engine_kwargs (fs w)).1,
       mkState s
         (mkWorld (run_sorter_jobs job_list "slurm" engine_kwargs (fs w)).2
                  (log w ++ [EvRunSorterJobs job_list "slurm" engine_kwargs]))).
Proof.
  intros keys Hloop.
  pose proof (run_sorters_loop_state keep verbose keys [] s w) as Hst.
  destruct (run_sorters_loop keep verbose keys [] (mkState s w)) as [r st1] eqn:Hrun.
  cbn in Hloop, Hst. subst r st1.
  unfold run_sorters. unfold bind at 1.
  assert (Hkeys : keys_or_all case_keys (mkState s w) = (Ok keys, mkState s w))
    by (by destruct case_keys).
  rewrite Hkeys. unfold bind at 1. rewrite Hrun. unfold bind at 1.
  unfold in_world, run_sorter_jobs_, call_ext. cbn [self world fs log].
  destruct (run_sorter_jobs job_list "slurm" engine_kwargs (fs w)) as [[[]|x] f']; done.
Qed.

Lemma run_sorters_loop_rebuild verbose keys : forall job_list s w,
  Forall (fun key => is_ok (key_to_str key) = true /\ runnable s key) keys ->
  exists jobs,
    run_sorters_loop false verbose keys job_list (mkState s w)
      = (Ok (job_list ++ jobs), mkState s w) /\
    Forall2 (job_description s verbose) keys jobs.
Proof.
  induction keys as [|key keys IH]; intros job_list s w Hall.
  - exists []. cbn. rewrite app_nil_r. split; [done | constructor].
  - apply Forall_cons in Hall as [[Hok Hrun] Hall].
    cbn [run_sorters_loop]. unfold bind at 1. rewrite run_sorters_body_rebuild.
    destruct (key_to_str key) as [ks|e] eqn:Hks; [|done].
    destruct (runnable_make_job s key (folder s </> "sorters" </> ks) verbose Hrun)
      as [job Hjob].
    rewrite Hjob.
    destruct (IH (job_list ++ [job]) s w Hall) as (jobs & Hloop & Hjobs).
    exists (job :: jobs). split.
    + rewrite Hloop. by rewrite <- app_assoc.
    + constructor; [|done]. by eapply make_job_Ok.
Qed.

(** A test that decides the precondition of the loop without [keep]. *)
Lemma keys_runnable_check s verbose keys :
  forallb (fun key =>
             match key_to_str key with
             | Ok ks => is_ok (make_job s key (folder s </> "sorters" </> ks) verbose)
             | Raise _ => false
             end) keys = true ->
  Forall (fun key => is_ok (key_to_str key) = true /\ runnable s key) keys.
Proof.
  intros Hall. apply Forall_forall. intros key Hin.
  pose proof (forallb_elem _ _ _ Hall Hin) as Hkey. cbv beta in Hkey.
  destruct (key_to_str key) as [ks|e] eqn:Hks; [|done]. split; [done |].
  by eapply make_job_runnable.
Qed.

(** X7: with [keep=False] every key is run again, sorted already or not:
    when every key has a folder name and a complete case, the loop of
    [run_sorters] builds one job description per key, in order, without
    looking at the sortings folders and without changing anything, and the
    whole list is handed to [run_sorter_jobs] in the only call that
    [run_sorters] makes. *)
Theorem run_sorters_no_keep_runs_all
    (case_keys : option (list Key)) (engine : string) (engine_kwargs : Kwargs)
    (verbose : bool) (s : Study) (w : World) :
  let keys := match case_keys with Some l => l | None => dict_keys (cases s) end in
  Forall (fun key => is_ok (key_to_str key) = true /\ runnable s key) keys ->
  exists job_list,
    Forall2 (job_description s verbose) keys job_list /\
    run_sorters_loop false verbose keys [] (mkState s w) = (Ok job_list, mkState s w) /\
    run_sorter_jobs_calls
      (log (world (run_sorters case_keys engine engine_kwargs false verbose
                     (mkState s w)).2))
    = run_sorter_jobs_calls (log w) ++ [(job_list, engine, engine_kwargs)].
Proof.
  intros keys Hall.
  destruct (run_sorters_loop_rebuild verbose keys [] s w Hall) as (jobs & Hloop & Hjobs).
  cbn [app] in Hloop. exists jobs. split; [done |]. split; [done |].
  unfold run_sorters. unfold bind at 1.
  assert (Hkeys : keys_or_all case_keys (mkState s w) = (Ok keys, mkState s w))
    by (by destruct case_keys).
  rewrite Hkeys. unfold bind at 1. rewrite Hloop. unfold bind at 1.
  unfold in_world, run_sorter_jobs_, call_ext. cbn [self world fs log].
  destruct (run_sorter_jobs jobs engine engine_kwargs (fs w)) as [[u|e] f'].
  - destruct (negb (engine =? "slurm")%string).
    + destruct (copy_sortings (Some keys) true _) as [r st'] eqn:Hcopy.
      apply copy_sortings_calls in Hcopy. cbn [snd]. rewrite Hcopy.
      cbn [world log]. by rewrite run_sorter_jobs_calls_app.
    + cbn. by rewrite run_sorter_jobs_calls_app.
  - cbn. by rewrite run_sorter_jobs_calls_app.
Qed.
End RunSortersExtras.

Section CopyExtras.
Context `{Ext : Externals}.

(** ** [copy_sortings] and [get_run_times] *)

Lemma for_each_single {S A} (body : A -> M S unit) (x : A) (st : S) :
  for_each [x] body st = body x st.
Proof. cbn [for_each]. unfold bind, ret. by destruct (body x st) as [[[]|e] st']. Qed.

Lemma copy_sortings_single force key st :
  copy_sortings (Some [key]) force st = copy_sortings_body force key st.
Proof.
  unfold copy_sortings, keys_or_all. rewrite (bind_ok _ _ st [key] st); [|done].
  apply for_each_single.
Qed.

(** X8: [copy_sortings] with [force=False] keeps a sorting that is already
    there: for a key whose sortings folder exists, the sorter folder is read
    and nothing else happens; the object and the file system are unchanged. *)
Theorem copy_sortings_keeps_existing key ks s w r :
  key_to_str key = Ok ks ->
  path_exists (fs w) (folder s </> "sortings" </> ks) = true ->
  read_sorter_folder (fs w) (folder s </> "sorters" </> ks) = r ->
  copy_sortings (Some [key]) false (mkState s w) =
    (match r with Ok _ => Ok tt | Raise e => Raise e end,
     mkState s (mkWorld (fs w)
                  (log w ++ [EvReadSorterFolder (folder s </> "sorters" </> ks)]))).
Proof.
  intros Hks Hex Hread. rewrite copy_sortings_single.
  unfold copy_sortings_body, bind, get_self, lift, in_world,
    read_sorter_folder_, call_reader, call_ext, exists_, gets, ret.
  cbn [self world fs log]. rewrite Hks. cbn [self world fs log]. rewrite Hread.
  destruct r as [[e|]|x]; [|done..]. cbn [self world fs log]. by rewrite Hex.
Qed.

Lemma write_file_read {C} (f : gmap Path (Node C)) p (c : C) f' :
  write_file f p c = Ok f' -> read_file f' p = Ok c.
Proof.
  intros H. pose proof H as Hw. apply write_file_Ok in Hw as [-> _].
  unfold write_file in H. unfold read_file.
  destruct p as [|a [|b p]]; cbn in H |- *; [done | |].
  - destruct (is_root a); [done |]. by rewrite lookup_insert_eq.
  - by rewrite lookup_insert_eq.
Qed.

Lemma write_file_read_other {C} (f : gmap Path (Node C)) p q (c : C) f' :
  write_file f p c = Ok f' -> p <> q -> read_file f' q = read_file f q.
Proof.
  intros H Hne. apply write_file_Ok in H as [-> _]. unfold read_file.
  destruct q as [|a [|b q]]; cbn; [done | |].
  - destruct (is_root a); [done |]. by rewrite lookup_insert_ne.
  - by rewrite lookup_insert_ne.
Qed.

(** What a copy that is made leaves. *)
Lemma copy_sortings_body_Ok force key ks s w e s' w' :
  key_to_str key = Ok ks ->
  read_sorter_folder (fs w) (folder s </> "sorters" </> ks) = Ok (Some e) ->
  path_exists (fs w) (folder s </> "sortings" </> ks) && negb force = false ->
  copy_sortings_body force key (mkState s w) = (Ok tt, mkState s' w') ->
  folder s' = folder s /\
  (exists f1 saved,
     (if path_exists (fs w) (folder s </> "sortings" </> ks)
      then rmtree (fs w) (folder s </> "sortings" </> ks)
      else Ok (fs w)) = Ok f1 /\
     (save_numpy_folder e (folder s </> "sortings" </> ks) f1).1 = Ok saved /\
     dict_get key (sortings s') = Some (Some saved)) /\
  (forall k, k <> key -> dict_get k (sortings s') = dict_get k (sortings s)) /\
  log w' = log w ++ [EvReadSorterFolder (folder s </> "sorters" </> ks);
                     EvSave e (folder s </> "sortings" </> ks)] /\
  (exists c,
     read_file (fs w') (folder s </> "sortings" </> "run_logs" </> (ks +:+ ".json")) = Ok c /\
     read_file (fs w') (folder s </> "sorters" </> ks </> "spikeinterface_log.json") = Ok c).
Proof.
  intros Hks Hread Hskip H.
  unfold copy_sortings_body in H.
  apply bind_Ok_inv in H as (dir & st & Hm & H). prim Hm. inversion Hm; subst; clear Hm.
  apply bind_Ok_inv in H as (ks' & st & Hm & H). prim Hm. rewrite Hks in Hm.
  inversion Hm; subst; clear Hm.
  apply bind_Ok_inv in H as (sorting & st & Hm & H).
  unfold read_sorter_folder_ in Hm. prim Hm. rewrite Hread in Hm.
  inversion Hm; subst; clear Hm.
  apply bind_Ok_inv in H as (ex & st & Hm & H). prim Hm. inversion Hm; subst; clear Hm.
  rewrite Hskip in H.
  apply bind_Ok_inv in H as ([] & [s1 w1] & Hm & H).
  assert (Hs1 : s1 = s /\
            log w1 = log w ++ [EvReadSorterFolder (folder s </> "sorters" </> ks')] /\
            (if path_exists (fs w) (folder s </> "sortings" </> ks')
             then rmtree (fs w) (folder s </> "sortings" </> ks')
             else Ok (fs w)) = Ok (fs w1)).
  { destruct (path_exists (fs w) (folder s </> "sortings" </> ks')).
    - prim Hm. destruct (rmtree _ _); inversion Hm; subst; done.
    - by inversion Hm. }
  destruct Hs1 as (-> & Hlog1 & Hf1). clear Hm.
  apply bind_Ok_inv in H as (saved & st & Hm & H). unfold save_ in Hm. prim Hm.
  destruct (save_numpy_folder e _ (fs w1)) as [r2 f2] eqn:Hsave.
  inversion Hm; subst; clear Hm.
  apply bind_Ok_inv in H as ([] & st & Hm & H). prim Hm. inversion Hm; subst; clear Hm.
  prim H. destruct (copyfile f2 _ _) as [f3|x] eqn:Hcopy; inversion H; subst; clear H.
  cbn [sortings set_sortings log folder].
  split; [done |].
  split.
  { exists (fs w1), saved. split; [exact Hf1 |]. split; [by rewrite Hsave |].
    apply dict_get_set_eq. }
  split; [intros k Hk; apply dict_get_set_ne; congruence |].
  split; [rewrite Hlog1; by rewrite <- app_assoc |].
  unfold copyfile in Hcopy.
  destruct (read_file f2 _) as [c|x] eqn:Hsrc; [|done].
  destruct (decide _) as [Heq|Hne]; [done |].
  exists c. split.
  - by eapply write_file_read.
  - rewrite (write_file_read_other _ _ _ _ _ Hcopy); [done | congruence].
Qed.

(** X9: what a successful copy leaves.  When the sorter folder of a key holds
    a sorting and the copy is made (no sortings folder yet, or [force]), then
    after [copy_sortings] the sorting of the key is the object that the save
    of the sorter's sorting into the sortings folder returned (called on the
    file system from which an existing sortings folder has been removed), the
    sortings of the other keys are as before, the only external calls are the
    read of the sorter folder and the save, and the run log of the key is a
    copy of the sorter's spikeinterface_log.json. *)
Theorem copy_sortings_copies force key ks s w e s' w' :
  key_to_str key = Ok ks ->
  read_sorter_folder (fs w) (folder s </> "sorters" </> ks) = Ok (Some e) ->
  path_exists (fs w) (folder s </> "sortings" </> ks) && negb force = false ->
  copy_sortings (Some [key]) force (mkState s w) = (Ok tt, mkState s' w') ->
  (exists f1 saved,
     (if path_exists (fs w) (folder s </> "sortings" </> ks)
      then rmtree (fs w) (folder s </> "sortings" </> ks)
      else Ok (fs w)) = Ok f1 /\
     (save_numpy_folder e (folder s </> "sortings" </> ks) f1).1 = Ok saved /\
     dict_get key (sortings s') = Some (Some saved)) /\
  (forall k, k <> key -> dict_get k (sortings s') = dict_get k (sortings s)) /\
  log w' = log w ++ [EvReadSorterFolder (folder s </> "sorters" </> ks);
                     EvSave e (folder s </> "sortings" </> ks)] /\
  (exists c,
     read_file (fs w') (folder s </> "sortings" </> "run_logs" </> (ks +:+ ".json")) = Ok c /\
     read_file (fs w') (folder s </> "sorters" </> ks </> "spikeinterface_log.json") = Ok c).
Proof.
  intros Hks Hread Hskip H. rewrite copy_sortings_single in H.
  by apply (copy_sortings_body_Ok force key ks s w e s' w' Hks Hread Hskip) in H as (_ & H).
Qed.




(** X12: once a key is copied its run time can be read: after a copy that is
    made, [get_run_times] on that key returns the [run_time] of the sorter's
    own log. *)
Theorem get_run_times_after_copy force key ks s w e s' w' log :
  key_to_str key = Ok ks ->
  read_sorter_folder (fs w) (folder s </> "sorters" </> ks) = Ok (Some e) ->
  path_exists (fs w) (folder s </> "sortings" </> ks) && negb force = false ->
  copy_sortings (Some [key]) force (mkState s w) = (Ok tt, mkState s' w') ->
  read_file (fs w') (folder s </> "sorters" </> ks </> "spikeinterface_log.json")
    = Ok (CJson log) ->
  (get_run_times (Some [key]) (mkState s' w')).1
    = Ok [(key, default JNull (dict_get "run_time" log))].
Proof.
  intros Hks Hread Hskip H Hlog. rewrite copy_sortings_single in H.
  apply (copy_sortings_body_Ok force key ks s w e s' w' Hks Hread Hskip) in H
    as (Hdir & _ & _ & _ & (c & Hdst & Hsrc)).
  rewrite Hlog in Hsrc. injection Hsrc as <-.
  unfold get_run_times, keys_or_all, bind, ret, get_self, gets. cbn [self].
  cbn [get_run_times_loop]. unfold bind, lift. rewrite Hks.
  unfold in_world, open_read, call_reader, call_ext. cbn [world fs self].
  rewrite Hdir, Hdst. reflexivity.
Qed.
End CopyExtras.

Section ComparisonExtras.
Context `{Ext : Externals}.

(** ** [run_comparisons] and [extract_waveforms_gt] *)

(** The comparison that [run_comparisons] stores for a key: None without a
    sorting, else the result of the comparison class on the ground truth of
    the case's dataset and the sorting. *)
Definition comparison_for
    (comparison_class : Extractor -> Extractor -> Kwargs -> Res Comparison)
    (kwargs : Kwargs) (s : Study) (key : Key) : Res (option Comparison) :=
  match dict_get key (cases s) with
  | None => Raise KeyError
  | Some case =>
      match case_dataset case with
      | None => Raise KeyError
      | Some dataset_key =>
          match dict_get dataset_key (datasets s) with
          | None => Raise KeyError
          | Some (_, gt_sorting) =>
              match dict_get key (sortings s) with
              | None => Raise KeyError
              | Some None => Ok None
              | Some (Some sorting) =>
                  match comparison_class gt_sorting sorting kwargs with
                  | Ok comp => Ok (Some comp)
                  | Raise e => Raise e
                  end
              end
          end
      end
  end.

Lemma run_comparisons_body_run cc kwargs key s w :
  run_comparisons_body cc kwargs key (mkState s w) =
  match comparison_for cc kwargs s key with
  | Ok c => (Ok tt, mkState (set_comparisons (dict_set key c (comparisons s)) s) w)
  | Raise e => (Raise e, mkState s w)
  end.
Proof.
  unfold run_comparisons_body, comparison_for, bind, get_self, gets, lift, dict_item, id,
    update_self, modify.
  cbn [self world].
  destruct (dict_get key (cases s)) as [case|]; [|done].
  destruct (case_dataset case) as [d|]; [|done].
  destruct (dict_get d (datasets s)) as [[rec gt]|]; [|done].
  destruct (dict_get key (sortings s)) as [[sorting|]|]; [|done..].
  by destruct (cc gt sorting kwargs).
Qed.

Lemma run_comparisons_loop cc kwargs keys : forall s w s' w',
  for_each keys (run_comparisons_body cc kwargs) (mkState s w) = (Ok tt, mkState s' w') ->
  w' = w /\ folder s' = folder s /\ cases s' = cases s /\ datasets s' = datasets s /\
  sortings s' = sortings s /\
  (forall k, dict_get k (comparisons s') =
             if decide (k ∈ keys)
             then match comparison_for cc kwargs s k with Ok c => Some c | Raise _ => None end
             else dict_get k (comparisons s)) /\
  Forall (fun k => is_ok (comparison_for cc kwargs s k) = true) keys.
Proof.
  induction keys as [|key keys IH]; intros s w s' w' H.
  - cbn in H. inversion H; subst. repeat split; try done.
  - cbn [for_each] in H. unfold bind in H at 1. rewrite run_comparisons_body_run in H.
    destruct (comparison_for cc kwargs s key) as [c|e] eqn:Hc; [|done].
    apply IH in H as (-> & Hfo & Hca & Hda & Hso & Hget & Hall).
    cbn [folder cases datasets sortings comparisons set_comparisons] in *.
    assert (Hsame : forall k,
              comparison_for cc kwargs
                (set_comparisons (dict_set key c (comparisons s)) s) k
              = comparison_for cc kwargs s k) by done.
    repeat split; try done.
    + intros k. rewrite Hget, Hsame. destruct (decide (k ∈ keys)) as [Hin|Hnin].
      * rewrite decide_True; [done | by right].
      * destruct (decide (k = key)) as [->|Hne].
        -- rewrite decide_True; [| left]. by rewrite dict_get_set_eq, Hc.
        -- rewrite decide_False.
           ++ apply dict_get_set_ne. congruence.
           ++ intros Hin. apply elem_of_cons in Hin as [?|?]; congruence.
    + constructor; [by rewrite Hc |].
      eapply Forall_impl; [exact Hall |]. intros k Hk. cbn beta in Hk. by rewrite <- Hsame.
Qed.

(** X13: after [run_comparisons] returns, every listed key has a comparison
    exactly when it has a sorting, and that comparison is what the comparison
    class returned for the ground truth of the key's dataset and the key's
    sorting; the comparisons of the other keys, the rest of the object and the
    world are unchanged. *)
Theorem run_comparisons_follows_sortings case_keys cc kwargs s w s' w' :
  run_comparisons case_keys cc kwargs (mkState s w) = (Ok tt, mkState s' w') ->
  let keys := match case_keys with Some l => l | None => dict_keys (cases s) end in
  w' = w /\ cases s' = cases s /\ datasets s' = datasets s /\ sortings s' = sortings s /\
  (forall k, k ∈ keys ->
     exists sorting comp,
       dict_get k (sortings s) = Some sorting /\
       dict_get k (comparisons s') = Some comp /\
       comparison_for cc kwargs s k = Ok comp /\
       (comp = None <-> sorting = None)) /\
  (forall k, k ∉ keys -> dict_get k (comparisons s') = dict_get k (comparisons s)).
Proof.
  intros H keys. unfold run_comparisons in H.
  apply bind_Ok_inv in H as (keys' & st & Hm & H).
  assert (keys' = keys /\ st = mkState s w) as [-> ->]
    by (destruct case_keys; by inversion Hm).
  clear Hm. apply run_comparisons_loop in H as (-> & _ & Hca & Hda & Hso & Hget & Hall).
  repeat split; try done.
  - intros k Hin.
    pose proof (proj1 (Forall_forall _ _) Hall k Hin) as Hok. cbn beta in Hok.
    specialize (Hget k). rewrite decide_True in Hget; [|done].
    destruct (comparison_for cc kwargs s k) as [comp|e] eqn:Hc; [|done].
    unfold comparison_for in Hc.
    destruct (dict_get k (cases s)) as [case|]; [|done].
    destruct (case_dataset case) as [d|]; [|done].
    destruct (dict_get d (datasets s)) as [[rec gt]|]; [|done].
    destruct (dict_get k (sortings s)) as [sorting|]; [|done].
    exists sorting, comp. repeat split; try done.
    + intros ->. destruct sorting as [x|]; [|done]. by destruct (cc gt x kwargs).
    + intros ->. by injection Hc as <-.
  - intros k Hnin. by rewrite Hget, decide_False.
Qed.

(** The call of [extract_waveforms] that [extract_waveforms_gt] makes for a
    key. *)
Definition waveform_call (s : Study) (key : Key) (ev : Event) : Prop :=
  exists ks case dataset_key recording gt_sorting,
    key_to_str key = Ok ks /\
    dict_get key (cases s) = Some case /\
    case_dataset case = Some dataset_key /\
    dict_get dataset_key (datasets s) = Some (recording, gt_sorting) /\
    ev = EvExtractWaveforms recording gt_sorting (folder s </> "waveforms" </> ks).

Lemma extract_waveforms_loop s keys : forall w w' s',
  let base_folder := folder s </> "waveforms" in
  for_each keys (fun key =>
    let* s := get_self id in
    let* case := lift (dict_item key (cases s)) in
    let* dataset_key := lift (match case_dataset case with
                              | Some d => Ok d | None => Raise KeyError end) in
    let* (recording, gt_sorting) := lift (dict_item dataset_key (datasets s)) in
    let* ks := lift (key_to_str key) in
    let wf_folder := base_folder </> ks in
    in_world (extract_waveforms_ recording gt_sorting wf_folder)) (mkState s w)
    = (Ok tt, mkState s' w') ->
  s' = s /\ exists evs, log w' = log w ++ evs /\ Forall2 (waveform_call s) keys evs.
Proof.
  induction keys as [|key keys IH]; intros w w' s' base_folder H.
  - cbn in H. inversion H; subst. split; [done |]. exists []. by rewrite app_nil_r.
  - cbn [for_each] in H. apply bind_Ok_inv in H as ([] & [s1 w1] & Hm & H).
    apply bind_Ok_inv in Hm as (s0 & st & H0 & Hm). inversion H0; subst; clear H0.
    unfold id in Hm.
    apply bind_Ok_inv in Hm as (case & st & H0 & Hm). apply lift_Ok_inv in H0 as [Hcase ->].
    apply bind_Ok_inv in Hm as (d & st & H0 & Hm). apply lift_Ok_inv in H0 as [Hd ->].
    apply bind_Ok_inv in Hm as ([rec gt] & st & H0 & Hm). apply lift_Ok_inv in H0 as [Hds ->].
    apply bind_Ok_inv in Hm as (ks & st & H0 & Hm). apply lift_Ok_inv in H0 as [Hks ->].
    unfold in_world, extract_waveforms_, call_ext in Hm. cbn [self world] in Hm.
    destruct (extract_waveforms rec gt _ (fs w)) as [r f'] eqn:Hcall.
    inversion Hm; subst; clear Hm.
    apply IH in H as (-> & evs & Hlog & Hevs). cbn [log] in Hlog.
    split; [done |].
    exists (EvExtractWaveforms rec gt (base_folder </> ks) :: evs). split.
    + rewrite Hlog. by rewrite <- app_assoc.
    + constructor; [|done]. exists ks, case, d, rec, gt.
      apply dict_item_Ok in Hcase, Hds. destruct (case_dataset case); [|done].
      injection Hd as ->. done.
Qed.

(** X14: [extract_waveforms_gt] extracts once per listed key, in order: when it
    returns, the external calls it made are one [extract_waveforms] per key,
    on the recording and the ground truth of the key's dataset, into the
    folder of the key under [waveforms]; the object is unchanged. *)
Theorem extract_waveforms_gt_calls case_keys s w s' w' :
  extract_waveforms_gt case_keys (mkState s w) = (Ok tt, mkState s' w') ->
  let keys := match case_keys with Some l => l | None => dict_keys (cases s) end in
  s' = s /\ exists evs, log w' = log w ++ evs /\ Forall2 (waveform_call s) keys evs.
Proof.
  intros H keys. unfold extract_waveforms_gt in H.
  apply bind_Ok_inv in H as (keys' & st & Hm & H).
  assert (keys' = keys /\ st = mkState s w) as [-> ->]
    by (destruct case_keys; by inversion Hm).
  clear Hm.
  apply bind_Ok_inv in H as (dir & st & Hm & H). inversion Hm; subst; clear Hm.
  apply bind_Ok_inv in H as ([] & st & Hm & H).
  unfold in_world in Hm. cbn [self world] in Hm.
  destruct (fs_op _ w) as [r1 w1] eqn:Hop. inversion Hm; subst; clear Hm.
  apply fs_op_Ok in Hop as (f' & _ & ->).
  cbn [self] in H. apply extract_waveforms_loop in H as (-> & evs & Hlog & Hevs).
  split; [done |]. exists evs. by split.
Qed.
End ComparisonExtras.

(** ** [get_count_units]: errors and cells *)

Section CountUnitsExtras.
Context {Index Score UnitId : Type}.
Variable pd_Index : list Key -> Json -> Res Index.
Variable pd_MultiIndex_from_tuples : list Key -> Json -> Res Index.
Variable get_unit_ids : Extractor -> list UnitId.
Variable count_well_detected_units : Comparison -> option Score -> Z.
Variable count_overmerged_units : Comparison -> option Score -> Z.
Variable count_redundant_units : Comparison -> option Score -> Z.
Variable count_false_positive_units : Comparison -> option Score -> Z.
Variable count_bad_units : Comparison -> Z.

Variable s : Study.
Variables ws rs os : option Score.

Local Abbreviation body := (count_units_body get_unit_ids count_well_detected_units
  count_overmerged_units count_redundant_units count_false_positive_units
  count_bad_units s ws rs os).
Local Abbreviation loop := (count_units_loop get_unit_ids count_well_detected_units
  count_overmerged_units count_redundant_units count_false_positive_units
  count_bad_units s ws rs os).
Lemma count_units_loop_not_computed keys : forall df : DataFrame (Index := Index),
  all_computed s keys = false -> loop keys df = Raise AssertionError.
Proof.
  unfold all_computed.
  induction keys as [|key keys IH]; intros df Hall; [done |].
  cbn [forallb] in Hall. cbn [count_units_loop]. unfold count_units_body.
  destruct (dict_get key (comparisons s)) as [[comp|]|]; [|done..].
  cbn [andb] in Hall. destruct (exhaustive_gt comp); by apply IH.
Qed.

(** X15: the errors of [get_count_units].  An empty list of keys raises
    IndexError.  A first key that has no entry in [comparisons] raises
    KeyError, and one whose comparison is None raises AttributeError (the
    assertion with its message is not reached for the first key).  When the
    first key is computed and a later one is not, the assertion fails. *)
Theorem get_count_units_errors (case_keys : option (list Key)) :
  let keys := match case_keys with Some l => l | None => dict_keys (cases s) end in
  (keys = [] ->
   get_count_units pd_Index pd_MultiIndex_from_tuples get_unit_ids
     count_well_detected_units count_overmerged_units count_redundant_units
     count_false_positive_units count_bad_units s case_keys ws rs os
   = Raise IndexError) /\
  (forall key0 rest index,
     keys = key0 :: rest ->
     (if is_str key0 then pd_Index keys (levels s)
      else pd_MultiIndex_from_tuples keys (levels s)) = Ok index ->
     (dict_get key0 (comparisons s) = None ->
      get_count_units pd_Index pd_MultiIndex_from_tuples get_unit_ids
        count_well_detected_units count_overmerged_units count_redundant_units
        count_false_positive_units count_bad_units s case_keys ws rs os
      = Raise KeyError) /\
     (dict_get key0 (comparisons s) = Some None ->
      get_count_units pd_Index pd_MultiIndex_from_tuples get_unit_ids
        count_well_detected_units count_overmerged_units count_redundant_units
        count_false_positive_units count_bad_units s case_keys ws rs os
      = Raise AttributeError) /\
     (computed s key0 -> all_computed s rest = false ->
      get_count_units pd_Index pd_MultiIndex_from_tuples get_unit_ids
        count_well_detected_units count_overmerged_units count_redundant_units
        count_false_positive_units count_bad_units s case_keys ws rs os
      = Raise AssertionError)).
Proof.
  intros keys. split.
  - intros Hk. unfold get_count_units. fold keys. by rewrite Hk.
  - intros key0 rest index Hk Hidx. rewrite Hk in Hidx.
    unfold get_count_units. fold keys. rewrite Hk, Hidx. unfold dict_item.
    repeat split.
    + by intros ->.
    + by intros ->.
    + intros [comp Hcomp] Hrest. rewrite Hcomp.
      apply count_units_loop_not_computed. unfold all_computed in *.
      cbn [forallb]. by rewrite Hcomp.
Qed.

(** The count that the loop writes into a cell of the row of a key, if
    any. *)
Definition cell_value (comp : Comparison) (col : string) : option Z :=
  if String.eqb col "num_gt" then Some (Z.of_nat (length (get_unit_ids (sorting1 comp))))
  else if String.eqb col "num_sorter"
       then Some (Z.of_nat (length (get_unit_ids (sorting2 comp))))
  else if String.eqb col "num_well_detected"
       then Some (count_well_detected_units comp ws)
  else if negb (exhaustive_gt comp) then None
  else if String.eqb col "num_overmerged" then Some (count_overmerged_units comp os)
  else if String.eqb col "num_redundant" then Some (count_redundant_units comp rs)
  else if String.eqb col "num_false_positive"
       then Some (count_false_positive_units comp rs)
  else if String.eqb col "num_bad" then Some (count_bad_units comp)
  else None.

Lemma dict_get_set {K V} `{EqDecision K} (k k' : K) (v : V) (d : dict K V) :
  dict_get k' (dict_set k v d) = if decide (k = k') then Some v else dict_get k' d.
Proof.
  destruct (decide (k = k')) as [->|Hne];
    [apply dict_get_set_eq | by apply dict_get_set_ne].
Qed.

Lemma count_units_body_cells (df df' : DataFrame (Index := Index)) key comp :
  dict_get key (comparisons s) = Some (Some comp) ->
  body df key = Ok df' ->
  forall k col,
    dict_get (k, col) (df_cells df') =
    if decide (k = key)
    then match cell_value comp col with
         | Some v => Some v
         | None => dict_get (k, col) (df_cells df)
         end
    else dict_get (k, col) (df_cells df).
Proof.
  intros Hcomp. unfold count_units_body. rewrite Hcomp. intros H k col.
  destruct (decide (k = key)) as [->|Hne].
  - unfold cell_value.
    destruct (exhaustive_gt comp); injection H as <-; cbn [loc_set df_cells negb];
      rewrite !dict_get_set;
      repeat (match goal with
              | |- context [String.eqb col ?c] =>
                  destruct (String.eqb_spec col c) as [->|?]
              end;
              repeat (case_decide; simplify_eq; try done; try congruence));
      try done; try congruence.
  - destruct (exhaustive_gt comp); injection H as <-; cbn [loc_set df_cells];
      rewrite !dict_get_set; repeat (case_decide; simplify_eq; try done; try congruence).
Qed.

Lemma count_units_loop_cells keys : forall (df df' : DataFrame (Index := Index)),
  loop keys df = Ok df' ->
  forall k col,
    dict_get (k, col) (df_cells df') =
    if decide (k ∈ keys)
    then match dict_get k (comparisons s) with
         | Some (Some comp) =>
             match cell_value comp col with
             | Some v => Some v
             | None => dict_get (k, col) (df_cells df)
             end
         | _ => None
         end
    else dict_get (k, col) (df_cells df).
Proof.
  induction keys as [|key keys IH]; intros df df' H k col.
  - cbn in H. injection H as <-. rewrite decide_False; [done | apply not_elem_of_nil].
  - cbn [count_units_loop] in H.
    destruct (body df key) as [df1|e] eqn:Hbody; [|done].
    assert (Hcomp : exists comp, dict_get key (comparisons s) = Some (Some comp)).
    { unfold count_units_body in Hbody.
      destruct (dict_get key (comparisons s)) as [[comp|]|]; [eauto | done..]. }
    destruct Hcomp as [comp Hcomp].
    pose proof (count_units_body_cells df df1 key comp Hcomp Hbody) as Hcells.
    rewrite (IH df1 df' H k col). rewrite Hcells.
    destruct (decide (k ∈ keys)) as [Hin|Hnin].
    + rewrite (decide_True (P := k ∈ key :: keys)); [|apply elem_of_cons; by right].
      destruct (dict_get k (comparisons s)) as [[c|]|] eqn:Hk; [|done..].
      destruct (cell_value c col) eqn:Hv; [done |].
      destruct (decide (k = key)) as [->|Hne]; [|done].
      rewrite Hcomp in Hk. injection Hk as ->. by rewrite Hv.
    + destruct (decide (k = key)) as [->|Hne].
      * rewrite (decide_True (P := key ∈ key :: keys)); [|apply elem_of_cons; by left]. by rewrite Hcomp.
      * rewrite (decide_False (P := k ∈ key :: keys)); [done |].
        intros Hin. apply elem_of_cons in Hin as [?|?]; congruence.
Qed.

(** X16: the cells of the frame.  When [get_count_units] returns, the row of a
    listed key holds the number of ground-truth units, the number of sorted
    units and the number of well detected units; the four other counts are
    filled when the key's comparison has [exhaustive_gt] and are left empty
    when it has not (num_redundant and num_overmerged too). *)
Theorem get_count_units_cells (case_keys : option (list Key))
    (df : DataFrame (Index := Index)) :
  get_count_units pd_Index pd_MultiIndex_from_tuples get_unit_ids
    count_well_detected_units count_overmerged_units count_redundant_units
    count_false_positive_units count_bad_units s case_keys ws rs os = Ok df ->
  let keys := match case_keys with Some l => l | None => dict_keys (cases s) end in
  forall key, key ∈ keys ->
    exists comp,
      dict_get key (comparisons s) = Some (Some comp) /\
      dict_get (key, "num_gt") (df_cells df)
        = Some (Z.of_nat (length (get_unit_ids (sorting1 comp)))) /\
      dict_get (key, "num_sorter") (df_cells df)
        = Some (Z.of_nat (length (get_unit_ids (sorting2 comp)))) /\
      dict_get (key, "num_well_detected") (df_cells df)
        = Some (count_well_detected_units comp ws) /\
      (if exhaustive_gt comp
       then dict_get (key, "num_overmerged") (df_cells df)
              = Some (count_overmerged_units comp os) /\
            dict_get (key, "num_redundant") (df_cells df)
              = Some (count_redundant_units comp rs) /\
            dict_get (key, "num_false_positive") (df_cells df)
              = Some (count_false_positive_units comp rs) /\
            dict_get (key, "num_bad") (df_cells df) = Some (count_bad_units comp)
       else forall col, col ∈ ["num_overmerged"; "num_redundant";
                               "num_false_positive"; "num_bad"] ->
              dict_get (key, col) (df_cells df) = None).
Proof.
  intros H keys key Hin. unfold get_count_units in H. fold keys in H.
  destruct keys as [|key0 rest] eqn:Hk; [done |].
  destruct (if is_str key0 then _ else _) as [index|e]; [|done].
  destruct (dict_item key0 (comparisons s)) as [[comp0|]|e]; [|done..].
  pose proof (count_units_loop_cells _ _ _ H key) as Hcells.
  assert (Hc : exists comp, dict_get key (comparisons s) = Some (Some comp)).
  { destruct (all_computed s (key0 :: rest)) eqn:Hall.
    - apply all_computed_Forall in Hall.
      by apply (proj1 (Forall_forall _ _) Hall key).
    - by rewrite (count_units_loop_not_computed _ _ Hall) in H. }
  destruct Hc as [comp Hc]. exists comp. split; [done |].
  assert (Hcell : forall col,
            dict_get (key, col) (df_cells df) = cell_value comp col).
  { intros col. rewrite Hcells, decide_True; [|done]. rewrite Hc.
    by destruct (cell_value comp col). }

  rewrite !Hcell. unfold cell_value. cbn.
  destruct (exhaustive_gt comp) eqn:Hex; cbn; [done |]. repeat split; try done.
  intros col Hcol. rewrite Hcell. unfold cell_value. rewrite Hex.
  rewrite !elem_of_cons in Hcol.
  destruct Hcol as [->|[->|[->|[->|Hcol]]]]; [done.. |]. by apply elem_of_nil in Hcol.
Qed.
End CountUnitsExtras.

(** ** The metrics files *)

Section MetricsExtras.
Context {Frame Column WaveformExtractor UnitId : Type}.
Variable load_waveforms : FS -> Path -> Res WaveformExtractor.
Variable set_recording : WaveformExtractor -> Extractor -> WaveformExtractor.
Variable compute_quality_metrics :
  WaveformExtractor -> list string -> FS -> Res Frame * FS.
Variable to_csv : Frame -> Path -> FS -> Res unit * FS.
Variable pd_read_csv : FS -> Path -> Res Frame.
Variable unit_ids : Extractor -> list UnitId.
Variable set_index : Frame -> list UnitId -> Res Frame.
Variable getitem : Frame -> string -> Res Column.

(** The metrics file of a key. *)
Definition metrics_file (s : Study) (ks : string) : Path :=
  folder s </> "metrics" </> (ks +:+ ".txt").

(** Every listed key has a metrics file. *)
Definition metrics_present (st : MState) (keys : list Key) : bool :=
  forallb (fun key => match key_to_str key with
                      | Ok ks => path_exists (fs (world st)) (metrics_file (self st) ks)
                      | Raise _ => false
                      end) keys.

Lemma compute_metrics_body_skip names key st :
  metrics_present st [key] = true ->
  compute_metrics_body load_waveforms set_recording compute_quality_metrics to_csv
    names false key st = (Ok tt, st).
Proof.
  unfold metrics_present, metrics_file. cbn [forallb]. rewrite andb_true_r.
  destruct st as [s w]. cbn [self world].
  unfold compute_metrics_body, bind, get_self, lift, in_world, exists_, gets.
  cbn [self world]. destruct (key_to_str key) as [ks|e]; [|done].
  cbv zeta. cbn [self world fs]. by intros ->.
Qed.

(** X17: without [force], [compute_metrics] computes nothing for a key whose
    metrics file exists: when every listed key has its file, the call
    returns with the study and the file system unchanged, and no waveforms
    are loaded. *)
Theorem compute_metrics_skips_existing (case_keys : option (list Key)) names st :
  metrics_present st (match case_keys with
                      | Some l => l
                      | None => dict_keys (cases (self st))
                      end) = true ->
  compute_metrics load_waveforms set_recording compute_quality_metrics to_csv
    case_keys names false st = (Ok tt, st).
Proof.
  unfold compute_metrics. intros H.
  rewrite (bind_ok _ _ st (match case_keys with
                           | Some l => l
                           | None => dict_keys (cases (self st))
                           end) st); [|by destruct case_keys].
  induction (match case_keys with Some l => l | None => _ end) as [|key keys IH];
    [done |].
  unfold metrics_present in *. cbn [forallb] in H. apply andb_prop in H as [Hkey Hkeys].
  cbn [for_each]. rewrite (bind_ok _ _ st tt st); [by apply IH |].
  apply compute_metrics_body_skip. unfold metrics_present. cbn [forallb].
  by rewrite Hkey.
Qed.

Lemma get_metrics_missing key ks st :
  key_to_str key = Ok ks ->
  path_exists (fs (world st)) (metrics_file (self st) ks) = false ->
  get_metrics pd_read_csv unit_ids set_index key st = (Ok None, st).
Proof.
  intros Hks Hex. destruct st as [s w]. cbn [self world] in Hex.
  unfold get_metrics, bind, get_self, lift, in_world, exists_, gets.
  cbn [self world]. rewrite Hks. cbv zeta. cbn [self world fs].
  unfold metrics_file in Hex. by rewrite Hex.
Qed.

(** X18: a key without a metrics file.  [get_metrics] returns None and
    [get_units_snr], which subscripts that result, raises TypeError; the
    state is unchanged. *)
Theorem get_units_snr_without_metrics key ks st :
  key_to_str key = Ok ks ->
  path_exists (fs (world st)) (metrics_file (self st) ks) = false ->
  get_metrics pd_read_csv unit_ids set_index key st = (Ok None, st) /\
  get_units_snr pd_read_csv unit_ids set_index getitem key st = (Raise TypeError, st).
Proof.
  intros Hks Hex. pose proof (get_metrics_missing key ks st Hks Hex) as Hget.
  split; [done |]. unfold get_units_snr. by rewrite (bind_ok _ _ _ _ _ Hget).
Qed.

Lemma node_at_delete_file (f : FS) (p : Path) :
  is_file f p = true -> node_at (delete p f) p = None.
Proof.
  unfold is_file, node_at. destruct p as [|c [|c' p]].
  - done.
  - destruct (is_root c); [done |]. intros _. apply lookup_delete_eq.
  - intros _. apply lookup_delete_eq.
Qed.

(** X19: with [force], the metrics file of a key is removed before the
    waveforms are loaded.  When the load fails, [compute_metrics] raises that
    exception, the study is unchanged, the old file is gone, and
    [get_metrics] returns None for the key from then on. *)
Theorem compute_metrics_force_removes_first names key ks e st :
  key_to_str key = Ok ks ->
  is_file (fs (world st)) (metrics_file (self st) ks) = true ->
  load_waveforms (delete (metrics_file (self st) ks) (fs (world st)))
    (folder (self st) </> "waveforms" </> ks) = Raise e ->
  exists st',
    compute_metrics load_waveforms set_recording compute_quality_metrics to_csv
      (Some [key]) names true st = (Raise e, st') /\
    self st' = self st /\
    fs (world st') = delete (metrics_file (self st) ks) (fs (world st)) /\
    log (world st') = log (world st) /\
    get_metrics pd_read_csv unit_ids set_index key st' = (Ok None, st').
Proof.
  intros Hks Hfile Hload. destruct st as [s [f l]]. cbn [self world fs log] in *.
  exists (mkState s (mkWorld (delete (metrics_file s ks) f) l)).
  cbn [self world fs log]. repeat split.
  - assert (Hex : path_exists f (metrics_file s ks) = true).
    { unfold is_file in Hfile. unfold path_exists.
      by destruct (node_at f (metrics_file s ks)). }
    assert (Hrm : remove f (metrics_file s ks) = Ok (delete (metrics_file s ks) f)).
    { unfold is_file in Hfile. unfold remove.
      by destruct (node_at f (metrics_file s ks)) as [[|c]|]. }
    unfold compute_metrics, keys_or_all, compute_metrics_body, get_waveform_extractor,
      call_fs, bind, ret, get_self, in_world, exists_, gets, lift, fs_op.
    cbn [for_each self world fs log].
    unfold bind, get_self, in_world, exists_, gets, lift.
    cbn [self world fs log]. rewrite Hks. cbv zeta. fold (metrics_file s ks).
    rewrite Hex. cbn [andb negb self world fs log]. rewrite Hrm. unfold set_fs.
    cbn [self world fs log]. by rewrite Hload.
  - apply (get_metrics_missing key ks); [done |]. cbn [self world fs].
    unfold path_exists. by rewrite node_at_delete_file.
Qed.
End MetricsExtras.

(** ** A [create] that fails late *)

Section CreateFailure.
Context `{Ext : Externals}.

(** A step of [create] that makes a folder, followed by steps that fail and
    keep the folder [dir]: the whole fails and keeps [dir]. *)
Lemma mkdir_then_fail {A} (dir p : Path) (l : list Event) (k : M World A) :
  (forall w : World, is_dir (fs w) dir = true -> log w = l ->
     forall r w', k w = (r, w') ->
       is_ok r = false /\ is_dir (fs w') dir = true /\ log w' = l) ->
  forall w : World, is_dir (fs w) dir = true -> log w = l ->
    forall r w', (fs_op (fun f => mkdir f p) >> k) w = (r, w') ->
      is_ok r = false /\ is_dir (fs w') dir = true /\ log w' = l.
Proof.
  intros Hk w Hdir Hlog r w'. unfold bind, fs_op.
  destruct (mkdir (fs w) p) as [f'|e] eqn:Hm.
  - apply Hk; [|done]. cbn [fs set_fs]. apply mkdir_Ok in Hm as [Hkeep _].
    by apply (keeps_dirs_is_dir (fs w)).
  - intros H. by inversion H; subst.
Qed.

(** X20: [create] is not atomic.  The names of the datasets are checked
    after the folders of the study are made: when the first dataset name
    contains a slash or a backslash, [create] fails without having called
    any external writer, the study folder stays behind, and the same call
    made again is refused with FileExistsError. *)
Theorem create_bad_dataset_key_leaves_folder
    study_folder key v rest cases levels lv (w : World) f1 r w' :
  check_keys cases levels = Ok lv ->
  mkdir_parents (fs w) (parse_path study_folder) = Ok f1 ->
  str_contains "/" key || str_contains "\" key = true ->
  create study_folder ((key, v) :: rest) cases levels w = (r, w') ->
  is_ok r = false /\
  is_dir (fs w') (parse_path study_folder) = true /\
  log w' = log w /\
  create study_folder ((key, v) :: rest) cases levels w' = (Raise FileExistsError, w').
Proof.
  intros Hlv Hmk Hbad H.
  assert (Hres : is_ok r = false /\ is_dir (fs w') (parse_path study_folder) = true /\
                 log w' = log w).
  { unfold create in H. unfold bind at 1, lift in H. rewrite Hlv in H.
    unfold bind at 1, fs_op at 1 in H. rewrite Hmk in H.
    apply mkdir_parents_Ok in Hmk as [_ Hdir].
    revert r w' H.
    refine (mkdir_then_fail (parse_path study_folder) _ (log w) _ _ (set_fs f1 w)
              Hdir eq_refl).
    do 6 (intros w1 Hd1 Hl1;
          refine (mkdir_then_fail (parse_path study_folder) _ (log w) _ _ w1 Hd1 Hl1);
          clear w1 Hd1 Hl1).
    intros w1 Hd1 Hl1 r w' H. cbn [for_each] in H. destruct v as [rec gt].
    unfold bind at 1 2 3 in H. unfold assert at 1 in H.
    destruct (str_contains "/" key); cbn [negb] in H.
    - unfold raise in H. by inversion H; subst.
    - cbn [orb] in Hbad. unfold ret at 1 in H. unfold bind at 1 in H.
      unfold assert at 1 in H. rewrite Hbad in H. cbn [negb] in H.
      unfold raise in H. by inversion H; subst. }
  destruct Hres as (Hr & Hdir & Hlog). repeat split; try done.
  unfold create, bind, lift. rewrite Hlv. unfold fs_op, mkdir_parents, path_exists.
  unfold is_dir in Hdir. by destruct (node_at (fs w') (parse_path study_folder)) as [[|c]|].
Qed.
End CreateFailure.

End StudyExtras.

(* ===================================================================== *)
(** * The results on the concrete setting                                 *)
(* ===================================================================== *)

Module Checks.
Import Py PathLib GroundTruthStudy PyFacts PathLibFacts StudyFacts Demo.

(** The stand-in writers leave the existing directories in place. *)
Lemma demo_writers_keep_dirs : writers_keep_dirs demo_ext.
Proof.
  repeat apply conj; cbn.
  - intros e p f r f'. unfold demo_dump_to_pickle.
    destruct (write_file f p (CPickleExtractor e)) as [f1|x] eqn:Hw; intros H;
      inversion H; subst. by apply write_file_Ok in Hw as [_ Hk].
  - intros e p f e' f'. unfold demo_save_numpy_folder.
    destruct (mkdir f p) as [f1|x] eqn:Hm; [|intros H; inversion H].
    destruct (write_file f1 _ _) as [f2|x] eqn:Hw; intros H; inversion H; subst.
    apply mkdir_Ok in Hm as [Hk1 _]. apply write_file_Ok in Hw as [_ Hk2].
    by eapply keeps_dirs_trans.
  - intros r s p f u f'. unfold demo_extract_waveforms.
    destruct (mkdir f p) as [f1|x] eqn:Hm; intros H; inversion H; subst.
    by apply mkdir_Ok in Hm as [Hk _].
Qed.

Lemma created_is : created = (Ok created_study, created_world).
Proof. vm_compute; reflexivity. Qed.

(** C1 on the study in which case tdc2 is sorted and case sc2 is not: one
    job, for sc2, in one call. *)
Lemma run_sorters_keep_builds_jobs_witness :
  let s := self partly_sorted_state in
  let w := world partly_sorted_state in
  List.filter (fun key => negb (sorting_exists s (fs w) key)) (dict_keys (cases s))
    = [KStr "sc2"] /\
  exists job_list,
    Forall2 (job_description s false)
      (List.filter (fun key => negb (sorting_exists s (fs w) key)) (dict_keys (cases s)))
      job_list /\
    run_sorters_loop true false (dict_keys (cases s)) [] (mkState s w)
      = (Ok job_list, mkState s w) /\
    run_sorter_jobs_calls
      (log (world (run_sorters None "loop" ∅ true false (mkState s w)).2))
    = run_sorter_jobs_calls (log w) ++ [(job_list, "loop", ∅)].
Proof.
  intros s w. split; [vm_compute; reflexivity |].
  apply (run_sorters_keep_builds_jobs None "loop" ∅ false s w).
  apply (keys_ready_check s (fs w) false). vm_compute; reflexivity.
Defined.

(** C2 on an empty file system. *)
Lemma init_requires_datasets_witness :
  scan_folder (mkState (new_study ["nowhere"]) w0)
    = (Raise ValueError, mkState (new_study ["nowhere"]) w0) /\
  init ["nowhere"] w0 = (Raise ValueError, w0).
Proof. apply init_requires_datasets. reflexivity. Defined.

(** A study whose only case names a dataset that the study does not hold:
    the scan stores None as the sorting of the case, and [run_comparisons]
    raises KeyError. *)
Lemma run_comparisons_raises_without_dataset :
  let cases := [(KStr "k", mkCase (Some "nope") None)] in
  let r := create "study" [] cases None w0 in
  match r.1 with
  | Ok s =>
      dict_get (KStr "k") (sortings s) = Some None /\
      (run_comparisons None demo_comparison_class ∅ (mkState s r.2)).1 = Raise KeyError
  | Raise _ => False
  end.
Proof. vm_compute. split; reflexivity. Qed.

(** C3 (amended) on the created study, where no case is sorted yet, on the
    same study without its datasets, and on a sorter folder left by a failed
    run. *)
Lemma missing_sorter_output_is_skipped_witness :
  let s := created_study in
  let w := created_world in
  let key := KStr "tdc2" in
  let scan := scan_folder (mkState (new_study ["study"]) w) in
  scan_sorting_body ["study"] key (mkState s w) =
    (Ok tt, mkState (set_sortings (dict_set key None (sortings s)) s) w) /\
  dict_get key (sortings (self scan.2)) = Some None /\
  (let s1 := set_comparisons (dict_set key None (comparisons s)) s in
   dict_get key (comparisons s1) = Some None /\
   run_comparisons_body demo_comparison_class ∅ key (mkState s w) = (Ok tt, mkState s1 w) /\
   run_comparisons (Some [key; KStr "sc2"]) demo_comparison_class ∅ (mkState s w) =
     run_comparisons (Some [KStr "sc2"]) demo_comparison_class ∅ (mkState s1 w)) /\
  run_comparisons (Some [key; KStr "sc2"]) demo_comparison_class ∅
    (mkState (set_datasets [] s) w) = (Raise KeyError, mkState (set_datasets [] s) w) /\
  exists evs,
    copy_sortings_body true key (mkState s failed_run_world) =
      (Ok tt, mkState s (mkWorld (fs failed_run_world) (log failed_run_world ++ evs))).
Proof.
  intros s w key scan.
  destruct missing_sorter_output_is_skipped as (Hscan1 & Hscan & Hcomp & Hkey & Hcopy).
  split; [|split; [|split; [|split]]].
  - apply (Hscan1 ["study"] key "tdc2" s w); vm_compute; reflexivity.
  - apply (Hscan (new_study ["study"]) w (self scan.2) (world scan.2) key "tdc2");
      [vm_compute; reflexivity | vm_compute; left
      | vm_compute; reflexivity | vm_compute; reflexivity].
  - pose (case := mkCase (Some "toy") (Some (<["sorter_name" := VStr "tridesclous2"]> ∅))).
    assert (H1 : dict_get key (cases s) = Some case) by (vm_compute; reflexivity).
    assert (H2 : dict_get "toy" (datasets s) = Some (rec0, gt0)) by (vm_compute; reflexivity).
    assert (H3 : dict_get key (sortings s) = Some None) by (vm_compute; reflexivity).
    exact (Hcomp demo_comparison_class ∅ key [KStr "sc2"] s w case "toy" rec0 gt0
             H1 eq_refl H2 H3).
  - apply (Hkey demo_comparison_class ∅ key [KStr "sc2"] (set_datasets [] s) w).
    vm_compute; reflexivity.
  - apply (Hcopy true key "tdc2" s failed_run_world); vm_compute; reflexivity.
Defined.



(** The created study has no waveforms folder: [create] does not make it. *)
Lemma create_makes_no_waveforms_folder :
  create "study" demo_datasets demo_cases None w0 = (Ok created_study, created_world) /\
  path_exists (fs created_world) (parse_path "study" </> "waveforms") = false.
Proof. split; vm_compute; reflexivity. Qed.

(** C5 (amended) on the created study. *)
Lemma create_establishes_layout_witness :
  let dir := parse_path "study" in
  (all_dirs (fs created_world)
     [dir </> "metrics"; dir </> "sortings" </> "run_logs"; dir </> "sortings";
      dir </> "sorters"; dir </> "datasets/gt_sortings"; dir </> "datasets/recordings";
      dir </> "datasets"; dir] /\
   (exists lv, check_keys demo_cases None = Ok lv /\
      fs created_world !! (dir </> "info.json") = Some (File (CJson [("levels", lv)]))) /\
   fs created_world !! (dir </> "cases.pickle") = Some (File (CPickleCases demo_cases))) /\
  is_dir (fs (world (extract_waveforms_gt None (mkState created_study created_world)).2))
    (folder created_study </> "waveforms") = true.
Proof.
  intros dir.
  destruct (create_establishes_layout demo_writers_keep_dirs) as [Hcreate Hwf]. split.
  - apply (Hcreate "study" demo_datasets demo_cases None w0 created_study created_world).
    apply created_is.
  - apply (Hwf None created_study created_world). vm_compute; reflexivity.
Defined.

(** The data frame of a study whose first case is compared without
    [exhaustive_gt] and whose second case is compared with it has the two
    additional columns. *)
Lemma get_count_units_columns_counterexample :
  let s := self compared_state in
  let keys := [KStr "tdc2"; KStr "sc2"] in
  is_exhaustive s (KStr "tdc2") = false /\
  all_computed s keys = true /\
  match demo_get_count_units s (Some keys) with
  | Ok df => Some (df_columns df)
  | Raise _ => None
  end = Some ["num_gt"; "num_sorter"; "num_well_detected"; "num_redundant";
              "num_overmerged"; "num_false_positive"; "num_bad"].
Proof. repeat split; vm_compute; reflexivity. Qed.

(** C6 (amended) on that study. *)
Lemma get_count_units_columns_witness :
  exists df,
    demo_get_count_units (self compared_state) None = Ok df /\
    df_columns df =
      ["num_gt"; "num_sorter"; "num_well_detected"; "num_redundant"; "num_overmerged"]
      ++ (if existsb (is_exhaustive (self compared_state)) [KStr "tdc2"; KStr "sc2"]
          then ["num_false_positive"; "num_bad"] else []).
Proof.
  apply (get_count_units_columns demo_pd_Index demo_pd_Index demo_get_unit_ids
           demo_count demo_count demo_count demo_count demo_count_bad
           (self compared_state) None None None None
           (KStr "tdc2") [KStr "sc2"] [KStr "tdc2"; KStr "sc2"]).
  - vm_compute; reflexivity.
  - apply all_computed_Forall. vm_compute; reflexivity.
  - vm_compute; reflexivity.
Defined.

(** C8 on the study after a non-blocking run: the sorter folder of tdc2
    holds a readable sorting, its sortings folder does not exist, and the
    loop builds the job again. *)
Lemma recovery_branch_unreachable_witness :
  let s := self slurm_state in
  let w := world slurm_state in
  let key := KStr "tdc2" in
  read_sorter_folder (fs w) (folder s </> "sorters" </> "tdc2")
    = Ok (Some (ExtractorObj 100)) /\
  path_exists (fs w) (folder s </> "sortings" </> "tdc2") = false /\
  is_ok (make_job s key (folder s </> "sorters" </> "tdc2") false) = true /\
  run_sorters_body true false key (mkState s w) =
    (match make_job s key (folder s </> "sorters" </> "tdc2") false with
     | Ok job => Ok (Some job)
     | Raise e => Raise e
     end, mkState s w).
Proof.
  intros s w key.
  assert (Hex : path_exists (fs w) (folder s </> "sortings" </> "tdc2") = false)
    by (vm_compute; reflexivity).
  split; [vm_compute; reflexivity |]. split; [exact Hex |].
  split; [vm_compute; reflexivity |].
  rewrite (proj1 (recovery_branch_unreachable false key s w)).
  cbn [key_to_str key]. by rewrite Hex.
Defined.

(** C9 on the created study. *)
Lemma scan_folder_establishes_scanned_witness :
  scanned created_study (fs created_world) /\
  dict_keys (sortings created_study) = [KStr "tdc2"; KStr "sc2"] /\
  dict_keys (comparisons created_study) = [KStr "tdc2"; KStr "sc2"].
Proof.
  split; [| split; vm_compute; reflexivity].
  destruct scan_folder_establishes_scanned as (_ & _ & Hcreate).
  apply (Hcreate "study" demo_datasets demo_cases None w0 created_study created_world).
  apply created_is.
Defined.

End Checks.

(* ===================================================================== *)
(** * The further properties on the example study                         *)
(* ===================================================================== *)

Module ExtraChecks.
Import Py PathLib GroundTruthStudy PyFacts PathLibFacts StudyFacts Demo StudyExtras.

(** Closes an equation between closed terms by evaluating both sides in the
    virtual machine, without building their normal forms into the proof. *)
Ltac vm_refl :=
  lazymatch goal with
  | |- ?a = ?b => exact (@eq_refl _ b <: a = b)
  end.

(** A run that returns, written with the parts of its final state. *)
Lemma run_returns {A} (x : Res A * MState) (a : A) :
  x.1 = Ok a -> x = (Ok a, mkState (self x.2) (world x.2)).
Proof. destruct x as [r [s w]]. cbn. by intros ->. Qed.



(** X2 on the created study. *)
Lemma create_round_trip_witness :
  folder created_study = parse_path "study" /\
  cases created_study = demo_cases /\
  Ok (levels created_study) = check_keys demo_cases None /\
  info created_study = [("levels", levels created_study)].
Proof.
  apply (create_round_trip "study" demo_datasets demo_cases None w0
           created_study created_world).
  apply Checks.created_is.
Defined.

(** X3 on the created study, whose keys are strings. *)
Lemma create_levels_match_keys_witness :
  exists name, levels created_study = JStr name /\
    ((None : option Json) = None -> name = "level0").
Proof.
  exact (create_levels_match_keys "study" demo_datasets demo_cases None w0
           created_study created_world Checks.created_is).
Defined.

(** X4 on the created study: a second [create] on its folder is refused, and
    the folder did not exist before the first. *)
Lemma create_refuses_existing_folder_witness :
  create "study" demo_datasets demo_cases None created_world
    = (Raise FileExistsError, created_world) /\
  path_exists (fs w0) (parse_path "study") = false.
Proof.
  split.
  - apply (proj1 (create_refuses_existing_folder "study" demo_datasets demo_cases None
                    created_world) (JStr "level0")); vm_refl.
  - apply (proj2 (create_refuses_existing_folder "study" demo_datasets demo_cases None w0)
             created_study created_world).
    apply Checks.created_is.
Defined.

(** X5 on the created study with a key that has no folder name: the job of
    tdc2 is built, the integer key raises, and nothing has run. *)
Lemma run_sorters_builds_before_running_witness :
  run_sorters (Some [KStr "tdc2"; KInt 3]) "loop" ∅ false false
    (mkState created_study created_world)
  = (Raise ValueError, mkState created_study created_world).
Proof.
  apply (run_sorters_builds_before_running (Some [KStr "tdc2"; KInt 3]) "loop" ∅
           false false created_study created_world ValueError).
  vm_refl.
Defined.

(** X6 on the created study. *)
Lemma run_sorters_slurm_collects_nothing_witness :
  let s := created_study in
  let w := created_world in
  exists job_list,
    length job_list = 2 /\
    run_sorters None "slurm" ∅ true false (mkState s w)
    = ((run_sorter_jobs job_list "slurm" ∅ (fs w)).1,
       mkState s
         (mkWorld (run_sorter_jobs job_list "slurm" ∅ (fs w)).2
                  (log w ++ [EvRunSorterJobs job_list "slurm" ∅]))).
Proof.
  intros s w.
  pose (jobs := match (run_sorters_loop true false (dict_keys (cases s)) []
                         (mkState s w)).1 with
                | Ok l => l
                | Raise _ => []
                end).
  assert (Hloop : (run_sorters_loop true false (dict_keys (cases s)) []
                     (mkState s w)).1 = Ok jobs) by vm_refl.
  exists jobs. split; [vm_refl |].
  exact (run_sorters_slurm_collects_nothing None ∅ true false s w jobs Hloop).
Defined.

(** X7 on the sorted study: both cases are sorted and both get a job. *)
Lemma run_sorters_no_keep_runs_all_witness :
  let s := self sorted_state in
  let w := world sorted_state in
  forallb (sorting_exists s (fs w)) (dict_keys (cases s)) = true /\
  exists job_list,
    Forall2 (job_description s false) (dict_keys (cases s)) job_list /\
    run_sorters_loop false false (dict_keys (cases s)) [] (mkState s w)
      = (Ok job_list, mkState s w) /\
    run_sorter_jobs_calls
      (log (world (run_sorters None "loop" ∅ false false (mkState s w)).2))
    = run_sorter_jobs_calls (log w) ++ [(job_list, "loop", ∅)].
Proof.
  intros s w. split; [vm_refl |].
  apply (run_sorters_no_keep_runs_all None "loop" ∅ false s w).
  apply (keys_runnable_check s false). vm_refl.
Defined.

(** X8 on the sorted study. *)
Lemma copy_sortings_keeps_existing_witness :
  let s := self sorted_state in
  let w := world sorted_state in
  copy_sortings (Some [KStr "tdc2"]) false (mkState s w) =
    (Ok tt,
     mkState s (mkWorld (fs w)
                  (log w ++ [EvReadSorterFolder (folder s </> "sorters" </> "tdc2")]))).
Proof.
  intros s w.
  assert (Hex : path_exists (fs w) (folder s </> "sortings" </> "tdc2") = true)
    by vm_refl.
  assert (Hread : read_sorter_folder (fs w) (folder s </> "sorters" </> "tdc2")
                  = Ok (Some (ExtractorObj 100))) by vm_refl.
  exact (copy_sortings_keeps_existing (KStr "tdc2") "tdc2" s w _ eq_refl Hex Hread).
Defined.

(** X9 on the study after a non-blocking run. *)
Lemma copy_sortings_copies_witness :
  let s := self slurm_state in
  let w := world slurm_state in
  let key := KStr "tdc2" in
  let run := copy_sortings (Some [key]) true (mkState s w) in
  run.1 = Ok tt /\
  dict_get key (sortings (self run.2)) = Some (Some (ExtractorObj 100)) /\
  (exists f1 saved,
     (if path_exists (fs w) (folder s </> "sortings" </> "tdc2")
      then rmtree (fs w) (folder s </> "sortings" </> "tdc2")
      else Ok (fs w)) = Ok f1 /\
     (save_numpy_folder (ExtractorObj 100) (folder s </> "sortings" </> "tdc2") f1).1
       = Ok saved /\
     dict_get key (sortings (self run.2)) = Some (Some saved)) /\
  (forall k, k <> key ->
     dict_get k (sortings (self run.2)) = dict_get k (sortings s)) /\
  log (world run.2)
    = log w ++ [EvReadSorterFolder (folder s </> "sorters" </> "tdc2");
                EvSave (ExtractorObj 100) (folder s </> "sortings" </> "tdc2")] /\
  (exists c,
     read_file (fs (world run.2))
       (folder s </> "sortings" </> "run_logs" </> ("tdc2" +:+ ".json")) = Ok c /\
     read_file (fs (world run.2))
       (folder s </> "sorters" </> "tdc2" </> "spikeinterface_log.json") = Ok c).
Proof.
  intros s w key run.
  assert (Hrun : run.1 = Ok tt) by vm_refl.
  split; [exact Hrun |]. split; [vm_refl |].
  assert (Hread : read_sorter_folder (fs w) (folder s </> "sorters" </> "tdc2")
                  = Ok (Some (ExtractorObj 100))) by vm_refl.
  assert (Hskip : path_exists (fs w) (folder s </> "sortings" </> "tdc2") && negb true
                  = false) by vm_refl.
  exact (copy_sortings_copies true key "tdc2" s w (ExtractorObj 100)
           (self run.2) (world run.2) eq_refl Hread Hskip (run_returns run tt Hrun)).
Defined.



(** X12 on the study after a non-blocking run in which the sorter of tdc2
    recorded its run time. *)
Lemma get_run_times_after_copy_witness :
  let s := self timed_slurm_state in
  let w := world timed_slurm_state in
  let run := copy_sortings (Some [KStr "tdc2"]) true (mkState s w) in
  (get_run_times (Some [KStr "tdc2"]) (mkState (self run.2) (world run.2))).1
    = Ok [(KStr "tdc2", JInt 12)].
Proof.
  intros s w run.
  assert (Hrun : run.1 = Ok tt) by vm_refl.
  assert (Hread : read_sorter_folder (fs w) (folder s </> "sorters" </> "tdc2")
                  = Ok (Some (ExtractorObj 100))) by vm_refl.
  assert (Hskip : path_exists (fs w) (folder s </> "sortings" </> "tdc2") && negb true
                  = false) by vm_refl.
  assert (Hlog : read_file (fs (world run.2))
                   (folder s </> "sorters" </> "tdc2" </> "spikeinterface_log.json")
                 = Ok (CJson [("run_time", JInt 12)])) by vm_refl.
  exact (get_run_times_after_copy true (KStr "tdc2") "tdc2" s w (ExtractorObj 100)
           (self run.2) (world run.2) [("run_time", JInt 12)]
           eq_refl Hread Hskip (run_returns run tt Hrun) Hlog).
Defined.

(** X13 on the sorted study. *)
Lemma run_comparisons_follows_sortings_witness :
  let s := self sorted_state in
  let w := world sorted_state in
  let run := run_comparisons None demo_comparison_class ∅ (mkState s w) in
  run.1 = Ok tt /\
  world run.2 = w /\ cases (self run.2) = cases s /\ datasets (self run.2) = datasets s /\
  sortings (self run.2) = sortings s /\
  dict_get (KStr "tdc2") (comparisons (self run.2))
    = Some (Some (mkComparison gt0 (ExtractorObj 100) false 100)).
Proof.
  cbv zeta.
  assert (Hrun : (run_comparisons None demo_comparison_class ∅
                    (mkState (self sorted_state) (world sorted_state))).1 = Ok tt)
    by vm_refl.
  pose proof (run_comparisons_follows_sortings _ _ _ _ _ _ _ (run_returns _ _ Hrun)) as H.
  cbv zeta in H. destruct H as (Hw & Hc & Hd & Hs & _).
  split; [exact Hrun |].
  split; [exact Hw |]. split; [exact Hc |]. split; [exact Hd |]. split; [exact Hs |].
  vm_refl.
Defined.

(** X14 on the created study. *)
Lemma extract_waveforms_gt_calls_witness :
  let s := created_study in
  let w := created_world in
  let run := extract_waveforms_gt None (mkState s w) in
  run.1 = Ok tt /\
  self run.2 = s /\
  exists evs, log (world run.2) = log w ++ evs /\
    Forall2 (waveform_call s) (dict_keys (cases s)) evs.
Proof.
  cbv zeta.
  assert (Hrun : (extract_waveforms_gt None (mkState created_study created_world)).1
                 = Ok tt) by vm_refl.
  split; [exact Hrun |].
  exact (extract_waveforms_gt_calls _ _ _ _ _ (run_returns _ _ Hrun)).
Defined.

(** X15 on the example studies: no key; a key that is no case; the created
    study, where no comparison is computed; and the compared study with a
    second key that is no case. *)
Lemma get_count_units_errors_witness :
  demo_get_count_units (self compared_state) (Some []) = Raise IndexError /\
  demo_get_count_units (self compared_state) (Some [KStr "other"]) = Raise KeyError /\
  demo_get_count_units created_study None = Raise AttributeError /\
  demo_get_count_units (self compared_state) (Some [KStr "tdc2"; KStr "other"])
    = Raise AssertionError.
Proof.
  unfold demo_get_count_units. repeat apply conj.
  - by apply (proj1 (get_count_units_errors demo_pd_Index demo_pd_Index demo_get_unit_ids
                       demo_count demo_count demo_count demo_count demo_count_bad
                       (self compared_state) None None None (Some []))).
  - apply (proj1 (proj2 (get_count_units_errors demo_pd_Index demo_pd_Index
                           demo_get_unit_ids demo_count demo_count demo_count demo_count
                           demo_count_bad (self compared_state) None None None
                           (Some [KStr "other"]))
                    (KStr "other") [] [KStr "other"] eq_refl eq_refl)).
    vm_refl.
  - apply (proj1 (proj2 (proj2 (get_count_units_errors demo_pd_Index demo_pd_Index
                           demo_get_unit_ids demo_count demo_count demo_count demo_count
                           demo_count_bad created_study None None None None)
                    (KStr "tdc2") [KStr "sc2"] [KStr "tdc2"; KStr "sc2"]
                    ltac:(vm_refl) ltac:(vm_refl)))).
    vm_refl.
  - apply (proj2 (proj2 (proj2 (get_count_units_errors demo_pd_Index demo_pd_Index
                           demo_get_unit_ids demo_count demo_count demo_count demo_count
                           demo_count_bad (self compared_state) None None None
                           (Some [KStr "tdc2"; KStr "other"]))
                    (KStr "tdc2") [KStr "other"] [KStr "tdc2"; KStr "other"]
                    eq_refl eq_refl))).
    + exists (mkComparison gt0 (ExtractorObj 100) false 100). vm_refl.
    + vm_refl.
Defined.

(** X16 on the compared study: case tdc2 is compared without
    [exhaustive_gt] and case sc2 with it. *)
Lemma get_count_units_cells_witness :
  let s := self compared_state in
  exists df,
    demo_get_count_units s None = Ok df /\
    dict_get (KStr "tdc2", "num_gt") (df_cells df) = Some 2%Z /\
    dict_get (KStr "tdc2", "num_redundant") (df_cells df) = None /\
    dict_get (KStr "sc2", "num_redundant") (df_cells df) = Some 3%Z.
Proof.
  intros s.
  pose (df := match demo_get_count_units s None with
              | Ok df => df
              | Raise _ => new_frame [] []
              end).
  assert (Hdf : demo_get_count_units s None = Ok df) by vm_refl.
  exists df. split; [exact Hdf |].
  pose proof (get_count_units_cells demo_pd_Index demo_pd_Index demo_get_unit_ids
                demo_count demo_count demo_count demo_count demo_count_bad
                s None None None None df Hdf) as Hcells.
  assert (Hkeys : dict_keys (cases s) = [KStr "tdc2"; KStr "sc2"])
    by vm_refl.
  cbv zeta in Hcells. rewrite Hkeys in Hcells.
  assert (H1 : dict_get (KStr "tdc2") (comparisons s)
               = Some (Some (mkComparison gt0 (ExtractorObj 100) false 100)))
    by vm_refl.
  assert (H2 : dict_get (KStr "sc2") (comparisons s)
               = Some (Some (mkComparison gt0 (ExtractorObj 101) true 101)))
    by vm_refl.
  destruct (Hcells (KStr "tdc2")) as (c1 & Hc1 & Hgt & _ & _ & Hrest1);
    [apply elem_of_cons; by left |].
  destruct (Hcells (KStr "sc2")) as (c2 & Hc2 & _ & _ & _ & Hrest2);
    [apply elem_of_cons; right; apply elem_of_cons; by left |].
  rewrite H1 in Hc1. injection Hc1 as <-. rewrite H2 in Hc2. injection Hc2 as <-.
  cbn [exhaustive_gt] in Hrest1, Hrest2. split; [exact Hgt |]. split.
  - apply Hrest1. apply elem_of_cons; right; apply elem_of_cons; by left.
  - exact (proj1 (proj2 Hrest2)).
Defined.

(** X17 on the study whose metrics are computed: a second call without
    [force] changes nothing. *)
Lemma compute_metrics_skips_existing_witness :
  compute_metrics demo_load_waveforms demo_set_recording demo_compute_quality_metrics
    demo_to_csv None ["snr"; "firing_rate"] false metrics_state = (Ok tt, metrics_state).
Proof.
  apply (compute_metrics_skips_existing demo_load_waveforms demo_set_recording
           demo_compute_quality_metrics demo_to_csv None ["snr"; "firing_rate"]
           metrics_state).
  vm_refl.
Defined.

(** X18 on the created study, whose metrics are not computed. *)
Lemma get_units_snr_without_metrics_witness :
  get_metrics demo_pd_read_csv demo_get_unit_ids demo_set_index (KStr "tdc2") created_state
    = (Ok None, created_state) /\
  get_units_snr demo_pd_read_csv demo_get_unit_ids demo_set_index demo_getitem
    (KStr "tdc2") created_state = (Raise TypeError, created_state).
Proof.
  apply (get_units_snr_without_metrics demo_pd_read_csv demo_get_unit_ids demo_set_index
           demo_getitem (KStr "tdc2") "tdc2" created_state).
  - reflexivity.
  - vm_refl.
Defined.

(** X19 on the study with a metrics file of tdc2 and no waveforms: the
    forced call fails in [load_waveforms] and the file is gone. *)
Lemma compute_metrics_force_removes_first_witness :
  let st := stale_metrics_state in
  let filename := metrics_file (self st) "tdc2" in
  is_file (fs (world st)) filename = true /\
  exists st',
    compute_metrics demo_load_waveforms demo_set_recording demo_compute_quality_metrics
      demo_to_csv (Some [KStr "tdc2"]) ["snr"] true st
      = (Raise (ExternalError "load_waveforms"), st') /\
    self st' = self st /\
    fs (world st') = delete filename (fs (world st)) /\
    log (world st') = log (world st) /\
    get_metrics demo_pd_read_csv demo_get_unit_ids demo_set_index (KStr "tdc2") st'
      = (Ok None, st').
Proof.
  intros st filename.
  assert (Hfile : is_file (fs (world st)) filename = true) by vm_refl.
  split; [exact Hfile |].
  apply (compute_metrics_force_removes_first demo_load_waveforms demo_set_recording
           demo_compute_quality_metrics demo_to_csv demo_pd_read_csv demo_get_unit_ids
           demo_set_index ["snr"] (KStr "tdc2") "tdc2" (ExternalError "load_waveforms") st).
  - reflexivity.
  - exact Hfile.
  - vm_refl.
Defined.

(** X20 on an empty file system, with a dataset named toy/1. *)
Lemma create_bad_dataset_key_leaves_folder_witness :
  let datasets := [("toy/1", (rec0, gt0))] in
  let w' := (create "study" datasets demo_cases None w0).2 in
  create "study" datasets demo_cases None w0 = (Raise AssertionError, w') /\
  is_dir (fs w') (parse_path "study") = true /\
  log w' = log w0 /\
  create "study" datasets demo_cases None w' = (Raise FileExistsError, w').
Proof.
  intros datasets w'.
  assert (Hrun : create "study" datasets demo_cases None w0 = (Raise AssertionError, w'))
    by vm_refl.
  split; [exact Hrun |].
  pose (f1 := match mkdir_parents (fs w0) (parse_path "study") with
              | Ok f => f
              | Raise _ => ∅
              end).
  assert (Hmk : mkdir_parents (fs w0) (parse_path "study") = Ok f1) by vm_refl.
  exact (proj2 (create_bad_dataset_key_leaves_folder "study" "toy/1" (rec0, gt0) []
                  demo_cases None (JStr "level0") w0 f1 (Raise AssertionError) w'
                  eq_refl Hmk eq_refl Hrun)).
Defined.

End ExtraChecks.
